(** * In-memory zone finder (src/lib/datasrc/memory/zone_finder.cc)

    A shallow embedding of the lookup core of the in-memory data source:
    [cutCallback], [createFindResult], [getClosestNSEC], [getNSECForNXRRSET],
    [findNode], [InMemoryZoneFinderNSEC3Calculate], [find_internal] and
    [findNSEC3], together with the properties of the zone lookup
    specification that concern them. *)

From Stdlib Require Import List ZArith Bool String Ascii Lia Sorted.
From Stdlib.Strings Require Import Byte.
Import ListNotations.
Local Open Scope Z_scope.

Set Implicit Arguments.
Set Warnings "-register-all".

(** ** Outcomes of fallible code

    [isc_throw] leaves the function with an exception; a failed [assert]
    aborts the process.  Both are kept apart from a normal return. *)

Inductive Exception : Type :=
| OutOfZone
| DataSourceError.

Inductive Outcome (A : Type) : Type :=
| Return (a : A)
| Throw (e : Exception)
| AssertionFailed.

Arguments Return {A} a.
Arguments Throw {A} e.
Arguments AssertionFailed {A}.

Definition bind {A B : Type} (m : Outcome A) (k : A -> Outcome B) : Outcome B :=
  match m with
  | Return a => k a
  | Throw e => Throw e
  | AssertionFailed => AssertionFailed
  end.

Notation "x <- m ;; k" := (bind m (fun x => k))
  (at level 61, m at next level, right associativity).
Notation "' pat <- m ;; k" := (bind m (fun x => match x with pat => k end))
  (at level 61, pat pattern, m at next level, right associativity).

Definition assert (b : bool) : Outcome unit :=
  if b then Return tt else AssertionFailed.

(** ** RR types and rdata sets *)

(** Modelled from the spec: [RRType] (dns/rrtype.h) is not part of the
    sources; an RR type is its 16-bit type code, the constants are those of
    the DNS type registry. *)
Definition RRType := Z.

Module RRTypes.
Definition A : RRType := 1.
Definition NS : RRType := 2.
Definition CNAME : RRType := 5.
Definition TXT : RRType := 16.
Definition DNAME : RRType := 39.
Definition DS : RRType := 43.
Definition NSEC : RRType := 47.
Definition NSEC3 : RRType := 50.
Definition ANY : RRType := 255.
End RRTypes.

Definition RRClass := Z.

(** Modelled from the spec: [RdataSet] (datasrc/memory/rdataset.h) is not
    part of the sources.  The serialized rdata of one type at a node; the
    [next] pointer is the tail of the list the set sits in. *)
Record RdataSet : Type := mkRdataSet {
  rdata_type : RRType;
  getRdataCount : Z;
  getSigRdataCount : Z;
  getDataBuf : list byte
}.

(** Modelled from the spec: [RdataSet::find(head, type)] is declared in
    datasrc/memory/rdataset.h, which is not part of the sources; it is the
    scan of the per-node list for the set of the given type.  A null head
    is the empty list, a null result is [None]. *)
Fixpoint RdataSet_find (head : list RdataSet) (type : RRType) : option RdataSet :=
  match head with
  | [] => None
  | rds :: next => if rdata_type rds =? type then Some rds
                   else RdataSet_find next type
  end.

(** ** Names and label sequences

    A label sequence is the list of its labels, leftmost first; an absolute
    sequence ends with the root label, the empty string, as in wire format. *)

Definition Label := string.
Definition LabelSequence := list Label.
Definition Name := list Label.

Definition WILDCARD : LabelSequence := ["*"%string].

Module NameComparisonResult.
Inductive NameRelation : Type :=
| SUPERDOMAIN
| SUBDOMAIN
| EQUAL
| COMMONANCESTOR
| NONE.

Record t : Type := mk {
  getOrder : Z;
  getCommonLabels : nat;
  getRelation : NameRelation
}.

Definition relation_eqb (a b : NameRelation) : bool :=
  match a, b with
  | SUPERDOMAIN, SUPERDOMAIN | SUBDOMAIN, SUBDOMAIN | EQUAL, EQUAL
  | COMMONANCESTOR, COMMONANCESTOR | NONE, NONE => true
  | _, _ => false
  end.
End NameComparisonResult.
Import NameComparisonResult(SUPERDOMAIN, SUBDOMAIN, EQUAL, COMMONANCESTOR, NONE,
                            getOrder, getCommonLabels, getRelation, relation_eqb).

(** ** Zone nodes *)

(** Modelled from the spec: [ZoneNode], the [DomainTreeNode] of rdata
    sets (datasrc/memory/domaintree.h), is not part of the sources.  A node
    has its address (nodes are handled through pointers, and compared as
    such), its labels relative to the node above, the head of its rdata
    sets, its flag word and the node above it. *)
Inductive ZoneNode : Type := mkZoneNode {
  node_addr : N;
  getLabels : LabelSequence;
  getData : list RdataSet;
  node_flags : Z;
  getUpperNode : option ZoneNode
}.

(** Modelled from the spec: the flag masks of [DomainTreeNode] and
    [ZoneData]; the headers that give their values are not part of the
    sources, they are distinct single bits. *)
Definition FLAG_CALLBACK : Z := 1.
Definition WILDCARD_NODE : Z := 8.

Definition getFlag (node : ZoneNode) (flag : Z) : bool :=
  negb (Z.land (node_flags node) flag =? 0).

Definition isEmpty (node : ZoneNode) : bool :=
  match getData node with [] => true | _ :: _ => false end.

(** The comparison of two node pointers. *)
Definition node_ptr_eqb (a b : ZoneNode) : bool := N.eqb (node_addr a) (node_addr b).

(** Modelled from the spec: [getAbsoluteLabels], the labels of a node
    followed by those of the nodes above it. *)
Fixpoint getAbsoluteLabels (node : ZoneNode) : LabelSequence :=
  getLabels node ++ match getUpperNode node with
                    | Some upper => getAbsoluteLabels upper
                    | None => []
                    end.

(** ** Search options and result codes (class ZoneFinder)

    The option bits, the result flags and the result codes of [ZoneFinder]
    are declared in datasrc/zone.h, which is not part of the sources. *)

(** Modelled from the spec: the option word, with the bits of the options
    enumeration. *)
Definition FindOptions := Z.
Definition FIND_DEFAULT : FindOptions := 0.
Definition FIND_GLUE_OK : FindOptions := 1.
Definition FIND_DNSSEC : FindOptions := 2.
Definition NO_WILDCARD : FindOptions := 4.

(** Modelled from the spec: the word of result flags. *)
Definition FindResultFlags := Z.
Definition RESULT_DEFAULT : FindResultFlags := 0.
Definition RESULT_WILDCARD : FindResultFlags := 1.
Definition RESULT_NSEC_SIGNED : FindResultFlags := 2.
Definition RESULT_NSEC3_SIGNED : FindResultFlags := 4.

(** [(word & flag) != 0] *)
Definition has_flag (word flag : Z) : bool := negb (Z.land word flag =? 0).

(** Modelled from the spec: the result codes. *)
Inductive Result : Type :=
| SUCCESS
| DELEGATION
| NXDOMAIN
| NXRRSET
| CNAME
| DNAME.

Definition Result_eqb (a b : Result) : bool :=
  match a, b with
  | SUCCESS, SUCCESS | DELEGATION, DELEGATION | NXDOMAIN, NXDOMAIN
  | NXRRSET, NXRRSET | CNAME, CNAME | DNAME, DNAME => true
  | _, _ => false
  end.

(** ** The cut callback *)

Record FindState : Type := mkFindState {
  zonecut_node_ : option ZoneNode;
  dname_node_ : option ZoneNode;
  rrset_ : option RdataSet;
  glue_ok_ : bool
}.

(** The constructor [FindState(bool glue_ok)]. *)
Definition FindState_new (glue_ok : bool) : FindState :=
  mkFindState None None None glue_ok.

Definition cutCallback (node : ZoneNode) (state : FindState)
  : Outcome (bool * FindState) :=
  let found_dname := RdataSet_find (getData node) RRTypes.DNAME in
  match found_dname with
  | Some _ =>
      Return (true, mkFindState (zonecut_node_ state) (Some node) found_dname
                                (glue_ok_ state))
  | None =>
      let found_ns := RdataSet_find (getData node) RRTypes.NS in
      match found_ns with
      | Some _ =>
          match zonecut_node_ state with
          | Some _ => Return (false, state)
          | None =>
              Return (negb (glue_ok_ state),
                      mkFindState (Some node) (dname_node_ state) found_ns
                                  (glue_ok_ state))
          end
      | None => AssertionFailed
      end
  end.

(** ** Name algebra

    The name and label algebra (dns/name.h and dns/labelsequence.h) is not
    part of the sources.  Labels compare without regard to case, sequences
    compare from the rightmost label; the result is the order, the number
    of common labels and the relation of the left operand to the right
    one. *)

(** Modelled from the spec: the downcasing of one octet of a label. *)
Definition downcase_ascii (c : ascii) : ascii :=
  let n := nat_of_ascii c in
  if andb (Nat.leb 65 n) (Nat.leb n 90) then ascii_of_nat (n + 32) else c.

(** Modelled from the spec: the downcasing of a label. *)
Fixpoint downcase_label (l : Label) : Label :=
  match l with
  | EmptyString => EmptyString
  | String c rest => String (downcase_ascii c) (downcase_label rest)
  end.

(** Modelled from the spec: [Name::downcase], every label downcased. *)
Definition downcase (name : Name) : Name := map downcase_label name.

(** Modelled from the spec: the order of two labels, octet by octet
    without regard to case, the shorter first. *)
Fixpoint label_compare (a b : Label) : comparison :=
  match a, b with
  | EmptyString, EmptyString => Eq
  | EmptyString, String _ _ => Lt
  | String _ _, EmptyString => Gt
  | String x a', String y b' =>
      match Nat.compare (nat_of_ascii (downcase_ascii x))
                        (nat_of_ascii (downcase_ascii y)) with
      | Eq => label_compare a' b'
      | c => c
      end
  end.

(** Modelled from the spec: the comparison of two label sequences given
    rightmost label first, [nlabels] labels being known to be common. *)
Fixpoint compare_from_right (ra rb : list Label) (nlabels : nat)
  : NameComparisonResult.t :=
  let diverged := match nlabels with O => NONE | S _ => COMMONANCESTOR end in
  match ra, rb with
  | [], [] => NameComparisonResult.mk 0 nlabels EQUAL
  | [], _ :: _ =>
      NameComparisonResult.mk (-1) nlabels
        match nlabels with O => NONE | S _ => SUPERDOMAIN end
  | _ :: _, [] =>
      NameComparisonResult.mk 1 nlabels
        match nlabels with O => NONE | S _ => SUBDOMAIN end
  | la :: ra', lb :: rb' =>
      match label_compare la lb with
      | Eq => compare_from_right ra' rb' (S nlabels)
      | Lt => NameComparisonResult.mk (-1) nlabels diverged
      | Gt => NameComparisonResult.mk 1 nlabels diverged
      end
  end.

(** Modelled from the spec: [LabelSequence::compare]. *)
Definition LabelSequence_compare (a b : LabelSequence) : NameComparisonResult.t :=
  compare_from_right (rev a) (rev b) 0.

(** Modelled from the spec: [Name::compare]. *)
Definition Name_compare (a b : Name) : NameComparisonResult.t :=
  LabelSequence_compare a b.

(** Modelled from the spec: [Name::getLabelCount], the root label
    counted. *)
Definition getLabelCount (name : Name) : Z := Z.of_nat (List.length name).

(** Modelled from the spec: [LabelSequence::isAbsolute], the sequence ends
    with the root label. *)
Definition isAbsolute (ls : LabelSequence) : bool :=
  match rev ls with
  | EmptyString :: _ => true
  | _ => false
  end.

(** Modelled from the spec: [Name::split(first, n)], the [n] labels from
    position [first] on, made absolute when the root label is not among
    them. *)
Definition Name_split (name : Name) (first n : Z) : Name :=
  let part := firstn (Z.to_nat n) (skipn (Z.to_nat first) name) in
  if isAbsolute part then part else part ++ [EmptyString].

(** Modelled from the spec: [LabelSequence::stripRight(n)]. *)
Definition stripRight (ls : LabelSequence) (n : nat) : LabelSequence :=
  firstn (List.length ls - n) ls.

(** ** Record sets handed to the caller *)

(** Modelled from the spec: [TreeNodeRRset] (datasrc/memory/treenode_rrset.h)
    is not part of the sources.  It keeps what it is constructed from; its
    name is the real name when one was given (wildcard substitution) and
    the name of the node otherwise. *)
Record TreeNodeRRset : Type := mkTreeNodeRRset {
  rrset_realname : option Name;
  rrset_rrclass : RRClass;
  rrset_node : ZoneNode;
  rrset_rdataset : RdataSet;
  rrset_dnssec_ok : bool
}.

Definition TreeNodeRRsetPtr := option TreeNodeRRset.

Definition TreeNodeRRset_getName (r : TreeNodeRRset) : Name :=
  match rrset_realname r with
  | Some realname => realname
  | None => getAbsoluteLabels (rrset_node r)
  end.

Definition createTreeNodeRRset (node : option ZoneNode)
    (rdataset : option RdataSet) (rrclass : RRClass) (options : FindOptions)
    (realname : option Name) : TreeNodeRRsetPtr :=
  let dnssec := has_flag options FIND_DNSSEC in
  match node, rdataset with
  | Some n, Some rds =>
      match realname with
      | Some rn => Some (mkTreeNodeRRset (Some rn) rrclass n rds dnssec)
      | None => Some (mkTreeNodeRRset None rrclass n rds dnssec)
      end
  | _, _ => None
  end.

(** ** The tree interface the finder consumes *)

Inductive TreeResult : Type :=
| EXACTMATCH
| PARTIALMATCH
| NOTFOUND.

(** The operations of [DomainTree], [DomainTreeNode] and
    [DomainTreeNodeChain] used by the finder (datasrc/memory/domaintree.h is
    not part of the sources).  [tree_find] takes the target pointer and the
    search path in and hands them back, and threads the argument of the
    callback; a null callback is [None].  [previousNodes] lists the nodes
    that successive calls of [previousNode] on a path return before the call
    that returns null.  The navigation of a node inside its subtree is
    given the tree the node lives in. *)
Class DomainTreeOps : Type := {
  ZoneTree : Type;
  ZoneChain : Type;
  ZoneChain_new : ZoneChain;
  ZoneChain_clear : ZoneChain -> ZoneChain;
  getLastComparisonResult : ZoneChain -> NameComparisonResult.t;
  getLastComparedNode : ZoneChain -> option ZoneNode;
  tree_find : forall CBARG : Type,
      ZoneTree -> LabelSequence -> option ZoneNode -> ZoneChain ->
      option (ZoneNode -> CBARG -> Outcome (bool * CBARG)) -> CBARG ->
      Outcome (TreeResult * option ZoneNode * ZoneChain * CBARG);
  previousNodes : ZoneTree -> ZoneChain -> list ZoneNode;
  predecessor : ZoneTree -> ZoneNode -> option ZoneNode;
  successor : ZoneTree -> ZoneNode -> option ZoneNode;
  getLargestInSubTree : ZoneTree -> ZoneNode -> option ZoneNode
}.

Module FindNodeResult.
(** Search resulted in a wildcard match. *)
Definition FIND_WILDCARD : Z := 1.
(** Search encountered a zone cut due to NS but continued to look for a
    glue. *)
Definition FIND_ZONECUT : Z := 2.

Record t : Type := mk {
  code : Result;
  node : option ZoneNode;
  rrset : option RdataSet;
  flags : Z
}.
End FindNodeResult.
Import FindNodeResult(FIND_WILDCARD, FIND_ZONECUT).

(** The wildcard name of a node flagged as wildcard parent: the labels of
    the node and of every node above it are appended to [wildcard_ls]. *)
Fixpoint extend_with_uppers (wildcard_ls : LabelSequence) (extend_with : ZoneNode)
  : LabelSequence :=
  let wildcard_ls := wildcard_ls ++ getLabels extend_with in
  match getUpperNode extend_with with
  | Some upper => extend_with_uppers wildcard_ls upper
  | None => wildcard_ls
  end.

Section Finder.
Context {ops : DomainTreeOps}.

(** The value an uninitialised [const ZoneNode*] local happens to hold. *)
Variable indeterminate : option ZoneNode.

(** Modelled from the spec: [NSEC3Data] and [ZoneData]
    (datasrc/memory/zone_data.h) are not part of the sources.  A zone has
    its tree, its origin node, its signed status and, when it is NSEC3
    signed, its NSEC3 parameters and the tree of the hashed names. *)
Record NSEC3Data : Type := mkNSEC3Data {
  iterations : Z;
  getSaltData : list byte;
  getNSEC3Tree : ZoneTree
}.

Definition getSaltLen (d : NSEC3Data) : nat := List.length (getSaltData d).

Record ZoneData : Type := mkZoneData {
  getZoneTree : ZoneTree;
  getOriginNode : ZoneNode;
  isSigned : bool;
  getNSEC3Data : option NSEC3Data
}.

Definition isNSEC3Signed (zone_data : ZoneData) : bool :=
  match getNSEC3Data zone_data with
  | Some _ => true
  | None => false
  end.

Record ZoneFinderResultContext : Type := mkZoneFinderResultContext {
  code : Result;
  rrset : TreeNodeRRsetPtr;
  flags : FindResultFlags;
  zone_data : ZoneData;
  found_node : option ZoneNode;
  found_rdset : option RdataSet
}.

Definition createFindResult (rrclass : RRClass) (zone_data : ZoneData)
    (code : Result) (rdset : option RdataSet) (node : option ZoneNode)
    (options : FindOptions) (wild : bool) (qname : option Name)
  : ZoneFinderResultContext :=
  let flags := RESULT_DEFAULT in
  let rename : option Name := None in
  let '(flags, rename) :=
    if wild then (Z.lor flags RESULT_WILDCARD, qname) else (flags, rename) in
  let flags :=
    if Result_eqb code NXRRSET || Result_eqb code NXDOMAIN || wild then
      if isNSEC3Signed zone_data then Z.lor flags RESULT_NSEC3_SIGNED
      else if isSigned zone_data then Z.lor flags RESULT_NSEC_SIGNED
      else flags
    else flags in
  mkZoneFinderResultContext code
    (createTreeNodeRRset node rdset rrclass options rename)
    flags zone_data node rdset.

(** The loop of [getClosestNSEC] over the nodes [previousNode] yields;
    when they are used up the assertion after the loop fails. *)
Fixpoint closest_nsec_walk (prev_nodes : list ZoneNode)
  : Outcome (option RdataSet * option ZoneNode) :=
  match prev_nodes with
  | [] => AssertionFailed
  | prev_node :: rest =>
      if negb (isEmpty prev_node) then
        match RdataSet_find (getData prev_node) RRTypes.NSEC with
        | Some found => Return (Some found, Some prev_node)
        | None => closest_nsec_walk rest
        end
      else closest_nsec_walk rest
  end.

(** Returns the NSEC found and the content of [*nsec_node], which is
    written only when one is found. *)
Definition getClosestNSEC (zone_data : ZoneData) (node_path : ZoneChain)
    (nsec_node : option ZoneNode) (options : FindOptions)
  : Outcome (option RdataSet * option ZoneNode) :=
  if negb (isSigned zone_data) || (Z.land options FIND_DNSSEC =? 0)
     || isNSEC3Signed zone_data
  then Return (None, nsec_node)
  else closest_nsec_walk (previousNodes (getZoneTree zone_data) node_path).

Definition getNSECForNXRRSET (zone_data : ZoneData) (options : FindOptions)
    (node : ZoneNode) : option RdataSet :=
  if isSigned zone_data && negb (isNSEC3Signed zone_data)
     && negb (Z.land options FIND_DNSSEC =? 0)
  then
    match RdataSet_find (getData node) RRTypes.NSEC with
    | Some found => Some found
    | None => None
    end
  else None.

(** [findNode] hands back the search path next to its result: the caller
    passes the path by reference and reads it after an exact match. *)
Definition findNode (zone_data : ZoneData) (name_labels : LabelSequence)
    (node_path : ZoneChain) (options : FindOptions)
  : Outcome (FindNodeResult.t * ZoneChain) :=
  let node : option ZoneNode := None in
  let state := FindState_new (has_flag options FIND_GLUE_OK) in
  let tree := getZoneTree zone_data in
  '(result, node, node_path, state) <-
     tree_find tree name_labels node node_path (Some cutCallback) state ;;
  let zonecut_flag :=
    match zonecut_node_ state with Some _ => FIND_ZONECUT | None => 0 end in
  match result with
  | EXACTMATCH =>
      Return (FindNodeResult.mk SUCCESS node (rrset_ state) zonecut_flag,
              node_path)
  | PARTIALMATCH =>
      match node with
      | None => AssertionFailed
      | Some stop_node =>
          match dname_node_ state, zonecut_node_ state with
          | Some _, _ =>
              Return (FindNodeResult.mk DNAME (dname_node_ state)
                                        (rrset_ state) 0, node_path)
          | None, Some _ =>
              Return (FindNodeResult.mk DELEGATION (zonecut_node_ state)
                                        (rrset_ state) 0, node_path)
          | None, None =>
              if relation_eqb
                   (getRelation (getLastComparisonResult node_path))
                   SUPERDOMAIN
              then
                '(nsec_rds, nsec_node) <-
                   getClosestNSEC zone_data node_path indeterminate options ;;
                Return (FindNodeResult.mk NXRRSET nsec_node nsec_rds 0,
                        node_path)
              else if getFlag stop_node WILDCARD_NODE
                      && (Z.land options NO_WILDCARD =? 0)
              then
                if relation_eqb
                     (getRelation (getLastComparisonResult node_path))
                     COMMONANCESTOR
                then
                  '(nsec_rds, nsec_node) <-
                     getClosestNSEC zone_data node_path indeterminate
                                    options ;;
                  Return (FindNodeResult.mk NXDOMAIN nsec_node nsec_rds 0,
                          node_path)
                else
                  let wildcard_ls := extend_with_uppers WILDCARD stop_node in
                  let node_path := ZoneChain_clear node_path in
                  '(result, node, node_path, state) <-
                     tree_find tree wildcard_ls node node_path
                               (Some cutCallback) state ;;
                  match result with
                  | EXACTMATCH =>
                      Return (FindNodeResult.mk SUCCESS node (rrset_ state)
                                (Z.lor FIND_WILDCARD zonecut_flag),
                              node_path)
                  | _ => AssertionFailed
                  end
              else
                '(nsec_rds, nsec_node) <-
                   getClosestNSEC zone_data node_path indeterminate options ;;
                Return (FindNodeResult.mk NXDOMAIN nsec_node nsec_rds 0,
                        node_path)
          end
      end
  | NOTFOUND => Throw OutOfZone
  end.

(** ** The finder *)

Record InMemoryZoneFinder : Type := mkInMemoryZoneFinder {
  zone_data_ : ZoneData;
  rrclass_ : RRClass;
  nsec3_calculate_ : Name -> Z -> list byte -> nat -> string
}.

(** The rdata sets of [node] pushed to the target of a type ANY query,
    each under the query name. *)
Definition push_all (finder : InMemoryZoneFinder) (node : ZoneNode)
    (name : Name) (options : FindOptions) (target : list TreeNodeRRsetPtr)
  : list TreeNodeRRsetPtr :=
  fold_left
    (fun target cur_rds =>
       target ++ [createTreeNodeRRset (Some node) (Some cur_rds)
                                      (rrclass_ finder) options (Some name)])
    (getData node) target.

(** [target] is the collection a type ANY query fills, null ([None]) for
    an ordinary query; it is handed back next to the result. *)
Definition find_internal (finder : InMemoryZoneFinder) (name : Name)
    (type : RRType) (target : option (list TreeNodeRRsetPtr))
    (options : FindOptions)
  : Outcome (ZoneFinderResultContext * option (list TreeNodeRRsetPtr)) :=
  let rrclass := rrclass_ finder in
  let zone_data := zone_data_ finder in
  let node_path := ZoneChain_new in
  '(node_result, node_path) <- findNode zone_data name node_path options ;;
  if negb (Result_eqb (FindNodeResult.code node_result) SUCCESS) then
    Return (createFindResult rrclass zone_data
              (FindNodeResult.code node_result)
              (FindNodeResult.rrset node_result)
              (FindNodeResult.node node_result) options false None,
            target)
  else
    match FindNodeResult.node node_result with
    | None => AssertionFailed
    | Some node =>
        let wild := has_flag (FindNodeResult.flags node_result) FIND_WILDCARD in
        if isEmpty node then
          '(nsec_rds, nsec_node) <-
             getClosestNSEC zone_data node_path indeterminate options ;;
          Return (createFindResult rrclass zone_data NXRRSET nsec_rds
                                   nsec_node options wild None,
                  target)
        else
          let below_delegation_check :=
            match target, getData node with
            | Some collected, _ :: _ =>
                Return (createFindResult rrclass zone_data SUCCESS None
                          (Some node) options wild (Some name),
                        Some (push_all finder node name options collected))
            | _, _ =>
                match RdataSet_find (getData node) type with
                | Some found =>
                    Return (createFindResult rrclass zone_data SUCCESS
                              (Some found) (Some node) options wild
                              (Some name),
                            target)
                | None =>
                    match RdataSet_find (getData node) RRTypes.CNAME with
                    | Some found =>
                        Return (createFindResult rrclass zone_data CNAME
                                  (Some found) (Some node) options wild
                                  (Some name),
                                target)
                    | None =>
                        Return (createFindResult rrclass zone_data NXRRSET
                                  (getNSECForNXRRSET zone_data options node)
                                  (Some node) options wild (Some name),
                                target)
                    end
                end
            end in
          if getFlag node FLAG_CALLBACK
             && (Z.land options FIND_GLUE_OK =? 0)
             && negb (node_ptr_eqb node (getOriginNode zone_data))
             && negb (type =? RRTypes.DS)
          then
            match RdataSet_find (getData node) RRTypes.NS with
            | Some found =>
                Return (createFindResult rrclass zone_data DELEGATION
                          (Some found) (Some node) options wild (Some name),
                        target)
            | None => below_delegation_check
            end
          else below_delegation_check
    end.

Definition find (finder : InMemoryZoneFinder) (name : Name) (type : RRType)
    (options : FindOptions) : Outcome ZoneFinderResultContext :=
  '(result, _) <- find_internal finder name type None options ;;
  Return result.

Definition findAll (finder : InMemoryZoneFinder) (name : Name)
    (target : list TreeNodeRRsetPtr) (options : FindOptions)
  : Outcome (ZoneFinderResultContext * list TreeNodeRRsetPtr) :=
  '(result, target') <-
     find_internal finder name RRTypes.ANY (Some target) options ;;
  Return (result, match target' with Some t => t | None => target end).

Definition getOrigin (finder : InMemoryZoneFinder) : Name :=
  let origin := getOriginNode (zone_data_ finder) in
  let node_labels := getLabels origin in
  if isAbsolute node_labels then node_labels
  else getAbsoluteLabels origin.

Definition getClass (finder : InMemoryZoneFinder) : RRClass := rrclass_ finder.

(** ** The NSEC3 prover *)

Record FindNSEC3Result : Type := mkFindNSEC3Result {
  matched : bool;
  closest_labels : Z;
  closest_proof : TreeNodeRRsetPtr;
  next_proof : TreeNodeRRsetPtr
}.

(** The constructor narrows the label count to [uint8_t]. *)
Definition FindNSEC3Result_new (matched : bool) (labels : Z)
    (closest next : TreeNodeRRsetPtr) : FindNSEC3Result :=
  mkFindNSEC3Result matched (labels mod 256) closest next.

(** The head of the rdata sets of a node, [node->getData()], as a
    pointer. *)
Definition data_head (node : ZoneNode) : option RdataSet := hd_error (getData node).

(** The choice of the covering node after a lookup without exact match. *)
Definition choose_covering (tree : ZoneTree) (last_cmp : NameComparisonResult.t)
    (last_node : ZoneNode) : option ZoneNode :=
  let previous_node := predecessor tree last_node in
  let next_node := successor tree last_node in
  if ((getOrder last_cmp <? 0)
        && match previous_node with None => true | Some _ => false end)
     || ((getOrder last_cmp >? 0)
           && match next_node with None => true | Some _ => false end)
  then getLargestInSubTree tree last_node
  else previous_node.

(** The loop [for (unsigned int labels = qlabels; labels >= olabels;
    --labels)], the decrement of zero wrapping around; [None] when [fuel]
    iterations did not end it. *)
Fixpoint findNSEC3_loop (fuel : nat) (finder : InMemoryZoneFinder)
    (name : Name) (recursive : bool) (nsec3_data : NSEC3Data)
    (olabels qlabels labels : Z) (covering_node : option ZoneNode)
  : option (Outcome FindNSEC3Result) :=
  let options := FIND_DNSSEC in
  match fuel with
  | O => None
  | S fuel' =>
    if labels >=? olabels then
      let hlabel :=
        nsec3_calculate_ finder
          (if labels =? qlabels then name
           else Name_split name (qlabels - labels) labels)
          (iterations nsec3_data) (getSaltData nsec3_data)
          (getSaltLen nsec3_data) in
      let tree := getNSEC3Tree nsec3_data in
      match tree_find tree (hlabel :: getOrigin finder) None ZoneChain_new
                      None tt with
      | Return (EXACTMATCH, node, chain, _) =>
          match node with
          | None => Some AssertionFailed
          | Some node =>
              let set := data_head node in
              let closest :=
                createTreeNodeRRset (Some node) set (getClass finder)
                                    options None in
              let next :=
                createTreeNodeRRset covering_node
                  match covering_node with
                  | Some c => data_head c
                  | None => None
                  end
                  (getClass finder) options None in
              Some (Return (FindNSEC3Result_new true labels closest next))
          end
      | Return (_, node, chain, _) =>
          let last_cmp := getLastComparisonResult chain in
          let last_node := getLastComparedNode chain in
          if getOrder last_cmp =? 0 then Some AssertionFailed
          else
            match last_node with
            | None => Some AssertionFailed
            | Some last_node =>
                let covering_node := choose_covering tree last_cmp last_node in
                if negb recursive then
                  let closest :=
                    createTreeNodeRRset covering_node
                      match covering_node with
                      | Some c => data_head c
                      | None => None
                      end
                      (getClass finder) options None in
                  Some (Return (FindNSEC3Result_new false labels closest None))
                else
                  findNSEC3_loop fuel' finder name recursive nsec3_data
                    olabels qlabels
                    (if labels =? 0 then 2 ^ 32 - 1 else labels - 1)
                    covering_node
            end
      | Throw e => Some (Throw e)
      | AssertionFailed => Some AssertionFailed
      end
    else Some (Throw DataSourceError)
  end.

Definition findNSEC3 (finder : InMemoryZoneFinder) (name : Name)
    (recursive : bool) : option (Outcome FindNSEC3Result) :=
  if negb (isNSEC3Signed (zone_data_ finder)) then
    Some (Throw DataSourceError)
  else
    let cmp_result := Name_compare name (getOrigin finder) in
    if negb (relation_eqb (getRelation cmp_result) EQUAL)
       && negb (relation_eqb (getRelation cmp_result) SUBDOMAIN)
    then Some (Throw OutOfZone)
    else
      let olabels := getLabelCount (getOrigin finder) in
      let qlabels := getLabelCount name in
      match getNSEC3Data (zone_data_ finder) with
      | None => Some AssertionFailed
      | Some nsec3_data =>
          findNSEC3_loop (S (Z.to_nat qlabels)) finder name recursive
                         nsec3_data olabels qlabels qlabels None
      end.

End Finder.

(** ** The NSEC3 hash *)

Definition SHA1_HASHSIZE : nat := 20.

Definition byte_of_nat (n : nat) : byte := byte_of_ascii (ascii_of_nat n).

(** Modelled from the spec: [Name::toWire] is not part of the sources; the
    wire format of a name is each label behind its length octet, the root
    label being the single octet zero. *)
Definition label_toWire (l : Label) : list byte :=
  byte_of_nat (String.length l) :: list_byte_of_string l.

Definition toWire (name : Name) : list byte := flat_map label_toWire name.

Section NSEC3Hash.
(** The digest function and the encoder the finder links against
    (util/hash/sha1 and util/encode/base32hex, not part of the sources). *)
Variable SHA1 : list byte -> list byte.
Variable encodeBase32Hex : list byte -> string.

(** Modelled from the spec: the SHA-1 primitive.  A context holds the
    input given since the last reset; the result is the digest of it. *)
Definition SHA1Context := list byte.
Definition SHA1Reset (ctx : SHA1Context) : SHA1Context := [].
Definition SHA1Input (ctx : SHA1Context) (message_array : list byte)
    (length : nat) : SHA1Context :=
  ctx ++ firstn length message_array.
Definition SHA1Result (ctx : SHA1Context) : list byte := SHA1 ctx.

(** Returns the context and the content of [output]. *)
Definition iterateSHA1 (ctx : SHA1Context) (input : list byte)
    (inlength : nat) (salt : list byte) (saltlen : nat)
  : SHA1Context * list byte :=
  let ctx := SHA1Reset ctx in
  let ctx := SHA1Input ctx input inlength in
  let ctx := SHA1Input ctx salt saltlen in
  (ctx, SHA1Result ctx).

(** [for (unsigned int n = 0; n < iterations; ++n)], [count] rounds to go. *)
Fixpoint more_rounds (count : nat) (ctx : SHA1Context) (salt_buf : list byte)
    (salt_len : nat) (digest : list byte) : SHA1Context * list byte :=
  match count with
  | O => (ctx, digest)
  | S count' =>
      let '(ctx, digest) :=
        iterateSHA1 ctx digest SHA1_HASHSIZE salt_buf salt_len in
      more_rounds count' ctx salt_buf salt_len digest
  end.

Definition InMemoryZoneFinderNSEC3Calculate (name : Name) (iterations : Z)
    (salt : list byte) (salt_len : nat) : string :=
  let name_copy := downcase name in
  let obuf := toWire name_copy in
  let salt_buf := if Nat.ltb 0 salt_len then salt else [] in
  let sha1_ctx : SHA1Context := [] in
  let '(sha1_ctx, digest) :=
    iterateSHA1 sha1_ctx obuf (List.length obuf) salt_buf salt_len in
  let '(sha1_ctx, digest) :=
    more_rounds (Z.to_nat iterations) sha1_ctx salt_buf salt_len digest in
  encodeBase32Hex digest.

(** *** The reference definition, after the words of the specification *)

(** One SHA-1 application over the input with the salt appended. *)
Definition salted_sha1 (salt x : list byte) : list byte := SHA1 (x ++ salt).

(** The hash of the wire form followed by [k] further rounds, each over
    the previous digest. *)
Fixpoint iterated_hash (salt x : list byte) (k : nat) : list byte :=
  match k with
  | O => salted_sha1 salt x
  | S k' => salted_sha1 salt (iterated_hash salt x k')
  end.

Definition nsec3_hash_reference (name : Name) (iterations : Z)
    (salt : list byte) : string :=
  encodeBase32Hex
    (iterated_hash salt (toWire (map downcase_label name))
                   (Z.to_nat iterations)).
End NSEC3Hash.

(** ** A SHA-1 and a base32hex to run the hash on

    Modelled from the spec: the SHA-1 primitive (RFC 3174) and the base32hex
    encoder with the alphabet of RFC 4648, section 7, which the finder takes
    from util/hash/sha1 and util/encode/base32hex. *)

Module SHA1Impl.
Definition byte_to_Z (b : byte) : Z := Z.of_N (Byte.to_N b).

Definition Z_to_byte (z : Z) : byte :=
  match Byte.of_N (Z.to_N (z mod 256)) with
  | Some b => b
  | None => x00
  end.

Definition w32 (x : Z) : Z := x mod 2 ^ 32.

Definition rotl (n x : Z) : Z :=
  w32 (Z.lor (Z.shiftl x n) (Z.shiftr x (32 - n))).

Definition word_bytes (w : Z) : list byte :=
  [Z_to_byte (Z.shiftr w 24); Z_to_byte (Z.shiftr w 16);
   Z_to_byte (Z.shiftr w 8); Z_to_byte w].

Fixpoint words_of_bytes (bs : list byte) : list Z :=
  match bs with
  | a :: b :: c :: d :: rest =>
      Z.lor (Z.shiftl (byte_to_Z a) 24)
        (Z.lor (Z.shiftl (byte_to_Z b) 16)
           (Z.lor (Z.shiftl (byte_to_Z c) 8) (byte_to_Z d)))
      :: words_of_bytes rest
  | _ => []
  end.

(** The message followed by the bit 1, zeros and its length in bits as a
    64-bit number, a multiple of 64 octets in all. *)
Definition pad (msg : list byte) : list byte :=
  let len := Z.of_nat (List.length msg) in
  let zeros := Z.to_nat ((55 - len) mod 64) in
  let bits := 8 * len in
  msg ++ [x80] ++ repeat x00 zeros
      ++ word_bytes (Z.shiftr bits 32) ++ word_bytes bits.

(** The message schedule, latest word first. *)
Fixpoint schedule (n : nat) (w : list Z) : list Z :=
  match n with
  | O => w
  | S n' =>
      let x := rotl 1 (Z.lxor (Z.lxor (nth 2 w 0) (nth 7 w 0))
                              (Z.lxor (nth 13 w 0) (nth 15 w 0))) in
      schedule n' (x :: w)
  end.

Definition f (t : nat) (b c d : Z) : Z :=
  if Nat.ltb t 20 then Z.lor (Z.land b c) (Z.land (Z.lxor b (2 ^ 32 - 1)) d)
  else if Nat.ltb t 40 then Z.lxor (Z.lxor b c) d
  else if Nat.ltb t 60 then
    Z.lor (Z.lor (Z.land b c) (Z.land b d)) (Z.land c d)
  else Z.lxor (Z.lxor b c) d.

Definition K (t : nat) : Z :=
  if Nat.ltb t 20 then 0x5A827999
  else if Nat.ltb t 40 then 0x6ED9EBA1
  else if Nat.ltb t 60 then 0x8F1BBCDC
  else 0xCA62C1D6.

Definition State := (Z * Z * Z * Z * Z)%type.

Fixpoint steps (ws : list Z) (t : nat) (s : State) : State :=
  match ws with
  | [] => s
  | w :: ws' =>
      let '(a, b, c, d, e) := s in
      let temp := w32 (rotl 5 a + f t b c d + e + w + K t) in
      steps ws' (S t) (temp, a, rotl 30 b, c, d)
  end.

Definition process_block (h : State) (block : list byte) : State :=
  let ws := rev (schedule 64 (rev (words_of_bytes block))) in
  let '(a, b, c, d, e) := steps ws 0 h in
  let '(h0, h1, h2, h3, h4) := h in
  (w32 (h0 + a), w32 (h1 + b), w32 (h2 + c), w32 (h3 + d), w32 (h4 + e)).

Fixpoint process (blocks : nat) (bs : list byte) (h : State) : State :=
  match blocks with
  | O => h
  | S blocks' =>
      process blocks' (skipn 64 bs) (process_block h (firstn 64 bs))
  end.

Definition initial : State :=
  (0x67452301, 0xEFCDAB89, 0x98BADCFE, 0x10325476, 0xC3D2E1F0).

Definition sha1 (msg : list byte) : list byte :=
  let padded := pad msg in
  let '(h0, h1, h2, h3, h4) :=
    process (List.length padded / 64) padded initial in
  word_bytes h0 ++ word_bytes h1 ++ word_bytes h2 ++ word_bytes h3
             ++ word_bytes h4.
End SHA1Impl.

Module Base32Hex.
Definition alphabet : list ascii :=
  list_ascii_of_string "0123456789ABCDEFGHIJKLMNOPQRSTUV".

Definition digit (v : Z) : ascii := nth (Z.to_nat v) alphabet "="%char.

Definition bits_of_byte (b : byte) : list bool :=
  let z := SHA1Impl.byte_to_Z b in
  map (fun i => Z.testbit z i) [7; 6; 5; 4; 3; 2; 1; 0].

Definition value (bits : list bool) : Z :=
  fold_left (fun acc (b : bool) => 2 * acc + if b then 1 else 0) bits 0.

(** Groups of five bits, the last one filled up with zeros. *)
Fixpoint quintets (fuel : nat) (bits : list bool) : list Z :=
  match fuel, bits with
  | O, _ | _, [] => []
  | S fuel', _ =>
      value (firstn 5 (bits ++ repeat false 4)) :: quintets fuel' (skipn 5 bits)
  end.

Definition encodeBase32Hex (binary : list byte) : string :=
  let bits := flat_map bits_of_byte binary in
  let digits := map digit (quintets (List.length bits) bits) in
  let padding := repeat "="%char ((8 - List.length digits mod 8) mod 8) in
  string_of_list_ascii (digits ++ padding).
End Base32Hex.

(** ** A tree of trees to run the finder on

    Modelled from the spec: [DomainTree] (datasrc/memory/domaintree.h) is
    not part of the sources.  The nodes of one level form a binary search
    tree ordered by their labels; every node has the tree of the names
    below it.  Search compares the target with a node, moves left or right
    when the two have no label in common, descends, after the callback of a
    flagged node, when the target is a subdomain of the node, and stops
    otherwise.  Empty nodes are returned, zone trees being created so. *)

Module ConcreteTree.
Inductive DomainTree : Type :=
| Nil
| Node (left : DomainTree) (node : ZoneNode) (down : DomainTree)
       (right : DomainTree).

(** A search path: the nodes descended through, the node compared last
    with the result of that comparison, and the nodes that precede the
    place the search ended at, nearest first. *)
Record Chain : Type := mkChain {
  nodes : list ZoneNode;
  last_compared : option ZoneNode;
  last_comparison : NameComparisonResult.t;
  before : list ZoneNode
}.

Definition empty_chain : Chain :=
  mkChain [] None (NameComparisonResult.mk 0 0 EQUAL) [].

(** The nodes of a tree in the order of their names. *)
Fixpoint inorder (t : DomainTree) : list ZoneNode :=
  match t with
  | Nil => []
  | Node l n d r => inorder l ++ [n] ++ inorder d ++ inorder r
  end.

(** The nodes of the topmost level of a tree, in order. *)
Fixpoint siblings (t : DomainTree) : list ZoneNode :=
  match t with
  | Nil => []
  | Node l n _ r => siblings l ++ [n] ++ siblings r
  end.

Fixpoint find_from (CBARG : Type) (t : DomainTree)
    (target_labels : LabelSequence) (ret : TreeResult)
    (target : option ZoneNode) (path : Chain)
    (callback : option (ZoneNode -> CBARG -> Outcome (bool * CBARG)))
    (arg : CBARG)
  : Outcome (TreeResult * option ZoneNode * Chain * CBARG) :=
  match t with
  | Nil => Return (ret, target, path, arg)
  | Node l n d r =>
      let cmp := LabelSequence_compare target_labels (getLabels n) in
      let compared (passed : list ZoneNode) (descended : list ZoneNode) :=
        mkChain (descended ++ nodes path) (Some n) cmp
                (rev passed ++ before path) in
      match getRelation cmp with
      | EQUAL =>
          Return (EXACTMATCH, Some n, compared (inorder l) [n], arg)
      | NONE =>
          if getOrder cmp <? 0
          then find_from l target_labels ret target (compared [] [])
                         callback arg
          else find_from r target_labels ret target
                         (compared (inorder l ++ [n] ++ inorder d) [])
                         callback arg
      | SUBDOMAIN =>
          let descend arg :=
            find_from d (stripRight target_labels (getCommonLabels cmp))
                      PARTIALMATCH (Some n) (compared (inorder l ++ [n]) [n])
                      callback arg in
          match callback with
          | Some cb =>
              if getFlag n FLAG_CALLBACK then
                '(stop, arg) <- cb n arg ;;
                if (stop : bool)
                then Return (PARTIALMATCH, Some n,
                             compared (inorder l ++ [n]) [], arg)
                else descend arg
              else descend arg
          | None => descend arg
          end
      | _ =>
          Return (ret, target,
                  compared (if getOrder cmp <? 0 then inorder l
                            else inorder l ++ [n] ++ inorder d) [],
                  arg)
      end
  end.

(** The finder always searches with an empty path, from the root. *)
Definition dt_find (CBARG : Type) (t : DomainTree) (target_labels : LabelSequence)
    (target : option ZoneNode) (path : Chain)
    (callback : option (ZoneNode -> CBARG -> Outcome (bool * CBARG)))
    (arg : CBARG) :=
  find_from t target_labels NOTFOUND target path callback arg.

(** The level a node sits in: the nodes of its subtree, in order. *)
Fixpoint level_in (t : DomainTree) (a : N) (level : list ZoneNode)
  : option (list ZoneNode) :=
  match t with
  | Nil => None
  | Node l n d r =>
      if N.eqb (node_addr n) a then Some level
      else match level_in l a level with
           | Some found => Some found
           | None =>
               match level_in d a (siblings d) with
               | Some found => Some found
               | None => level_in r a level
               end
           end
  end.

Definition level_of (t : DomainTree) (n : ZoneNode) : list ZoneNode :=
  match level_in t (node_addr n) (siblings t) with
  | Some level => level
  | None => []
  end.

Fixpoint before_in (level : list ZoneNode) (a : N) (prev : option ZoneNode)
  : option ZoneNode :=
  match level with
  | [] => None
  | m :: rest => if N.eqb (node_addr m) a then prev
                 else before_in rest a (Some m)
  end.

Fixpoint after_in (level : list ZoneNode) (a : N) : option ZoneNode :=
  match level with
  | [] => None
  | m :: rest => if N.eqb (node_addr m) a then hd_error rest
                 else after_in rest a
  end.

Definition level_predecessor (t : DomainTree) (n : ZoneNode) : option ZoneNode :=
  before_in (level_of t n) (node_addr n) None.

Definition level_successor (t : DomainTree) (n : ZoneNode) : option ZoneNode :=
  after_in (level_of t n) (node_addr n).

Definition level_largest (t : DomainTree) (n : ZoneNode)
  : option ZoneNode :=
  hd_error (rev (level_of t n)).

#[export] Instance ops : DomainTreeOps := {|
  ZoneTree := DomainTree;
  ZoneChain := Chain;
  ZoneChain_new := empty_chain;
  ZoneChain_clear := fun _ => empty_chain;
  getLastComparisonResult := last_comparison;
  getLastComparedNode := last_compared;
  tree_find := dt_find;
  previousNodes := fun _ path => before path;
  predecessor := level_predecessor;
  successor := level_successor;
  getLargestInSubTree := level_largest
|}.
End ConcreteTree.

(** ** Sample zones *)

Module Samples.
Import ConcreteTree.
Local Open Scope string_scope.

Definition rds (type : RRType) : RdataSet := mkRdataSet type 1 0 [].

(** [example.], signed with NSEC. *)
Definition origin : ZoneNode :=
  mkZoneNode 1 ["example"; ""] [rds RRTypes.NS; rds RRTypes.NSEC] 0 None.

(** [a.example.] with an address. *)
Definition a : ZoneNode :=
  mkZoneNode 2 ["a"] [rds RRTypes.A; rds RRTypes.NSEC] 0 (Some origin).

(** [c.example.], an empty node above [b.c.example.] and [d.c.example.]. *)
Definition c : ZoneNode := mkZoneNode 3 ["c"] [] 0 (Some origin).
Definition b_c : ZoneNode :=
  mkZoneNode 4 ["b"] [rds RRTypes.A; rds RRTypes.NSEC] 0 (Some c).
Definition d_c : ZoneNode :=
  mkZoneNode 5 ["d"] [rds RRTypes.A; rds RRTypes.NSEC] 0 (Some c).

(** [sub.example.], a zone cut that also has a DS. *)
Definition sub : ZoneNode :=
  mkZoneNode 6 ["sub"] [rds RRTypes.NS; rds RRTypes.DS] FLAG_CALLBACK
             (Some origin).

(** Below the cut: [wild.sub.example.] with [*.wild.sub.example.] and
    [bar.foo.wild.sub.example.]. *)
Definition wild_sub : ZoneNode :=
  mkZoneNode 7 ["wild"] [rds RRTypes.A] WILDCARD_NODE (Some sub).
Definition star_wild_sub : ZoneNode :=
  mkZoneNode 8 ["*"] [rds RRTypes.A] 0 (Some wild_sub).
Definition bar_foo_wild_sub : ZoneNode :=
  mkZoneNode 9 ["bar"; "foo"] [rds RRTypes.A] 0 (Some wild_sub).

(** [wild.example.] with [*.wild.example.] (TXT and CNAME-free) and
    [bar.foo.wild.example.]. *)
Definition wild : ZoneNode :=
  mkZoneNode 10 ["wild"] [] WILDCARD_NODE (Some origin).
Definition star_wild : ZoneNode :=
  mkZoneNode 11 ["*"] [rds RRTypes.TXT; rds RRTypes.NSEC] 0 (Some wild).
Definition bar_foo_wild : ZoneNode :=
  mkZoneNode 12 ["bar"; "foo"] [rds RRTypes.A; rds RRTypes.NSEC] 0 (Some wild).

Definition leaf (n : ZoneNode) : DomainTree := Node Nil n Nil Nil.

(** The names below the origin are, in order, a, c, sub, wild. *)
Definition tree : DomainTree :=
  Node Nil origin
    (Node (Node (leaf a) c (Node Nil b_c Nil (leaf d_c)) Nil)
          sub
          (Node Nil wild_sub (Node Nil star_wild_sub Nil (leaf bar_foo_wild_sub))
                Nil)
          (Node Nil wild (Node Nil star_wild Nil (leaf bar_foo_wild)) Nil))
    Nil.

Definition zone : ZoneData := mkZoneData tree origin true None.

Definition no_hash (_ : Name) (_ : Z) (_ : list byte) (_ : nat) : string := "".

Definition finder : InMemoryZoneFinder := mkInMemoryZoneFinder zone 1 no_hash.

(** An NSEC3-signed [example.] with the parameters of RFC 5155, appendix
    A; the tree of hashes has [example.] and [a.example.]. *)
Definition salt : list byte := [xaa; xbb; xcc; xdd].

Definition real_hash : Name -> Z -> list byte -> nat -> string :=
  InMemoryZoneFinderNSEC3Calculate SHA1Impl.sha1 Base32Hex.encodeBase32Hex.

Definition nsec3_origin : ZoneNode := mkZoneNode 20 ["example"; ""] [] 0 None.
Definition hash_of_origin : ZoneNode :=
  mkZoneNode 21 ["0P9MHAVEQVM6T7VBL5LOP2U3T2RP3TOM"] [rds RRTypes.NSEC3] 0
             (Some nsec3_origin).
Definition hash_of_a : ZoneNode :=
  mkZoneNode 22 ["35MTHGPGCU1QG68FAB165KLNSNK3DPVL"] [rds RRTypes.NSEC3] 0
             (Some nsec3_origin).

Definition nsec3_tree : DomainTree :=
  Node Nil nsec3_origin (Node Nil hash_of_origin Nil (leaf hash_of_a)) Nil.

Definition nsec3_data : NSEC3Data := mkNSEC3Data 12 salt nsec3_tree.

Definition nsec3_zone : ZoneData :=
  mkZoneData tree origin true (Some nsec3_data).

Definition nsec3_finder : InMemoryZoneFinder :=
  mkInMemoryZoneFinder nsec3_zone 1 real_hash.

(** The same zone with the hash of the origin missing from the tree. *)
Definition broken_nsec3_tree : DomainTree :=
  Node Nil nsec3_origin (leaf hash_of_a) Nil.

Definition broken_nsec3_data : NSEC3Data :=
  mkNSEC3Data 12 salt broken_nsec3_tree.

Definition broken_nsec3_finder : InMemoryZoneFinder :=
  mkInMemoryZoneFinder (mkZoneData tree origin true (Some broken_nsec3_data))
                       1 real_hash.
End Samples.

(** ** The additional section

    [InMemoryZoneFinder::Context] keeps the options of the search, the class
    and what [find_internal] found; [getAdditionalImpl] looks the names of
    the rdata up in the same zone. *)

(** Modelled from the spec: the attribute of a name field that asks for
    additional section processing (datasrc/memory/rdata_serialization.h is
    not part of the sources); a single bit. *)
Definition NAMEATTR_ADDITIONAL : Z := 2.

Section Additional.
Context {ops : DomainTreeOps}.

(** The value an uninitialised [const ZoneNode*] local happens to hold. *)
Variable indeterminate : option ZoneNode.

(** The names, each with its attributes, that [RdataReader::iterate] hands
    to the name action for the rdata of a set, in order; the arguments are
    those of the constructor of the reader: class, type, data buffer, count
    of rdata and count of signatures. *)
Variable name_fields :
  RRClass -> RRType -> list byte -> Z -> Z -> list (LabelSequence * Z).

Record Context : Type := mkContext {
  options_ : FindOptions;
  context_code : Result;
  context_rrset : TreeNodeRRsetPtr;
  context_flags : FindResultFlags;
  context_rrclass_ : RRClass;
  context_zone_data_ : ZoneData;
  found_node_ : option ZoneNode;
  found_rdset_ : option RdataSet
}.

(** The constructor [Context(finder, options, rrclass, result)]. *)
Definition Context_new (options : FindOptions) (rrclass : RRClass)
    (result : ZoneFinderResultContext) : Context :=
  mkContext options (code result) (rrset result) (flags result) rrclass
            (zone_data result) (found_node result) (found_rdset result).

(** [find] and [findAll] with the context they hand out. *)
Definition find_context (finder : InMemoryZoneFinder) (name : Name)
    (type : RRType) (options : FindOptions) : Outcome Context :=
  '(result, _) <- find_internal indeterminate finder name type None options ;;
  Return (Context_new options (rrclass_ finder) result).

Definition findAll_context (finder : InMemoryZoneFinder) (name : Name)
    (target : list TreeNodeRRsetPtr) (options : FindOptions)
  : Outcome (Context * list TreeNodeRRsetPtr) :=
  '(result, target') <-
     find_internal indeterminate finder name RRTypes.ANY (Some target)
                   options ;;
  Return (Context_new options (rrclass_ finder) result,
          match target' with Some t => t | None => target end).

(** [std::find(type_beg, type_end, rdset->type) != type_end] *)
Definition type_requested (requested_types : list RRType) (type : RRType)
  : bool :=
  existsb (fun t => t =? type) requested_types.

Definition findAdditionalHelper (ctx : Context)
    (requested_types : list RRType) (result : list TreeNodeRRsetPtr)
    (node : ZoneNode) (options : FindOptions) (real_name : option Name)
  : list TreeNodeRRsetPtr :=
  fold_left
    (fun result rdset =>
       if type_requested requested_types (rdata_type rdset) then
         result ++ [createTreeNodeRRset (Some node) (Some rdset)
                                        (context_rrclass_ ctx) options
                                        real_name]
       else result)
    (getData node) result.

Definition findAdditional (ctx : Context) (requested_types : list RRType)
    (result : list TreeNodeRRsetPtr) (options : FindOptions)
    (name_labels : LabelSequence) (attr : Z)
  : Outcome (list TreeNodeRRsetPtr) :=
  if Z.land attr NAMEATTR_ADDITIONAL =? 0 then Return result
  else
    let origin := getOriginNode (context_zone_data_ ctx) in
    let cmp := LabelSequence_compare (getAbsoluteLabels origin) name_labels in
    if negb (relation_eqb (getRelation cmp) SUPERDOMAIN)
       && negb (relation_eqb (getRelation cmp) EQUAL)
    then Return result
    else
      let node_path := ZoneChain_new in
      '(node_result, _) <-
         findNode indeterminate (context_zone_data_ ctx) name_labels node_path
                  options ;;
      if negb (Result_eqb (FindNodeResult.code node_result) SUCCESS) then
        Return result
      else
        match FindNodeResult.node node_result with
        | None => AssertionFailed
        | Some node =>
            if (Z.land options FIND_GLUE_OK =? 0)
               && getFlag node FLAG_CALLBACK
               && negb (node_ptr_eqb node origin)
            then Return result
            else if Z.land (FindNodeResult.flags node_result) FIND_WILDCARD
                    =? 0
            then
              Return (findAdditionalHelper ctx requested_types result node
                                           options None)
            else
              let real_name : Name := name_labels in
              Return (findAdditionalHelper ctx requested_types result node
                                           options (Some real_name))
        end.

(** The iteration of the reader over the names of the rdata; an exception
    of the name action leaves the iteration. *)
Fixpoint iterate_names (ctx : Context) (requested_types : list RRType)
    (options : FindOptions) (names : list (LabelSequence * Z))
    (result : list TreeNodeRRsetPtr) : Outcome (list TreeNodeRRsetPtr) :=
  match names with
  | [] => Return result
  | (name_labels, attr) :: rest =>
      result <- findAdditional ctx requested_types result options name_labels
                               attr ;;
      iterate_names ctx requested_types options rest result
  end.

Definition getAdditionalForRdataset (ctx : Context) (rdset : RdataSet)
    (requested_types : list RRType) (result : list TreeNodeRRsetPtr)
    (orig_options : FindOptions) : Outcome (list TreeNodeRRsetPtr) :=
  let options := FIND_DEFAULT in
  let options :=
    if negb (Z.land orig_options FIND_DNSSEC =? 0)
    then Z.lor options FIND_DNSSEC else options in
  let options :=
    if rdata_type rdset =? RRTypes.NS
    then Z.lor options FIND_GLUE_OK else options in
  iterate_names ctx requested_types options
    (name_fields (context_rrclass_ ctx) (rdata_type rdset) (getDataBuf rdset)
                 (getRdataCount rdset) (getSigRdataCount rdset))
    result.

(** The loop of [getAdditionalImpl] over the rdata sets of the node of a
    type ANY answer. *)
Fixpoint additional_for_all (ctx : Context) (rdsets : list RdataSet)
    (requested_types : list RRType) (result : list TreeNodeRRsetPtr)
  : Outcome (list TreeNodeRRsetPtr) :=
  match rdsets with
  | [] => Return result
  | rdset :: next =>
      result <- getAdditionalForRdataset ctx rdset requested_types result
                                         (options_ ctx) ;;
      additional_for_all ctx next requested_types result
  end.

Definition getAdditionalImpl (ctx : Context) (requested_types : list RRType)
    (result : list TreeNodeRRsetPtr) : Outcome (list TreeNodeRRsetPtr) :=
  match found_rdset_ ctx with
  | Some rdset =>
      getAdditionalForRdataset ctx rdset requested_types result (options_ ctx)
  | None =>
      match found_node_ ctx with
      | Some node =>
          additional_for_all ctx (getData node) requested_types result
      | None => Return result
      end
  end.
End Additional.

(** ** Notions the properties are stated with *)

(** What holds of the search state whenever the callback fires: a zone cut
    can have been recorded before only when the search went on below it,
    that is in glue-OK mode. *)
Definition cut_recorded_in_glue_mode (state : FindState) : Prop :=
  zonecut_node_ state <> None -> glue_ok_ state = true.

(** The same as a test. *)
Definition cut_recorded_in_glue_mode_b (state : FindState) : bool :=
  match zonecut_node_ state with
  | Some _ => glue_ok_ state
  | None => true
  end.

(** The cut callback behind a check of the state it is called in. *)
Definition checked_cutCallback (node : ZoneNode) (state : FindState)
  : Outcome (bool * FindState) :=
  if cut_recorded_in_glue_mode_b state then cutCallback node state
  else AssertionFailed.

Section Notions.
Context {ops : DomainTreeOps}.

(** The flag a signed zone adds to negative and wildcard results. *)
Definition signed_flag (zd : ZoneData) : FindResultFlags :=
  if isNSEC3Signed zd then RESULT_NSEC3_SIGNED
  else if isSigned zd then RESULT_NSEC_SIGNED
  else 0.

(** The flags of a result by its code and by whether it is come by
    through a wildcard. *)
Definition result_flags (zd : ZoneData) (c : Result) (wild : bool)
  : FindResultFlags :=
  Z.lor (if wild then RESULT_WILDCARD else RESULT_DEFAULT)
        (if Result_eqb c NXRRSET || Result_eqb c NXDOMAIN || wild
         then signed_flag zd else 0).

(** Two option words that differ at most in the FIND_DNSSEC bit. *)
Definition same_but_dnssec (o1 o2 : FindOptions) : Prop :=
  Z.lor o1 FIND_DNSSEC = Z.lor o2 FIND_DNSSEC.

(** The search of the zone tree [findNode] starts with. *)
Definition first_search (zd : ZoneData) (name : LabelSequence)
    (options : FindOptions) :=
  tree_find (getZoneTree zd) name None ZoneChain_new (Some cutCallback)
            (FindState_new (has_flag options FIND_GLUE_OK)).

(** The zone is searched for an NSEC: it is NSEC signed and DNSSEC
    records are asked for. *)
Definition nsec_wanted (zd : ZoneData) (options : FindOptions) : bool :=
  isSigned zd && has_flag options FIND_DNSSEC && negb (isNSEC3Signed zd).

Definition has_nsec (n : ZoneNode) : Prop :=
  isEmpty n = false /\ RdataSet_find (getData n) RRTypes.NSEC <> None.

(** The signing invariant of the zone, seen from a search path: when an
    NSEC is searched for, some node before the path has one. *)
Definition nsec_witness_available (zd : ZoneData) (path : ZoneChain)
    (options : FindOptions) : Prop :=
  nsec_wanted zd options = true ->
  exists n, In n (previousNodes (getZoneTree zd) path) /\ has_nsec n.

(** [m] with its NSEC [nsec] is the first of [prev_nodes] that is not
    empty and has an NSEC. *)
Definition closest_nsec (prev_nodes : list ZoneNode) (m : ZoneNode)
    (nsec : RdataSet) : Prop :=
  exists skipped rest,
    prev_nodes = skipped ++ m :: rest
    /\ isEmpty m = false
    /\ RdataSet_find (getData m) RRTypes.NSEC = Some nsec
    /\ Forall (fun k => ~ has_nsec k) skipped.

(** C3 as the specification words it, at one query. *)
Definition wildcard_cancel_claim (indeterminate : option ZoneNode)
    (finder : InMemoryZoneFinder) (name : Name) (type : RRType)
    (options : FindOptions) : Prop :=
  forall stop_node path state,
    first_search (zone_data_ finder) name options
    = Return (PARTIALMATCH, Some stop_node, path, state) ->
    getFlag stop_node WILDCARD_NODE = true ->
    has_flag options NO_WILDCARD = false ->
    getRelation (getLastComparisonResult path) = COMMONANCESTOR ->
    exists ctx, find indeterminate finder name type options = Return ctx
                /\ code ctx = NXDOMAIN.

(** C4 as the specification words it, at one query, as far as the node
    search goes. *)
Definition wildcard_synthesis_claim (indeterminate : option ZoneNode)
    (finder : InMemoryZoneFinder) (name : Name) (options : FindOptions)
  : Prop :=
  forall stop_node path state,
    first_search (zone_data_ finder) name options
    = Return (PARTIALMATCH, Some stop_node, path, state) ->
    getFlag stop_node WILDCARD_NODE = true ->
    has_flag options NO_WILDCARD = false ->
    getRelation (getLastComparisonResult path) <> SUPERDOMAIN ->
    getRelation (getLastComparisonResult path) <> COMMONANCESTOR ->
    exists node_result path',
      findNode indeterminate (zone_data_ finder) name ZoneChain_new options
      = Return (node_result, path')
      /\ FindNodeResult.code node_result = SUCCESS
      /\ has_flag (FindNodeResult.flags node_result) FIND_WILDCARD = true.

(** C9 as the specification words it, at one query. *)
Definition own_nsec_claim (indeterminate : option ZoneNode)
    (finder : InMemoryZoneFinder) (name : Name) (type : RRType)
    (options : FindOptions) : Prop :=
  forall node_result path node,
    findNode indeterminate (zone_data_ finder) name ZoneChain_new options
    = Return (node_result, path) ->
    FindNodeResult.code node_result = SUCCESS ->
    FindNodeResult.node node_result = Some node ->
    isEmpty node = true ->
    exists ctx,
      find indeterminate finder name type options = Return ctx
      /\ code ctx = NXRRSET
      /\ (nsec_wanted (zone_data_ finder) options = true ->
          found_node ctx = Some node
          /\ found_rdset ctx = RdataSet_find (getData node) RRTypes.NSEC).

(** The lookup of the synthesized wildcard name: of [*] before the
    absolute name of the node the first search stopped at, on the path of
    that search once cleared, with the state the first search left. *)
Definition wildcard_lookup (zd : ZoneData) (stop_node : ZoneNode)
    (path : ZoneChain) (state : FindState) :=
  tree_find (getZoneTree zd) (WILDCARD ++ getAbsoluteLabels stop_node)
            (Some stop_node) (ZoneChain_clear path) (Some cutCallback) state.

(** What is read off the outcome of a query. *)
Definition outcome_code (r : Outcome ZoneFinderResultContext)
  : option Result :=
  match r with Return c => Some (code c) | _ => None end.

Definition outcome_exception (r : Outcome ZoneFinderResultContext)
  : option Exception :=
  match r with Throw e => Some e | _ => None end.

Definition outcome_found_node (r : Outcome ZoneFinderResultContext)
  : option (option ZoneNode) :=
  match r with Return c => Some (found_node c) | _ => None end.

Definition node_search_code (r : Outcome (FindNodeResult.t * ZoneChain))
  : option Result :=
  match r with
  | Return (node_result, _) => Some (FindNodeResult.code node_result)
  | _ => None
  end.

(** The lookup of the loop of [findNSEC3] at a label count: of the hash
    of the last [labels] labels of the name, before the origin, in the
    tree of hashes. *)
Definition hash_lookup (finder : InMemoryZoneFinder) (name : Name)
    (nsec3_data : NSEC3Data) (qlabels labels : Z) :=
  tree_find (getNSEC3Tree nsec3_data)
    (nsec3_calculate_ finder
       (if labels =? qlabels then name
        else Name_split name (qlabels - labels) labels)
       (iterations nsec3_data) (getSaltData nsec3_data)
       (getSaltLen nsec3_data)
     :: getOrigin finder)
    None ZoneChain_new None tt.

(** The lookup at [labels] is no exact match and leaves a node compared
    last, with an order that is not zero. *)
Definition no_match_at (finder : InMemoryZoneFinder) (name : Name)
    (nsec3_data : NSEC3Data) (qlabels labels : Z) : Prop :=
  exists result node chain last_node,
    hash_lookup finder name nsec3_data qlabels labels
    = Return (result, node, chain, tt)
    /\ result <> EXACTMATCH
    /\ getOrder (getLastComparisonResult chain) <> 0
    /\ getLastComparedNode chain = Some last_node.

(** The name is the origin or below it. *)
Definition in_zone (finder : InMemoryZoneFinder) (name : Name) : bool :=
  let relation := getRelation (Name_compare name (getOrigin finder)) in
  relation_eqb relation EQUAL || relation_eqb relation SUBDOMAIN.

(** A search of the tree of hashes without callback throws nothing. *)
Definition lookups_do_not_throw (nsec3_data : NSEC3Data) : Prop :=
  forall (target : LabelSequence) (e : Exception),
    tree_find (getNSEC3Tree nsec3_data) target None ZoneChain_new None tt
    <> Throw e.

(** The covering node as the specification words it. *)
Definition covering_as_specified (tree : ZoneTree) (order : Z)
    (stop_node : ZoneNode) (covering : option ZoneNode) : Prop :=
  ((order < 0 /\ predecessor tree stop_node = None)
   \/ (order > 0 /\ successor tree stop_node = None) ->
   covering = getLargestInSubTree tree stop_node)
  /\ (~ ((order < 0 /\ predecessor tree stop_node = None)
         \/ (order > 0 /\ successor tree stop_node = None)) ->
      covering = predecessor tree stop_node).

(** The record set of a covering node, if there is one. *)
Definition covering_rrset (finder : InMemoryZoneFinder)
    (covering : option ZoneNode) : TreeNodeRRsetPtr :=
  createTreeNodeRRset covering
    match covering with Some c => data_head c | None => None end
    (getClass finder) FIND_DNSSEC None.
End Notions.

(** * The message counters of the authoritative server

    bin/auth/statistics.cc counts the requests the server receives and the
    responses it sends.  The classes it works on are declared in headers
    that are not part of the sources; they are taken by what this file
    reads of them. *)

Module Statistics.

(** The counters this file increments (auth/statistics_items.h, which
    declares the enumeration, is generated and not part of the sources);
    each enumerator is a counter of its own. *)
Inductive MsgCounterType : Type :=
| MSG_REQUEST_IPV4
| MSG_REQUEST_IPV6
| MSG_REQUEST_EDNS0
| MSG_REQUEST_BADEDNSVER
| MSG_REQUEST_TSIG
| MSG_REQUEST_BADSIG
| MSG_REQUEST_DNSSEC_OK
| MSG_REQUEST_UDP
| MSG_REQUEST_TCP
| MSG_OPCODE_QUERY
| MSG_OPCODE_IQUERY
| MSG_OPCODE_STATUS
| MSG_OPCODE_NOTIFY
| MSG_OPCODE_UPDATE
| MSG_OPCODE_OTHER
| MSG_RESPONSE
| MSG_RESPONSE_TRUNCATED
| MSG_RESPONSE_EDNS0
| MSG_RESPONSE_TSIG
| MSG_QRYSUCCESS
| MSG_QRYAUTHANS
| MSG_QRYNOAUTHANS
| MSG_QRYREFERRAL
| MSG_QRYNXRRSET
| MSG_QRYREJECT
| MSG_QRYRECURSION
| MSG_RCODE_NOERROR
| MSG_RCODE_FORMERR
| MSG_RCODE_SERVFAIL
| MSG_RCODE_NXDOMAIN
| MSG_RCODE_NOTIMP
| MSG_RCODE_REFUSED
| MSG_RCODE_YXDOMAIN
| MSG_RCODE_YXRRSET
| MSG_RCODE_NXRRSET
| MSG_RCODE_NOTAUTH
| MSG_RCODE_NOTZONE
| MSG_RCODE_BADVERS
| MSG_RCODE_OTHER.

Definition opcode_to_msgcounter : list MsgCounterType :=
  [ MSG_OPCODE_QUERY; MSG_OPCODE_IQUERY; MSG_OPCODE_STATUS; MSG_OPCODE_OTHER;
    MSG_OPCODE_NOTIFY; MSG_OPCODE_UPDATE; MSG_OPCODE_OTHER; MSG_OPCODE_OTHER;
    MSG_OPCODE_OTHER; MSG_OPCODE_OTHER; MSG_OPCODE_OTHER; MSG_OPCODE_OTHER;
    MSG_OPCODE_OTHER; MSG_OPCODE_OTHER; MSG_OPCODE_OTHER; MSG_OPCODE_OTHER ].

Definition num_opcode_to_msgcounter : N :=
  N.of_nat (List.length opcode_to_msgcounter).

Definition rcode_to_msgcounter : list MsgCounterType :=
  [ MSG_RCODE_NOERROR; MSG_RCODE_FORMERR; MSG_RCODE_SERVFAIL;
    MSG_RCODE_NXDOMAIN; MSG_RCODE_NOTIMP; MSG_RCODE_REFUSED;
    MSG_RCODE_YXDOMAIN; MSG_RCODE_YXRRSET; MSG_RCODE_NXRRSET;
    MSG_RCODE_NOTAUTH; MSG_RCODE_NOTZONE; MSG_RCODE_OTHER; MSG_RCODE_OTHER;
    MSG_RCODE_OTHER; MSG_RCODE_OTHER; MSG_RCODE_OTHER; MSG_RCODE_BADVERS ].

Definition num_rcode_to_msgcounter : N :=
  N.of_nat (List.length rcode_to_msgcounter).

(** The codes of dns/opcode.h and dns/rcode.h the source compares with, as
    the tables above number them. *)
Definition Opcode_QUERY : N := 0.
Definition Rcode_NOERROR_CODE : N := 0.
Definition Rcode_REFUSED_CODE : N := 5.
Definition Rcode_BADVERS : N := 16.

(** What the source reads of a [MessageAttributes]; the opcode is its code,
    absent when the request had none. *)
Record MessageAttributes : Type := mkMessageAttributes {
  getRequestIPVersion : Z;
  getRequestTransportProtocol : Z;
  getRequestOpCode : option N;
  requestHasRD : bool;
  requestHasTSIG : bool;
  requestHasBadSig : bool;
  requestHasEDNS0 : bool;
  requestHasDO : bool;
  responseIsTruncated : bool;
  responseHasTSIG : bool
}.

(** What the source reads of the response [Message]: the version of its
    EDNS when it has one, the code of its rcode, the count of the answer
    section and two header flags. *)
Record Message : Type := mkMessage {
  getEDNS : option Z;
  getRcode : N;
  getRRCount_ANSWER : N;
  getHeaderFlag_AA : bool;
  getHeaderFlag_RD : bool
}.

(** How a member function ends: it returns, it throws [bundy::Unexpected],
    or it has read a table outside its bounds. *)
Inductive Ending : Type :=
| Returned
| ThrewUnexpected
| ReadOutOfBounds.

(** The calls of [server_msg_counter_.inc] a member function makes, in
    order, and how it ends. *)
Record Run : Type := mkRun {
  calls : list MsgCounterType;
  ending : Ending
}.

Section Counting.
(** The constants of the socket interface. *)
Variables AF_INET AF_INET6 IPPROTO_UDP IPPROTO_TCP : Z.

Definition incRequest (msgattrs : MessageAttributes) : Run :=
  let inc (counted : list MsgCounterType) (type : MsgCounterType) :=
    counted ++ [type] in
  let counted : list MsgCounterType := [] in
  let counted :=
    if getRequestIPVersion msgattrs =? AF_INET
    then inc counted MSG_REQUEST_IPV4
    else if getRequestIPVersion msgattrs =? AF_INET6
         then inc counted MSG_REQUEST_IPV6
         else counted in
  let counted :=
    if getRequestTransportProtocol msgattrs =? IPPROTO_UDP
    then inc counted MSG_REQUEST_UDP
    else if getRequestTransportProtocol msgattrs =? IPPROTO_TCP
         then inc counted MSG_REQUEST_TCP
         else counted in
  let opcode := getRequestOpCode msgattrs in
  let after_opcode : option (list MsgCounterType) :=
    match opcode with
    | Some code =>
        match nth_error opcode_to_msgcounter (N.to_nat code) with
        | Some type =>
            let counted := inc counted type in
            Some (if N.eqb code Opcode_QUERY
                  then if requestHasRD msgattrs
                       then inc counted MSG_QRYRECURSION
                       else counted
                  else counted)
        | None => None
        end
    | None => Some counted
    end in
  match after_opcode with
  | None => mkRun counted ReadOutOfBounds
  | Some counted =>
      let counted :=
        if requestHasTSIG msgattrs then inc counted MSG_REQUEST_TSIG
        else counted in
      if requestHasBadSig msgattrs then
        mkRun (inc counted MSG_REQUEST_BADSIG) Returned
      else
        let counted :=
          if requestHasEDNS0 msgattrs then inc counted MSG_REQUEST_EDNS0
          else counted in
        let counted :=
          if requestHasDO msgattrs then inc counted MSG_REQUEST_DNSSEC_OK
          else counted in
        mkRun counted Returned
  end.

Definition incResponse (msgattrs : MessageAttributes) (response : Message)
  : Run :=
  let inc (counted : list MsgCounterType) (type : MsgCounterType) :=
    counted ++ [type] in
  let counted := inc [] MSG_RESPONSE in
  let counted :=
    if responseIsTruncated msgattrs then inc counted MSG_RESPONSE_TRUNCATED
    else counted in
  let response_edns := getEDNS response in
  let counted :=
    match response_edns with
    | Some version =>
        if version =? 0 then inc counted MSG_RESPONSE_EDNS0 else counted
    | None => counted
    end in
  let counted :=
    if responseHasTSIG msgattrs then inc counted MSG_RESPONSE_TSIG
    else counted in
  let rcode := getRcode response in
  let rcode_type :=
    if N.ltb rcode num_rcode_to_msgcounter
    then nth (N.to_nat rcode) rcode_to_msgcounter MSG_RCODE_OTHER
    else MSG_RCODE_OTHER in
  let counted := inc counted rcode_type in
  let counted :=
    if N.eqb rcode Rcode_BADVERS then inc counted MSG_REQUEST_BADEDNSVER
    else counted in
  let opcode := getRequestOpCode msgattrs in
  match opcode with
  | None => mkRun counted ThrewUnexpected
  | Some code =>
      if negb (requestHasBadSig msgattrs) && N.eqb code Opcode_QUERY then
        let answer_rrs := getRRCount_ANSWER response in
        let is_aa_set := getHeaderFlag_AA response in
        let counted :=
          if is_aa_set then inc counted MSG_QRYAUTHANS
          else inc counted MSG_QRYNOAUTHANS in
        let counted :=
          if N.eqb rcode Rcode_NOERROR_CODE then
            if N.ltb 0 answer_rrs then inc counted MSG_QRYSUCCESS
            else if is_aa_set then inc counted MSG_QRYNXRRSET
                 else inc counted MSG_QRYREFERRAL
          else if N.eqb rcode Rcode_REFUSED_CODE then
                 if negb (getHeaderFlag_RD response)
                 then inc counted MSG_QRYREJECT
                 else counted
               else counted in
        mkRun counted Returned
      else mkRun counted Returned
  end.

(** [Counters::inc]: the response is counted when the request was counted
    to its end and an answer was sent. *)
Definition inc (msgattrs : MessageAttributes) (response : Message)
    (done : bool) : Run :=
  let request := incRequest msgattrs in
  match ending request with
  | Returned =>
      if done then
        let answered := incResponse msgattrs response in
        mkRun (calls request ++ calls answered) (ending answered)
      else request
  | _ => request
  end.
End Counting.

(** ** The item tree *)

(** What is used of [bundy::data::Element] (cc/data.h is not part of the
    sources): integers and maps from names to elements; [set] replaces
    the value of a name the map has and adds the name otherwise. *)
Inductive Element : Type :=
| IntElement (value : Z)
| MapElement (items : list (string * Element)).

Fixpoint Element_set (items : list (string * Element)) (name : string)
    (value : Element) : list (string * Element) :=
  match items with
  | [] => [(name, value)]
  | (key, old) :: rest =>
      if String.eqb key name then (key, value) :: rest
      else (key, old) :: Element_set rest name value
  end.

(** An entry of a [CounterSpec] array before the entry that ends it: a
    name with the array of its sub counters or, when that is null, with
    the identifier of its counter. *)
Inductive CounterSpec : Type :=
| CounterItem (name : string) (counter_id : MsgCounterType)
| CounterTree (name : string) (sub_counters : list CounterSpec).

Section ItemTree.
(** [statistics/counter.h] is not part of the sources: a counter is taken
    with its [get]. *)
Variable Counter : Type.
Variable Counter_get : Counter -> MsgCounterType -> Z.

(** The body of the loop of [fillNodes] for one entry.  The map made for
    the sub counters is shared with [trees], which sees it filled. *)
Fixpoint fillNode (counter : Counter) (spec : CounterSpec)
    (trees : list (string * Element)) : list (string * Element) :=
  match spec with
  | CounterTree name sub_counters =>
      Element_set trees name
        (MapElement
           (fold_left (fun sub entry => fillNode counter entry sub)
                      sub_counters []))
  | CounterItem name counter_id =>
      Element_set trees name
        (IntElement (Z.land (Counter_get counter counter_id)
                            0x7fffffffffffffff))
  end.

Definition fillNodes (counter : Counter) (type_tree : list CounterSpec)
    (trees : list (string * Element)) : list (string * Element) :=
  fold_left (fun trees entry => fillNode counter entry trees) type_tree trees.

(** [Counters::get], for the tree of the items [msg_counter_tree]. *)
Definition get (msg_counter_tree : list CounterSpec)
    (server_msg_counter_ : Counter) : Element :=
  let server := fillNodes server_msg_counter_ msg_counter_tree [] in
  let zones := Element_set [] "_SERVER_"%string (MapElement server) in
  let item_tree := Element_set [] "zones"%string (MapElement zones) in
  MapElement item_tree.
End ItemTree.
End Statistics.

Module StatisticsNotions.
Import Statistics.

(** The place of a counter in the order in which [Counters::inc] goes
    through the attributes of a message; the counters of one place
    exclude each other. *)
Definition stage (type : MsgCounterType) : nat :=
  match type with
  | MSG_REQUEST_IPV4 | MSG_REQUEST_IPV6 => 1
  | MSG_REQUEST_UDP | MSG_REQUEST_TCP => 2
  | MSG_OPCODE_QUERY | MSG_OPCODE_IQUERY | MSG_OPCODE_STATUS
  | MSG_OPCODE_NOTIFY | MSG_OPCODE_UPDATE | MSG_OPCODE_OTHER => 3
  | MSG_QRYRECURSION => 4
  | MSG_REQUEST_TSIG => 5
  | MSG_REQUEST_BADSIG => 6
  | MSG_REQUEST_EDNS0 => 7
  | MSG_REQUEST_DNSSEC_OK => 8
  | MSG_RESPONSE => 9
  | MSG_RESPONSE_TRUNCATED => 10
  | MSG_RESPONSE_EDNS0 => 11
  | MSG_RESPONSE_TSIG => 12
  | MSG_RCODE_NOERROR | MSG_RCODE_FORMERR | MSG_RCODE_SERVFAIL
  | MSG_RCODE_NXDOMAIN | MSG_RCODE_NOTIMP | MSG_RCODE_REFUSED
  | MSG_RCODE_YXDOMAIN | MSG_RCODE_YXRRSET | MSG_RCODE_NXRRSET
  | MSG_RCODE_NOTAUTH | MSG_RCODE_NOTZONE | MSG_RCODE_BADVERS
  | MSG_RCODE_OTHER => 13
  | MSG_REQUEST_BADEDNSVER => 14
  | MSG_QRYAUTHANS | MSG_QRYNOAUTHANS => 15
  | MSG_QRYSUCCESS | MSG_QRYNXRRSET | MSG_QRYREFERRAL | MSG_QRYREJECT => 16
  end%nat.

(** The counters of the places of a list go up strictly. *)
Definition in_stages (counted : list MsgCounterType) : Prop :=
  StronglySorted lt (map stage counted).

(** The counters of a list go up strictly by their places, which all lie
    between [lo] and [hi]. *)
Definition staged (lo hi : nat) (counted : list MsgCounterType) : Prop :=
  in_stages counted
  /\ Forall (fun type => (lo <= stage type <= hi)%nat) counted.

(** The counter of the rcode of a response. *)
Definition rcode_counter (rcode : N) : MsgCounterType :=
  nth (N.to_nat rcode) rcode_to_msgcounter MSG_RCODE_OTHER.

(** The integers of an element are all in the range of a signed 64-bit
    integer that is not negative. *)
Fixpoint in_int64_range (e : Element) : Prop :=
  match e with
  | IntElement value => 0 <= value < 2 ^ 63
  | MapElement items =>
      (fix all (items : list (string * Element)) : Prop :=
         match items with
         | [] => True
         | (_, value) :: rest => in_int64_range value /\ all rest
         end) items
  end.

(** The element a path of names leads to. *)
Fixpoint Element_at (e : Element) (path : list string) : option Element :=
  match path with
  | [] => Some e
  | name :: rest =>
      match e with
      | IntElement _ => None
      | MapElement items =>
          match List.find (fun item => String.eqb (fst item) name) items with
          | Some (_, value) => Element_at value rest
          | None => None
          end
      end
  end.
End StatisticsNotions.

(** * Mutex and condition variable

    The wrappers of the pthread mutex and condition variable
    (util/threads/sync.cc, which the sources have behind
    bin/auth/tests/datasrc_clients_mgr_unittest.cc).  The pthread objects
    are outside the program: the result of each pthread call is an input.
    The build is the one with assertions. *)

Module Sync.

(** The exceptions the wrappers throw. *)
Inductive Thrown : Type :=
| InvalidOperation
| BadValue
| bad_alloc.

(** [Mutex::Impl]: of the pthread mutex only the count of locks the
    wrapper keeps is in the program. *)
Record Impl : Type := mkImpl {
  locked_count : N
}.

(** A [Mutex]: its [impl_], null ([None]) or not. *)
Definition Mutex : Type := option Impl.

(** How a member function leaves the object: it returns, it throws, or an
    assertion fails and the process is aborted. *)
Inductive Step (A : Type) : Type :=
| Completed (state : A)
| Threw (e : Thrown) (state : A)
| Aborted.
Arguments Completed {A} state.
Arguments Threw {A} e state.
Arguments Aborted {A}.

Section Construction.
(** The error numbers the constructor tells apart. *)
Variables ENOMEM EAGAIN : Z.

(** The destructor of the [Deinitializer], run when the constructor of
    the mutex is left, by return or by exception. *)
Definition leave_with_attributes (destroy_result : Z) (leaving : Step Mutex)
  : Step Mutex :=
  if destroy_result =? 0 then leaving else Aborted.

(** [Mutex::Mutex()], for the results of [pthread_mutexattr_init],
    [pthread_mutexattr_settype], [pthread_mutex_init] and
    [pthread_mutexattr_destroy]. *)
Definition Mutex_new (attr_init_result settype_result mutex_init_result
                        destroy_result : Z) : Step Mutex :=
  let impl_ : Mutex := None in
  if attr_init_result =? 0 then
    if negb (settype_result =? 0) then
      leave_with_attributes destroy_result (Threw InvalidOperation impl_)
    else
      let impl := mkImpl 0 in
      if mutex_init_result =? 0 then
        leave_with_attributes destroy_result (Completed (Some impl))
      else if (mutex_init_result =? ENOMEM) || (mutex_init_result =? EAGAIN)
      then leave_with_attributes destroy_result (Threw bad_alloc impl_)
      else leave_with_attributes destroy_result (Threw InvalidOperation impl_)
  else if attr_init_result =? ENOMEM then Threw bad_alloc impl_
  else Threw InvalidOperation impl_.
End Construction.

(** [Mutex::~Mutex()], for the result of [pthread_mutex_destroy]; what is
    left is no object. *)
Definition Mutex_delete (m : Mutex) (destroy_result : Z) : Step unit :=
  match m with
  | Some impl_ =>
      let locked := negb (N.eqb (locked_count impl_) 0) in
      if negb (destroy_result =? 0) then Aborted
      else if locked then Aborted
      else Completed tt
  | None => Completed tt
  end.

(** The members below read [impl_] without a check: they are given the
    [Impl] of a mutex that has one. *)
Definition postLockAction (impl_ : Impl) : Step Impl :=
  if negb (N.eqb (locked_count impl_) 0) then Aborted
  else Completed (mkImpl (locked_count impl_ + 1)).

(** [Mutex::lock()], for the result of [pthread_mutex_lock]. *)
Definition lock (m : Mutex) (lock_result : Z) : Step Mutex :=
  match m with
  | None => Aborted
  | Some impl_ =>
      if negb (lock_result =? 0) then Threw InvalidOperation m
      else
        match postLockAction impl_ with
        | Completed impl_ => Completed (Some impl_)
        | Threw e impl_ => Threw e (Some impl_)
        | Aborted => Aborted
        end
  end.

Definition preUnlockAction (impl_ : Impl) (throw_ok : bool) : Step Impl :=
  if N.eqb (locked_count impl_) 0 then
    if throw_ok then Threw InvalidOperation impl_
    else Aborted
  else Completed (mkImpl (locked_count impl_ - 1)).

(** [Mutex::unlock()], for the result of [pthread_mutex_unlock]. *)
Definition unlock (m : Mutex) (unlock_result : Z) : Step Mutex :=
  match m with
  | None => Aborted
  | Some impl_ =>
      match preUnlockAction impl_ false with
      | Completed impl_ =>
          if unlock_result =? 0 then Completed (Some impl_) else Aborted
      | Threw e impl_ => Threw e (Some impl_)
      | Aborted => Aborted
      end
  end.

Definition locked (impl_ : Impl) : bool :=
  negb (N.eqb (locked_count impl_) 0).

(** [CondVar::wait(mutex)], for the result of [pthread_cond_wait]; the
    state is that of the mutex. *)
Definition CondVar_wait (impl_ : Impl) (wait_result : Z) : Step Impl :=
  match preUnlockAction impl_ true with
  | Completed impl_ =>
      match postLockAction impl_ with
      | Completed impl_ =>
          if negb (wait_result =? 0) then Threw BadValue impl_
          else Completed impl_
      | other => other
      end
  | other => other
  end.

(** [CondVar::signal()], for the result of [pthread_cond_signal]. *)
Definition CondVar_signal (signal_result : Z) : Step unit :=
  if signal_result =? 0 then Completed tt else Aborted.

(** ** Uses of a mutex *)

(** A call on a mutex, with the result of the pthread call it makes. *)
Inductive Call : Type :=
| CallLock (lock_result : Z)
| CallUnlock (unlock_result : Z)
| CallWait (wait_result : Z).

Definition call (c : Call) (impl_ : Impl) : Step Impl :=
  match c with
  | CallLock r =>
      match lock (Some impl_) r with
      | Completed (Some impl_) => Completed impl_
      | Threw e (Some impl_) => Threw e impl_
      | _ => Aborted
      end
  | CallUnlock r =>
      match unlock (Some impl_) r with
      | Completed (Some impl_) => Completed impl_
      | Threw e (Some impl_) => Threw e impl_
      | _ => Aborted
      end
  | CallWait r => CondVar_wait impl_ r
  end.

(** A sequence of calls whose exceptions are caught; [None] when the
    process was aborted. *)
Fixpoint calls_in_turn (cs : list Call) (impl_ : Impl) : option Impl :=
  match cs with
  | [] => Some impl_
  | c :: rest =>
      match call c impl_ with
      | Completed impl_ | Threw _ impl_ => calls_in_turn rest impl_
      | Aborted => None
      end
  end.
End Sync.

(** ** Notions of the further properties *)

Section SearchNotions.
Context {ops : DomainTreeOps}.

(** A search of the tree of the zone with the cut callback throws
    nothing. *)
Definition tree_search_does_not_throw (zd : ZoneData) : Prop :=
  forall (name : LabelSequence) (from : option ZoneNode) (path : ZoneChain)
         (state : FindState) (e : Exception),
    tree_find (getZoneTree zd) name from path (Some cutCallback) state
    <> Throw e.

(** The states a search reaches from [s0] by calls of the cut callback
    that let it go on. *)
Inductive callback_run (s0 : FindState) : FindState -> Prop :=
| run_start : callback_run s0 s0
| run_step (s s' : FindState) (node : ZoneNode) :
    callback_run s0 s -> cutCallback node s = Return (false, s') ->
    callback_run s0 s'.

(** The state a search ends with: that of a run of the callback, or the
    one the callback left when it stopped the search after such a run. *)
Definition callback_trace (s0 s : FindState) : Prop :=
  callback_run s0 s
  \/ exists s1 node, callback_run s0 s1
                     /\ cutCallback node s1 = Return (true, s).

(** The tree hands the state to the callback and hands back what the
    callback made of it. *)
Definition search_runs_callback (zd : ZoneData) : Prop :=
  forall name from path s0 result node path' s,
    tree_find (getZoneTree zd) name from path (Some cutCallback) s0
    = Return (result, node, path', s) ->
    callback_trace s0 s.

(** [rds] is the set of type [type] among the data of [node]. *)
Definition set_of_node (type : RRType) (node : option ZoneNode)
    (rds : option RdataSet) : Prop :=
  exists n found, node = Some n /\ rds = Some found
                  /\ RdataSet_find (getData n) type = Some found.
End SearchNotions.

Section AdditionalNotions.
Context {ops : DomainTreeOps}.

(** A record set the additional section processing may add for the
    requested types when it searches with [options]: a set of one of
    these types among the data of its node, with the class of the context
    and the DNSSEC wish of the options; when glue is not allowed the node
    is no zone cut below the origin. *)
Definition additional_rrset (ctx : Context) (requested_types : list RRType)
    (options : FindOptions) (p : TreeNodeRRsetPtr) : Prop :=
  exists r,
    p = Some r
    /\ type_requested requested_types (rdata_type (rrset_rdataset r)) = true
    /\ In (rrset_rdataset r) (getData (rrset_node r))
    /\ rrset_rrclass r = context_rrclass_ ctx
    /\ rrset_dnssec_ok r = has_flag options FIND_DNSSEC
    /\ (has_flag options FIND_GLUE_OK = false ->
        getFlag (rrset_node r) FLAG_CALLBACK = false
        \/ node_ptr_eqb (rrset_node r)
                        (getOriginNode (context_zone_data_ ctx)) = true).

(** The name field asks for additional section processing and the name is
    the origin of the zone of the context or below it. *)
Definition to_be_processed (ctx : Context) (field : LabelSequence * Z)
  : bool :=
  let relation :=
    getRelation
      (LabelSequence_compare
         (getAbsoluteLabels (getOriginNode (context_zone_data_ ctx)))
         (fst field)) in
  negb (Z.land (snd field) NAMEATTR_ADDITIONAL =? 0)
  && (relation_eqb relation SUPERDOMAIN || relation_eqb relation EQUAL).
End AdditionalNotions.

(** ** Sample rdata for the additional section *)

Module AdditionalSamples.
Import ConcreteTree.
Local Open Scope string_scope.

(** The names in the rdata of the sample sets: the NS of the origin names
    [a.example.], to be looked up for the additional section, and
    [wild.sub.example.], below the zone cut; the other sets have no
    name. *)
Definition name_fields (_ : RRClass) (type : RRType) (_ : list byte)
    (_ _ : Z) : list (LabelSequence * Z) :=
  if (type =? RRTypes.NS)%Z
  then [(["a"; "example"; ""], NAMEATTR_ADDITIONAL);
        (["wild"; "sub"; "example"; ""], NAMEATTR_ADDITIONAL);
        (["a"; "example"; ""], 0);
        (["x"; "com"; ""], NAMEATTR_ADDITIONAL)]
  else if (type =? RRTypes.TXT)%Z
  then [(["wild"; "sub"; "example"; ""], NAMEATTR_ADDITIONAL)]
  else [].

(** The context of the answer to the query for the NS of [example.]. *)
Definition ns_context : Context :=
  Context_new FIND_DEFAULT 1
    (createFindResult 1 Samples.zone SUCCESS (Some (Samples.rds RRTypes.NS))
                      (Some Samples.origin) FIND_DEFAULT false None).
End AdditionalSamples.

(** * Properties *)

Unset Implicit Arguments.

(** ** Elementary facts *)

Lemma relation_eqb_eq (a b : NameComparisonResult.NameRelation) :
  relation_eqb a b = true <-> a = b.
Proof. destruct a, b; simpl; split; congruence. Qed.

Lemma relation_eqb_neq (a b : NameComparisonResult.NameRelation) :
  relation_eqb a b = false <-> a <> b.
Proof. destruct a, b; simpl; split; congruence. Qed.

Lemma Result_eqb_eq (a b : Result) : Result_eqb a b = true <-> a = b.
Proof. destruct a, b; simpl; split; congruence. Qed.

Lemma RdataSet_find_type (head : list RdataSet) (type : RRType) (rds : RdataSet) :
  RdataSet_find head type = Some rds -> rdata_type rds = type /\ In rds head.
Proof.
  induction head as [|x rest IH]; simpl; [discriminate|].
  destruct (rdata_type x =? type) eqn:E.
  - intros [= <-]. split; [now apply Z.eqb_eq | now left].
  - intros H. destruct (IH H) as [Ht Hin]. split; [exact Ht | now right].
Qed.

Lemma RdataSet_find_nil_data (node : ZoneNode) (type : RRType) :
  isEmpty node = true -> RdataSet_find (getData node) type = None.
Proof. unfold isEmpty. destruct (getData node); [reflexivity | discriminate]. Qed.

(** ** The cut callback *)

Lemma FindState_new_glue_mode (glue_ok : bool) :
  cut_recorded_in_glue_mode (FindState_new glue_ok).
Proof. intros H. now elim H. Qed.

(** The descent goes on after the callback only when it returned false;
    the state then still is as the callback expects it. *)
Lemma cutCallback_keeps_glue_mode (node : ZoneNode) (state state' : FindState) :
  cut_recorded_in_glue_mode state ->
  cutCallback node state = Return (false, state') ->
  cut_recorded_in_glue_mode state'.
Proof.
  unfold cutCallback, cut_recorded_in_glue_mode.
  destruct state as [cut dname rds glue]; simpl. intros Hinv.
  destruct (RdataSet_find (getData node) RRTypes.DNAME); [discriminate|].
  destruct (RdataSet_find (getData node) RRTypes.NS); [|discriminate].
  destruct cut.
  - intros [= <-]. exact Hinv.
  - intros [= Hg <-]. simpl. intros _. now destruct glue.
Qed.

Lemma cut_recorded_in_glue_mode_b_spec (state : FindState) :
  cut_recorded_in_glue_mode_b state = true <-> cut_recorded_in_glue_mode state.
Proof.
  unfold cut_recorded_in_glue_mode_b, cut_recorded_in_glue_mode.
  destruct (zonecut_node_ state); split; intros H; try reflexivity.
  - intros _. exact H.
  - apply H. discriminate.
  - intros Hn. now elim Hn.
Qed.

(** In a search of the tree of trees the callback fires only in such
    states: the check before it never fails. *)
Lemma cutCallback_fires_in_glue_mode (t : ConcreteTree.DomainTree) :
  forall target_labels ret target path state,
    cut_recorded_in_glue_mode state ->
    ConcreteTree.find_from t target_labels ret target path
                           (Some checked_cutCallback) state
    = ConcreteTree.find_from t target_labels ret target path
                             (Some cutCallback) state.
Proof.
  induction t as [|l IHl n d IHd r IHr]; intros ls ret target path state Hinv;
    cbn [ConcreteTree.find_from]; [reflexivity|].
  destruct (getRelation (LabelSequence_compare ls (getLabels n)));
    try reflexivity.
  - destruct (getFlag n FLAG_CALLBACK); [|now apply IHd].
    unfold checked_cutCallback.
    rewrite (proj2 (cut_recorded_in_glue_mode_b_spec state) Hinv).
    destruct (cutCallback n state) as [[stop state']| |] eqn:Hcb;
      cbn [bind]; try reflexivity.
    destruct stop; [reflexivity|].
    apply IHd. exact (cutCallback_keeps_glue_mode n state state' Hinv Hcb).
  - destruct (getOrder (LabelSequence_compare ls (getLabels n)) <? 0);
      [now apply IHl | now apply IHr].
Qed.

(** C5: on a node with a DNAME the callback records the node as DNAME node
    and returns true, whether or not the node has an NS as well; on a node
    with an NS and no DNAME it records the node as zone cut only when no
    cut was recorded before, and returns the negation of glue_ok. *)
Theorem cutCallback_rules (node : ZoneNode) (state : FindState)
    (Hfires : cut_recorded_in_glue_mode state) :
  (forall dname,
      RdataSet_find (getData node) RRTypes.DNAME = Some dname ->
      cutCallback node state =
        Return (true, mkFindState (zonecut_node_ state) (Some node)
                                  (Some dname) (glue_ok_ state)))
  /\
  (forall ns,
      RdataSet_find (getData node) RRTypes.DNAME = None ->
      RdataSet_find (getData node) RRTypes.NS = Some ns ->
      exists state',
        cutCallback node state = Return (negb (glue_ok_ state), state')
        /\ (zonecut_node_ state = None ->
            state' = mkFindState (Some node) (dname_node_ state) (Some ns)
                                 (glue_ok_ state))
        /\ (zonecut_node_ state <> None -> state' = state)).
Proof.
  split.
  - intros dname Hd. unfold cutCallback. now rewrite Hd.
  - intros ns Hd Hn. unfold cutCallback. rewrite Hd, Hn.
    destruct (zonecut_node_ state) as [cut|] eqn:Hz.
    + assert (Hg : glue_ok_ state = true) by (apply Hfires; congruence).
      exists state. rewrite Hg. simpl. repeat split; congruence.
    + eexists. split; [reflexivity|]. split; [reflexivity | congruence].
Qed.

Lemma cutCallback_rules_witness :
  cut_recorded_in_glue_mode (FindState_new false)
  /\ cutCallback Samples.sub (FindState_new false)
     = Return (true, mkFindState (Some Samples.sub) None
                                 (Some (Samples.rds RRTypes.NS)) false).
Proof.
  split; [apply FindState_new_glue_mode|].
  destruct (cutCallback_rules Samples.sub (FindState_new false)
              (FindState_new_glue_mode false)) as [_ Hns].
  destruct (Hns (Samples.rds RRTypes.NS) eq_refl eq_refl) as (s & Hc & Hrec & _).
  rewrite Hc, (Hrec eq_refl). reflexivity.
Defined.

(** ** The answer classifier *)

Section FinderProperties.
Context {ops : DomainTreeOps}.
Variable indeterminate : option ZoneNode.

Lemma createFindResult_code rrclass zd c rdset node options wild qname :
  code (createFindResult rrclass zd c rdset node options wild qname) = c.
Proof. unfold createFindResult. now destruct wild. Qed.

Lemma createFindResult_found rrclass zd c rdset node options wild qname :
  found_node (createFindResult rrclass zd c rdset node options wild qname) = node
  /\ found_rdset (createFindResult rrclass zd c rdset node options wild qname)
     = rdset.
Proof. unfold createFindResult. now destruct wild. Qed.

Lemma createFindResult_rrset rrclass zd c rdset node options wild qname :
  rrset (createFindResult rrclass zd c rdset node options wild qname)
  = createTreeNodeRRset node rdset rrclass options
                        (if wild then qname else None).
Proof. unfold createFindResult. now destruct wild. Qed.

Lemma createFindResult_flags rrclass zd c rdset node options wild qname :
  flags (createFindResult rrclass zd c rdset node options wild qname)
  = result_flags zd c wild.
Proof.
  unfold createFindResult, result_flags, signed_flag.
  destruct wild, c, (isNSEC3Signed zd), (isSigned zd); reflexivity.
Qed.

(** C1: after an exact match at a node that has data, the result is
    DELEGATION exactly when the node has the callback flag, is not the
    origin, the type is not DS, FIND_GLUE_OK is unset and the node has an
    NS; the record set returned then is that NS, and a DS query never
    yields DELEGATION. *)
Theorem exact_match_delegation
    (finder : InMemoryZoneFinder) (name : Name) (type : RRType)
    (target : option (list TreeNodeRRsetPtr)) (options : FindOptions)
    (node_result : FindNodeResult.t) (node_path : ZoneChain) (node : ZoneNode)
    (Hfound : findNode indeterminate (zone_data_ finder) name ZoneChain_new
                       options = Return (node_result, node_path))
    (Hcode : FindNodeResult.code node_result = SUCCESS)
    (Hnode : FindNodeResult.node node_result = Some node)
    (Hdata : isEmpty node = false) :
  exists ctx target',
    find_internal indeterminate finder name type target options
    = Return (ctx, target')
    /\ (code ctx = DELEGATION <->
        getFlag node FLAG_CALLBACK = true
        /\ node_ptr_eqb node (getOriginNode (zone_data_ finder)) = false
        /\ type <> RRTypes.DS
        /\ has_flag options FIND_GLUE_OK = false
        /\ RdataSet_find (getData node) RRTypes.NS <> None)
    /\ (code ctx = DELEGATION ->
        exists ns r,
          RdataSet_find (getData node) RRTypes.NS = Some ns
          /\ found_rdset ctx = Some ns /\ found_node ctx = Some node
          /\ rrset ctx = Some r
          /\ rrset_rdataset r = ns /\ rrset_node r = node)
    /\ (type = RRTypes.DS -> code ctx <> DELEGATION).
Proof.
  unfold find_internal. rewrite Hfound. cbn [bind]. rewrite Hcode, Hnode.
  cbn [Result_eqb negb]. rewrite Hdata. cbv zeta.
  set (wild := has_flag (FindNodeResult.flags node_result) FIND_WILDCARD).
  match goal with
  | |- context [match RdataSet_find _ RRTypes.NS with
                | Some _ => _ | None => ?K end] => set (rest := K)
  end.
  assert (Hrest : exists ctx t, rest = Return (ctx, t) /\ code ctx <> DELEGATION).
  { subst rest.
    destruct target as [collected|]; [destruct (getData node) eqn:Hd|];
      try destruct (RdataSet_find _ type);
      try destruct (RdataSet_find _ RRTypes.CNAME);
      eexists; eexists; (split; [reflexivity|]);
      rewrite createFindResult_code; discriminate. }
  destruct Hrest as (ctx0 & t0 & Hrest & Hnot).
  unfold has_flag.
  destruct (getFlag node FLAG_CALLBACK) eqn:Hcb;
    destruct (Z.land options FIND_GLUE_OK =? 0) eqn:Hglue;
    destruct (node_ptr_eqb node (getOriginNode (zone_data_ finder))) eqn:Horigin;
    destruct (Z.eqb_spec type RRTypes.DS) as [Hds|Hds];
    cbn [andb negb];
    try (exists ctx0, t0; split; [exact Hrest|];
         split; [split; [intros Hc; now elim Hnot
                        | intros (? & ? & ? & ? & ?); congruence]
                | split; [intros Hc; now elim Hnot | intros _; exact Hnot]]).
  destruct (RdataSet_find (getData node) RRTypes.NS) as [ns|] eqn:Hns.
  - eexists; eexists. split; [reflexivity|].
    rewrite createFindResult_code, createFindResult_rrset.
    destruct (createFindResult_found (rrclass_ finder) (zone_data_ finder)
                DELEGATION (Some ns) (Some node) options wild (Some name))
      as [-> ->].
    split; [split; [intros _; repeat split; congruence | reflexivity]|].
    split; [|intros ->; now elim Hds].
    intros _. exists ns. unfold createTreeNodeRRset.
    destruct wild; eexists; repeat split; reflexivity.
  - exists ctx0, t0. split; [exact Hrest|].
    split; [split; [intros Hc; now elim Hnot
                   | intros (? & ? & ? & ? & ?); congruence]
           | split; [intros Hc; now elim Hnot | intros _; exact Hnot]].
Qed.

Lemma has_flag_result_flags_wild zd c wild :
  has_flag (result_flags zd c wild) RESULT_WILDCARD = wild.
Proof.
  unfold has_flag, result_flags, signed_flag.
  destruct wild, c, (isNSEC3Signed zd), (isSigned zd); reflexivity.
Qed.

Lemma has_flag_result_flags_signed zd c wild :
  (Result_eqb c NXRRSET || Result_eqb c NXDOMAIN || wild = true) ->
  (isNSEC3Signed zd = true ->
   has_flag (result_flags zd c wild) RESULT_NSEC3_SIGNED = true
   /\ has_flag (result_flags zd c wild) RESULT_NSEC_SIGNED = false)
  /\ (isNSEC3Signed zd = false -> isSigned zd = true ->
      has_flag (result_flags zd c wild) RESULT_NSEC_SIGNED = true
      /\ has_flag (result_flags zd c wild) RESULT_NSEC3_SIGNED = false).
Proof.
  unfold has_flag, result_flags, signed_flag.
  destruct wild, c, (isNSEC3Signed zd), (isSigned zd); simpl;
    intros H; split; intros; try discriminate; split; reflexivity.
Qed.

(** The flags of every result are those its code and the wildcard flag of
    the node search give; the options have no part in them. *)
Lemma find_internal_flags finder name type target options ctx target' :
  find_internal indeterminate finder name type target options
  = Return (ctx, target') ->
  exists node_result node_path,
    findNode indeterminate (zone_data_ finder) name ZoneChain_new options
    = Return (node_result, node_path)
    /\ flags ctx
       = result_flags (zone_data_ finder) (code ctx)
           (Result_eqb (FindNodeResult.code node_result) SUCCESS
            && has_flag (FindNodeResult.flags node_result) FIND_WILDCARD).
Proof.
  unfold find_internal.
  destruct (findNode indeterminate (zone_data_ finder) name ZoneChain_new
                     options) as [[nr path]| |]; cbn [bind]; try discriminate.
  intros H. exists nr, path. split; [reflexivity|].
  destruct (Result_eqb (FindNodeResult.code nr) SUCCESS) eqn:Hc;
    cbn [negb andb] in *.
  - unfold bind in H.
    repeat match type of H with
           | context [match ?x with _ => _ end] => destruct x eqn:?
           end;
      try discriminate;
      injection H as <- <-;
      now rewrite createFindResult_flags, createFindResult_code.
  - injection H as <- <-.
    now rewrite createFindResult_flags, createFindResult_code.
Qed.

(** Two option words that differ at most in FIND_DNSSEC. *)
Lemma same_but_dnssec_bits (o1 o2 : FindOptions) :
  same_but_dnssec o1 o2 ->
  Z.land o1 FIND_GLUE_OK = Z.land o2 FIND_GLUE_OK
  /\ Z.land o1 NO_WILDCARD = Z.land o2 NO_WILDCARD.
Proof.
  unfold same_but_dnssec. intros H.
  assert (Hbit : forall o m, Z.land FIND_DNSSEC m = 0 ->
                             Z.land o m = Z.land (Z.lor o FIND_DNSSEC) m).
  { intros o m Hm. now rewrite Z.land_lor_distr_l, Hm, Z.lor_0_r. }
  split.
  - rewrite (Hbit o1), (Hbit o2) by reflexivity. now rewrite H.
  - rewrite (Hbit o1), (Hbit o2) by reflexivity. now rewrite H.
Qed.

Ltac break_goal_match :=
  repeat match goal with
         | |- context [match ?x with _ => _ end] => destruct x eqn:?
         end.

Lemma findNode_dnssec_independent zd name path o1 o2 nr1 p1 nr2 p2 :
  same_but_dnssec o1 o2 ->
  findNode indeterminate zd name path o1 = Return (nr1, p1) ->
  findNode indeterminate zd name path o2 = Return (nr2, p2) ->
  FindNodeResult.code nr1 = FindNodeResult.code nr2
  /\ FindNodeResult.flags nr1 = FindNodeResult.flags nr2
  /\ (FindNodeResult.code nr1 = SUCCESS -> nr1 = nr2 /\ p1 = p2).
Proof.
  intros Hsame. destruct (same_but_dnssec_bits _ _ Hsame) as [Hglue Hwild].
  unfold findNode, has_flag. rewrite Hglue, Hwild. unfold bind.
  break_goal_match; intros H1 H2; try discriminate;
    injection H1 as <- <-; injection H2 as <- <-; cbn;
    repeat split; try reflexivity; try discriminate; congruence.
Qed.

Lemma find_internal_dnssec_independent finder name type target o1 o2
      c1 t1 c2 t2 :
  same_but_dnssec o1 o2 ->
  find_internal indeterminate finder name type target o1 = Return (c1, t1) ->
  find_internal indeterminate finder name type target o2 = Return (c2, t2) ->
  code c1 = code c2 /\ flags c1 = flags c2.
Proof.
  intros Hsame H1 H2.
  destruct (find_internal_flags _ _ _ _ _ _ _ H1) as (nr1 & p1 & Hn1 & Hf1).
  destruct (find_internal_flags _ _ _ _ _ _ _ H2) as (nr2 & p2 & Hn2 & Hf2).
  destruct (findNode_dnssec_independent _ _ _ _ _ _ _ _ _ Hsame Hn1 Hn2)
    as (Hc & Hfl & Hsucc).
  assert (Hcode : code c1 = code c2).
  { destruct (same_but_dnssec_bits _ _ Hsame) as [Hglue _].
    revert H1 H2. unfold find_internal. rewrite Hn1, Hn2. cbn [bind].
    rewrite <- Hc.
    destruct (Result_eqb (FindNodeResult.code nr1) SUCCESS) eqn:Hs;
      cbn [negb].
    - apply Result_eqb_eq in Hs. destruct (Hsucc Hs) as [<- <-].
      rewrite Hglue. unfold bind.
      break_goal_match; intros H1 H2; try discriminate;
        injection H1 as <- <-; injection H2 as <- <-;
        now rewrite !createFindResult_code.
    - intros [= <- <-] [= <- <-]. now rewrite !createFindResult_code. }
  split; [exact Hcode|]. rewrite Hf1, Hf2, Hcode, Hc, Hfl. reflexivity.
Qed.

(** C10: a result with code NXRRSET or NXDOMAIN, or come by through a
    wildcard, has RESULT_NSEC3_SIGNED on an NSEC3-signed zone and
    RESULT_NSEC_SIGNED on a zone signed otherwise, whatever the options;
    a wildcard match of the node search shows as RESULT_WILDCARD; and
    setting or clearing FIND_DNSSEC changes neither code nor flags. *)
Theorem signed_flags_whatever_the_options
    (finder : InMemoryZoneFinder) (name : Name) (type : RRType)
    (target : option (list TreeNodeRRsetPtr)) (options : FindOptions)
    (ctx : ZoneFinderResultContext) (target' : option (list TreeNodeRRsetPtr))
    (Hresult : find_internal indeterminate finder name type target options
               = Return (ctx, target')) :
  (forall node_result node_path,
      findNode indeterminate (zone_data_ finder) name ZoneChain_new options
      = Return (node_result, node_path) ->
      has_flag (flags ctx) RESULT_WILDCARD
      = Result_eqb (FindNodeResult.code node_result) SUCCESS
        && has_flag (FindNodeResult.flags node_result) FIND_WILDCARD)
  /\ (code ctx = NXRRSET \/ code ctx = NXDOMAIN
      \/ has_flag (flags ctx) RESULT_WILDCARD = true ->
      (isNSEC3Signed (zone_data_ finder) = true ->
       has_flag (flags ctx) RESULT_NSEC3_SIGNED = true)
      /\ (isNSEC3Signed (zone_data_ finder) = false ->
          isSigned (zone_data_ finder) = true ->
          has_flag (flags ctx) RESULT_NSEC_SIGNED = true))
  /\ (forall options2 ctx2 target2,
         same_but_dnssec options options2 ->
         find_internal indeterminate finder name type target options2
         = Return (ctx2, target2) ->
         code ctx2 = code ctx /\ flags ctx2 = flags ctx).
Proof.
  destruct (find_internal_flags _ _ _ _ _ _ _ Hresult) as (nr & p & Hn & Hf).
  split; [|split].
  - intros nr' p' Hn'. rewrite Hn in Hn'. injection Hn' as <- <-.
    now rewrite Hf, has_flag_result_flags_wild.
  - intros Hneg. rewrite Hf in *. rewrite has_flag_result_flags_wild in Hneg.
    assert (Hcond : Result_eqb (code ctx) NXRRSET
                    || Result_eqb (code ctx) NXDOMAIN
                    || (Result_eqb (FindNodeResult.code nr) SUCCESS
                        && has_flag (FindNodeResult.flags nr) FIND_WILDCARD)
                    = true).
    { destruct Hneg as [-> | [-> | ->]]; cbn;
        rewrite ?orb_true_r; reflexivity. }
    destruct (has_flag_result_flags_signed (zone_data_ finder) _ _ Hcond)
      as [H3 Hn3].
    split; [intros Hs; now apply H3 | intros Hs Hs'; now apply Hn3].
  - intros options2 ctx2 target2 Hsame H2.
    destruct (find_internal_dnssec_independent _ _ _ _ _ _ _ _ _ _ Hsame Hresult H2).
    split; congruence.
Qed.

(** ** The closest NSEC *)

Lemma closest_nsec_walk_return prev_nodes r n :
  closest_nsec_walk prev_nodes = Return (r, n) ->
  exists m nsec, r = Some nsec /\ n = Some m /\ closest_nsec prev_nodes m nsec.
Proof.
  induction prev_nodes as [|k rest IH]; cbn [closest_nsec_walk];
    [discriminate|].
  destruct (isEmpty k) eqn:He; cbn [negb].
  - intros H. destruct (IH H) as (m & nsec & -> & -> & sk & rs & -> & Hm & Hf & Hs).
    exists m, nsec. repeat split; try reflexivity.
    exists (k :: sk), rs. repeat split; try assumption.
    constructor; [|exact Hs]. intros [Hk _]. congruence.
  - destruct (RdataSet_find (getData k) RRTypes.NSEC) as [found|] eqn:Hk.
    + intros [= <- <-]. exists k, found. repeat split; try reflexivity.
      exists [], rest. repeat split; try assumption. constructor.
    + intros H.
      destruct (IH H) as (m & nsec & -> & -> & sk & rs & -> & Hm & Hf & Hs).
      exists m, nsec. repeat split; try reflexivity.
      exists (k :: sk), rs. repeat split; try assumption.
      constructor; [|exact Hs]. intros [_ Hn]. congruence.
Qed.

Lemma closest_nsec_walk_found prev_nodes :
  (exists n, In n prev_nodes /\ has_nsec n) ->
  exists r, closest_nsec_walk prev_nodes = Return r.
Proof.
  induction prev_nodes as [|k rest IH]; intros (n & Hin & He & Hn);
    [now elim Hin|].
  cbn [closest_nsec_walk].
  destruct (isEmpty k) eqn:Hek; cbn [negb].
  - destruct Hin as [->|Hin]; [congruence|]. apply IH. now exists n.
  - destruct (RdataSet_find (getData k) RRTypes.NSEC) eqn:Hk;
      [eexists; reflexivity|].
    destruct Hin as [->|Hin]; [congruence|]. apply IH. now exists n.
Qed.

Lemma nsec_wanted_false zd options :
  nsec_wanted zd options = false <->
  negb (isSigned zd) || (Z.land options FIND_DNSSEC =? 0) || isNSEC3Signed zd
  = true.
Proof.
  unfold nsec_wanted, has_flag.
  destruct (isSigned zd), (Z.land options FIND_DNSSEC =? 0),
    (isNSEC3Signed zd); cbn; split; congruence.
Qed.

Lemma getClosestNSEC_unwanted zd path nsec_node options :
  nsec_wanted zd options = false ->
  getClosestNSEC zd path nsec_node options = Return (None, nsec_node).
Proof.
  intros H. apply nsec_wanted_false in H. unfold getClosestNSEC.
  now rewrite H.
Qed.

Lemma getClosestNSEC_wanted zd path nsec_node options :
  nsec_wanted zd options = true ->
  getClosestNSEC zd path nsec_node options
  = closest_nsec_walk (previousNodes (getZoneTree zd) path).
Proof.
  intros H. unfold getClosestNSEC.
  destruct (negb (isSigned zd) || (Z.land options FIND_DNSSEC =? 0)
            || isNSEC3Signed zd) eqn:E; [|reflexivity].
  apply nsec_wanted_false in E. congruence.
Qed.

Lemma getClosestNSEC_returns zd path nsec_node options :
  nsec_witness_available zd path options ->
  exists r, getClosestNSEC zd path nsec_node options = Return r.
Proof.
  intros Havail. destruct (nsec_wanted zd options) eqn:Hw.
  - rewrite getClosestNSEC_wanted by exact Hw.
    apply closest_nsec_walk_found. now apply Havail.
  - rewrite getClosestNSEC_unwanted by exact Hw. eexists; reflexivity.
Qed.

(** What [getClosestNSEC] hands back when it returns. *)
Lemma getClosestNSEC_result zd path nsec_node options r n :
  getClosestNSEC zd path nsec_node options = Return (r, n) ->
  (nsec_wanted zd options = false /\ r = None /\ n = nsec_node)
  \/ (nsec_wanted zd options = true
      /\ exists m nsec,
           r = Some nsec /\ n = Some m
           /\ closest_nsec (previousNodes (getZoneTree zd) path) m nsec).
Proof.
  destruct (nsec_wanted zd options) eqn:Hw.
  - rewrite getClosestNSEC_wanted by exact Hw. intros H. right.
    split; [reflexivity|]. now apply closest_nsec_walk_return.
  - rewrite getClosestNSEC_unwanted by exact Hw. intros [= <- <-]. now left.
Qed.

(** ** The traversal engine *)

(** The node search and the answer after a partial match with neither
    DNAME nor zone cut recorded, when a negative answer is due: whatever
    [getClosestNSEC] does, and the answer with its code when it returns. *)
Lemma negative_answer finder name type target options stop_node path state
      (c : Result) :
  first_search (zone_data_ finder) name options
  = Return (PARTIALMATCH, Some stop_node, path, state) ->
  (forall r,
      getClosestNSEC (zone_data_ finder) path indeterminate options = r ->
      findNode indeterminate (zone_data_ finder) name ZoneChain_new options
      = ('(nsec_rds, nsec_node) <- r ;;
         Return (FindNodeResult.mk c nsec_node nsec_rds 0, path))) ->
  c = NXRRSET \/ c = NXDOMAIN ->
  find_internal indeterminate finder name type target options
  = ('(nsec_rds, nsec_node) <-
       getClosestNSEC (zone_data_ finder) path indeterminate options ;;
     Return (createFindResult (rrclass_ finder) (zone_data_ finder) c
                              nsec_rds nsec_node options false None, target))
  /\ (nsec_witness_available (zone_data_ finder) path options ->
      exists nsec_rds nsec_node ctx,
        getClosestNSEC (zone_data_ finder) path indeterminate options
        = Return (nsec_rds, nsec_node)
        /\ findNode indeterminate (zone_data_ finder) name ZoneChain_new options
           = Return (FindNodeResult.mk c nsec_node nsec_rds 0, path)
        /\ find_internal indeterminate finder name type target options
           = Return (ctx, target)
        /\ code ctx = c
        /\ has_flag (flags ctx) RESULT_WILDCARD = false
        /\ found_node ctx = nsec_node /\ found_rdset ctx = nsec_rds).
Proof.
  intros Hsearch Hnode Hc.
  assert (Heq : find_internal indeterminate finder name type target options
                = ('(nsec_rds, nsec_node) <-
                     getClosestNSEC (zone_data_ finder) path indeterminate
                                    options ;;
                   Return (createFindResult (rrclass_ finder)
                             (zone_data_ finder) c nsec_rds nsec_node options
                             false None, target))).
  { unfold find_internal. rewrite (Hnode _ eq_refl).
    destruct (getClosestNSEC (zone_data_ finder) path indeterminate options)
      as [[rds n]| |]; cbn [bind]; try reflexivity.
    destruct Hc as [-> | ->]; reflexivity. }
  split; [exact Heq|]. intros Hnsec.
  destruct (getClosestNSEC_returns _ _ indeterminate _ Hnsec) as [[rds n] Hr].
  exists rds, n. eexists. split; [exact Hr|].
  split; [now rewrite (Hnode _ eq_refl), Hr|].
  split; [rewrite Heq, Hr; reflexivity|].
  rewrite createFindResult_code, createFindResult_flags,
    has_flag_result_flags_wild.
  destruct (createFindResult_found (rrclass_ finder) (zone_data_ finder)
              c rds n options false None) as [-> ->].
  repeat split; reflexivity.
Qed.

(** C2: when the search of the tree ends in a partial match with neither
    DNAME nor zone cut recorded and the last comparison is SUPERDOMAIN,
    the answer is what [getClosestNSEC] finds under the code NXRRSET, and
    so NXRRSET whenever the zone keeps its signing invariant; no wildcard is
    looked for, whatever the flags of the node the search stopped at. *)
Theorem empty_nonterminal_is_nxrrset
    (finder : InMemoryZoneFinder) (name : Name) (type : RRType)
    (target : option (list TreeNodeRRsetPtr)) (options : FindOptions)
    (stop_node : ZoneNode) (path : ZoneChain) (state : FindState)
    (Hsearch : first_search (zone_data_ finder) name options
               = Return (PARTIALMATCH, Some stop_node, path, state))
    (Hdname : dname_node_ state = None)
    (Hcut : zonecut_node_ state = None)
    (Hrel : getRelation (getLastComparisonResult path) = SUPERDOMAIN) :
  find_internal indeterminate finder name type target options
  = ('(nsec_rds, nsec_node) <-
       getClosestNSEC (zone_data_ finder) path indeterminate options ;;
     Return (createFindResult (rrclass_ finder) (zone_data_ finder) NXRRSET
                              nsec_rds nsec_node options false None, target))
  /\ (nsec_witness_available (zone_data_ finder) path options ->
      exists nsec_rds nsec_node ctx,
        getClosestNSEC (zone_data_ finder) path indeterminate options
        = Return (nsec_rds, nsec_node)
        /\ findNode indeterminate (zone_data_ finder) name ZoneChain_new options
           = Return (FindNodeResult.mk NXRRSET nsec_node nsec_rds 0, path)
        /\ find_internal indeterminate finder name type target options
           = Return (ctx, target)
        /\ code ctx = NXRRSET
        /\ has_flag (flags ctx) RESULT_WILDCARD = false
        /\ found_node ctx = nsec_node /\ found_rdset ctx = nsec_rds).
Proof.
  apply (negative_answer finder name type target options stop_node path state
           NXRRSET Hsearch); [|now left].
  intros r <-. unfold first_search in Hsearch. unfold findNode.
  rewrite Hsearch. cbn [bind]. rewrite Hdname, Hcut, Hrel.
  reflexivity.
Qed.

(** C3, amended: when the search of the tree ends in a partial match with
    neither DNAME nor zone cut recorded, at a node flagged WILDCARD_NODE,
    NO_WILDCARD is unset and the last comparison is COMMONANCESTOR, the
    answer is what [getClosestNSEC] finds under the code NXDOMAIN, and so
    NXDOMAIN whenever the zone keeps its signing invariant; it bears no
    wildcard flag. *)
Theorem wildcard_cancelled_is_nxdomain
    (finder : InMemoryZoneFinder) (name : Name) (type : RRType)
    (target : option (list TreeNodeRRsetPtr)) (options : FindOptions)
    (stop_node : ZoneNode) (path : ZoneChain) (state : FindState)
    (Hsearch : first_search (zone_data_ finder) name options
               = Return (PARTIALMATCH, Some stop_node, path, state))
    (Hdname : dname_node_ state = None)
    (Hcut : zonecut_node_ state = None)
    (Hwild : getFlag stop_node WILDCARD_NODE = true)
    (Hopt : has_flag options NO_WILDCARD = false)
    (Hrel : getRelation (getLastComparisonResult path) = COMMONANCESTOR) :
  find_internal indeterminate finder name type target options
  = ('(nsec_rds, nsec_node) <-
       getClosestNSEC (zone_data_ finder) path indeterminate options ;;
     Return (createFindResult (rrclass_ finder) (zone_data_ finder) NXDOMAIN
                              nsec_rds nsec_node options false None, target))
  /\ (nsec_witness_available (zone_data_ finder) path options ->
      exists nsec_rds nsec_node ctx,
        getClosestNSEC (zone_data_ finder) path indeterminate options
        = Return (nsec_rds, nsec_node)
        /\ findNode indeterminate (zone_data_ finder) name ZoneChain_new options
           = Return (FindNodeResult.mk NXDOMAIN nsec_node nsec_rds 0, path)
        /\ find_internal indeterminate finder name type target options
           = Return (ctx, target)
        /\ code ctx = NXDOMAIN
        /\ has_flag (flags ctx) RESULT_WILDCARD = false
        /\ found_node ctx = nsec_node /\ found_rdset ctx = nsec_rds).
Proof.
  apply (negative_answer finder name type target options stop_node path state
           NXDOMAIN Hsearch); [|now right].
  intros r <-. unfold first_search in Hsearch. unfold findNode.
  rewrite Hsearch. cbn [bind]. rewrite Hdname, Hcut, Hrel, Hwild.
  cbn [relation_eqb andb].
  unfold has_flag in Hopt. apply negb_false_iff in Hopt. rewrite Hopt.
  reflexivity.
Qed.

(** C9, amended: after an exact match at an empty node the answer is what
    [getClosestNSEC] finds under the code NXRRSET, and so NXRRSET whenever
    the zone keeps its signing invariant; when an NSEC is wanted the
    witness is the closest NSEC: that of the first node before the search
    path that is not empty and has one, a node other than the matched one,
    which has no rdata set of its own; when none is wanted there is no
    witness. *)
Theorem empty_match_closest_nsec
    (finder : InMemoryZoneFinder) (name : Name) (type : RRType)
    (target : option (list TreeNodeRRsetPtr)) (options : FindOptions)
    (node_result : FindNodeResult.t) (path : ZoneChain) (node : ZoneNode)
    (Hfound : findNode indeterminate (zone_data_ finder) name ZoneChain_new
                       options = Return (node_result, path))
    (Hcode : FindNodeResult.code node_result = SUCCESS)
    (Hnode : FindNodeResult.node node_result = Some node)
    (Hempty : isEmpty node = true) :
  find_internal indeterminate finder name type target options
  = ('(nsec_rds, nsec_node) <-
       getClosestNSEC (zone_data_ finder) path indeterminate options ;;
     Return (createFindResult (rrclass_ finder) (zone_data_ finder) NXRRSET
               nsec_rds nsec_node options
               (has_flag (FindNodeResult.flags node_result) FIND_WILDCARD)
               None, target))
  /\ (nsec_witness_available (zone_data_ finder) path options ->
      exists ctx,
        find_internal indeterminate finder name type target options
        = Return (ctx, target)
        /\ code ctx = NXRRSET
        /\ (nsec_wanted (zone_data_ finder) options = true ->
            exists m nsec,
              found_node ctx = Some m /\ found_rdset ctx = Some nsec
              /\ closest_nsec
                   (previousNodes (getZoneTree (zone_data_ finder)) path)
                   m nsec
              /\ m <> node
              /\ RdataSet_find (getData node) RRTypes.NSEC = None)
        /\ (nsec_wanted (zone_data_ finder) options = false ->
            found_rdset ctx = None /\ rrset ctx = None)).
Proof.
  assert (Heq : find_internal indeterminate finder name type target options
                = ('(nsec_rds, nsec_node) <-
                     getClosestNSEC (zone_data_ finder) path indeterminate
                                    options ;;
                   Return (createFindResult (rrclass_ finder)
                             (zone_data_ finder) NXRRSET nsec_rds nsec_node
                             options
                             (has_flag (FindNodeResult.flags node_result)
                                       FIND_WILDCARD)
                             None, target))).
  { unfold find_internal. rewrite Hfound. cbn [bind]. rewrite Hcode, Hnode.
    cbn [Result_eqb negb]. now rewrite Hempty. }
  split; [exact Heq|]. intros Hnsec.
  destruct (getClosestNSEC_returns _ _ indeterminate _ Hnsec) as [[rds n] Hc].
  eexists. split; [rewrite Heq, Hc; reflexivity|].
  rewrite createFindResult_code, createFindResult_rrset.
  destruct (createFindResult_found (rrclass_ finder) (zone_data_ finder)
              NXRRSET rds n options
              (has_flag (FindNodeResult.flags node_result) FIND_WILDCARD)
              None) as [-> ->].
  split; [reflexivity|].
  destruct (getClosestNSEC_result _ _ _ _ _ _ Hc)
    as [(Hw & -> & ->) | (Hw & m & nsec & -> & -> & Hclosest)];
    (split; intros Hw'; [|]); try congruence.
  + split; [reflexivity|]. unfold createTreeNodeRRset.
    now destruct indeterminate.
  + exists m, nsec. repeat split; try reflexivity; try exact Hclosest.
    * destruct Hclosest as (sk & rs & _ & Hm & _). congruence.
    * now apply RdataSet_find_nil_data.
Qed.

(** ** Wildcard synthesis *)

Lemma extend_with_uppers_absolute :
  forall (node : ZoneNode) (ls : LabelSequence),
    extend_with_uppers ls node = ls ++ getAbsoluteLabels node.
Proof.
  fix IH 1. intros [addr labels data fl [upper|]] ls; cbn.
  - rewrite IH. now rewrite app_assoc.
  - now rewrite app_nil_r.
Qed.

Lemma push_all_app finder node name options collected :
  push_all finder node name options collected
  = collected
    ++ map (fun rds => createTreeNodeRRset (Some node) (Some rds)
                         (rrclass_ finder) options (Some name))
           (getData node).
Proof.
  unfold push_all. revert collected.
  induction (getData node) as [|rds rest IH]; intros collected; cbn.
  - now rewrite app_nil_r.
  - now rewrite IH, <- app_assoc.
Qed.

Lemma createTreeNodeRRset_realname node rdset rrclass options name r :
  createTreeNodeRRset node rdset rrclass options (Some name) = Some r ->
  TreeNodeRRset_getName r = name /\ node = Some (rrset_node r).
Proof.
  unfold createTreeNodeRRset. destruct node, rdset; try discriminate.
  intros [= <-]. split; reflexivity.
Qed.

(** The record sets of a result come by through a wildcard. *)
Lemma find_internal_wild_names finder name type target options nr path
      ctx target' :
  findNode indeterminate (zone_data_ finder) name ZoneChain_new options
  = Return (nr, path) ->
  FindNodeResult.code nr = SUCCESS ->
  has_flag (FindNodeResult.flags nr) FIND_WILDCARD = true ->
  find_internal indeterminate finder name type target options
  = Return (ctx, target') ->
  (forall wnode,
      FindNodeResult.node nr = Some wnode -> isEmpty wnode = true ->
      code ctx = NXRRSET)
  /\ (forall wnode r,
         FindNodeResult.node nr = Some wnode -> isEmpty wnode = false ->
         rrset ctx = Some r ->
         TreeNodeRRset_getName r = name /\ rrset_node r = wnode)
  /\ (forall collected,
         target = Some collected ->
         exists added,
           target' = Some (collected ++ added)
           /\ forall p, In p added ->
                        exists r, p = Some r /\ TreeNodeRRset_getName r = name).
Proof.
  intros Hn Hc Hw. unfold find_internal. rewrite Hn. cbn [bind].
  rewrite Hc, Hw. cbn [Result_eqb negb].
  destruct (FindNodeResult.node nr) as [node|]; [|discriminate].
  destruct (isEmpty node) eqn:He.
  - unfold bind.
    destruct (getClosestNSEC _ _ _ _) as [[rds n]| |]; try discriminate.
    intros [= <- <-]. rewrite createFindResult_code.
    split; [reflexivity|]. split; [intros w r [= <-]; congruence|].
    intros collected ->. exists []. rewrite app_nil_r.
    split; [reflexivity | intros p []].
  - intros H.
    assert (Hnames :
              (forall r, rrset ctx = Some r ->
                         TreeNodeRRset_getName r = name /\ rrset_node r = node)
              /\ forall collected,
                  target = Some collected ->
                  exists added,
                    target' = Some (collected ++ added)
                    /\ forall p, In p added ->
                         exists r, p = Some r
                                   /\ TreeNodeRRset_getName r = name).
    { assert (Hset : forall c rdset r,
                 rrset (createFindResult (rrclass_ finder) (zone_data_ finder)
                          c rdset (Some node) options true (Some name))
                 = Some r ->
                 TreeNodeRRset_getName r = name /\ rrset_node r = node).
      { intros c rdset r. rewrite createFindResult_rrset. intros Hr.
        apply createTreeNodeRRset_realname in Hr as [Hname Hnd].
        split; [exact Hname | congruence]. }
      assert (Hsame : forall collected,
                 target = Some collected ->
                 exists added,
                   target = Some (collected ++ added)
                   /\ forall p, In p added ->
                        exists r, p = Some r
                                  /\ TreeNodeRRset_getName r = name).
      { intros collected ->. exists []. rewrite app_nil_r.
        split; [reflexivity | intros p []]. }
      revert H.
      repeat match goal with
             | |- context [match ?x with _ => _ end] => destruct x eqn:?
             end;
        intros H; try discriminate; injection H as <- <-;
        (split; [now apply Hset|]); try exact Hsame.
      all: intros collected [= <-]; rewrite push_all_app;
        eexists; (split; [reflexivity|]);
        intros p Hin; apply in_map_iff in Hin;
        destruct Hin as (rds & <- & Hin); cbn; eexists;
        split; reflexivity. }
    destruct Hnames as [Hset Htarget].
    split; [intros w [= <-]; congruence|].
    split; [intros w r [= <-] _; now apply Hset | exact Htarget].
Qed.

(** After an exact match at a node that has data a result is returned, on
    that node. *)
Lemma find_internal_returns_at_data finder name type target options
      node_result node_path node :
  findNode indeterminate (zone_data_ finder) name ZoneChain_new options
  = Return (node_result, node_path) ->
  FindNodeResult.code node_result = SUCCESS ->
  FindNodeResult.node node_result = Some node ->
  isEmpty node = false ->
  exists ctx target',
    find_internal indeterminate finder name type target options
    = Return (ctx, target')
    /\ found_node ctx = Some node.
Proof.
  intros Hn Hcode Hnode Hne. unfold find_internal. rewrite Hn. cbn [bind].
  rewrite Hcode, Hnode. cbn [Result_eqb negb]. rewrite Hne.
  repeat match goal with
         | |- context [match ?x with _ => _ end] => destruct x eqn:?
         end;
    eexists; eexists; (split; [reflexivity|]); apply createFindResult_found.
Qed.

(** C4, amended: when the search of the tree ends in a partial match with
    neither DNAME nor zone cut recorded, at a node flagged WILDCARD_NODE,
    NO_WILDCARD is unset and the last comparison is neither SUPERDOMAIN
    nor COMMONANCESTOR, the node search is the lookup of the wildcard name
    on the cleared path, and fails an assertion unless that lookup is an
    exact match; when it returns it reports SUCCESS with FIND_WILDCARD.
    Every result then has RESULT_WILDCARD; the record set of a SUCCESS,
    CNAME or DELEGATION result and the sets collected for a type ANY query
    bear the query name; and when the wildcard node has data a result is
    returned, on that node, whose record set bears the query name. *)
Theorem wildcard_synthesis
    (finder : InMemoryZoneFinder) (name : Name) (type : RRType)
    (target : option (list TreeNodeRRsetPtr)) (options : FindOptions)
    (stop_node : ZoneNode) (path : ZoneChain) (state : FindState)
    (Hsearch : first_search (zone_data_ finder) name options
               = Return (PARTIALMATCH, Some stop_node, path, state))
    (Hdname : dname_node_ state = None)
    (Hcut : zonecut_node_ state = None)
    (Hwild : getFlag stop_node WILDCARD_NODE = true)
    (Hopt : has_flag options NO_WILDCARD = false)
    (Hsuper : getRelation (getLastComparisonResult path) <> SUPERDOMAIN)
    (Hcommon : getRelation (getLastComparisonResult path) <> COMMONANCESTOR) :
  findNode indeterminate (zone_data_ finder) name ZoneChain_new options
  = ('(result, node, path', state') <-
       wildcard_lookup (zone_data_ finder) stop_node path state ;;
     match result with
     | EXACTMATCH =>
         Return (FindNodeResult.mk SUCCESS node (rrset_ state') FIND_WILDCARD,
                 path')
     | _ => AssertionFailed
     end)
  /\ (forall node_result path',
         findNode indeterminate (zone_data_ finder) name ZoneChain_new options
         = Return (node_result, path') ->
         (exists state',
             wildcard_lookup (zone_data_ finder) stop_node path state
             = Return (EXACTMATCH, FindNodeResult.node node_result, path',
                       state'))
         /\ FindNodeResult.code node_result = SUCCESS
         /\ has_flag (FindNodeResult.flags node_result) FIND_WILDCARD = true)
  /\ (forall ctx target',
         find_internal indeterminate finder name type target options
         = Return (ctx, target') ->
         has_flag (flags ctx) RESULT_WILDCARD = true
         /\ (code ctx = SUCCESS \/ code ctx = CNAME \/ code ctx = DELEGATION ->
             forall r, rrset ctx = Some r -> TreeNodeRRset_getName r = name)
         /\ (forall collected,
                target = Some collected ->
                exists added,
                  target' = Some (collected ++ added)
                  /\ forall p, In p added ->
                       exists r, p = Some r
                                 /\ TreeNodeRRset_getName r = name))
  /\ (forall wnode path' state',
         wildcard_lookup (zone_data_ finder) stop_node path state
         = Return (EXACTMATCH, Some wnode, path', state') ->
         isEmpty wnode = false ->
         exists ctx target',
           find_internal indeterminate finder name type target options
           = Return (ctx, target')
           /\ found_node ctx = Some wnode
           /\ forall r, rrset ctx = Some r ->
                        TreeNodeRRset_getName r = name
                        /\ rrset_node r = wnode).
Proof.
  assert (Heq : findNode indeterminate (zone_data_ finder) name ZoneChain_new
                         options
                = ('(result, node, path', state') <-
                     wildcard_lookup (zone_data_ finder) stop_node path state ;;
                   match result with
                   | EXACTMATCH =>
                       Return (FindNodeResult.mk SUCCESS node (rrset_ state')
                                                 FIND_WILDCARD, path')
                   | _ => AssertionFailed
                   end)).
  { unfold first_search in Hsearch. unfold findNode, wildcard_lookup.
    rewrite Hsearch. cbn [bind]. rewrite Hdname, Hcut, Hwild.
    apply relation_eqb_neq in Hsuper, Hcommon. rewrite Hsuper, Hcommon.
    unfold has_flag in Hopt. apply negb_false_iff in Hopt. rewrite Hopt.
    cbn [andb]. rewrite extend_with_uppers_absolute. reflexivity. }
  assert (Hret : forall node_result path',
             findNode indeterminate (zone_data_ finder) name ZoneChain_new
                      options = Return (node_result, path') ->
             (exists state',
                 wildcard_lookup (zone_data_ finder) stop_node path state
                 = Return (EXACTMATCH, FindNodeResult.node node_result, path',
                           state'))
             /\ FindNodeResult.code node_result = SUCCESS
             /\ has_flag (FindNodeResult.flags node_result) FIND_WILDCARD
                = true).
  { intros nr p'. rewrite Heq. unfold bind.
    destruct (wildcard_lookup _ _ _ _) as [[[[res nd] p2] st2]| |];
      try discriminate.
    destruct res; try discriminate. intros [= <- <-].
    split; [now exists st2 | split; reflexivity]. }
  split; [exact Heq|]. split; [exact Hret|]. split.
  - intros ctx target' Hres.
    destruct (find_internal_flags _ _ _ _ _ _ _ Hres) as (nr & p & Hn & Hf).
    destruct (Hret _ _ Hn) as (_ & Hc & Hw).
    destruct (find_internal_wild_names _ _ _ _ _ _ _ _ _ Hn Hc Hw Hres)
      as (Hempty & Hnames & Htarget).
    split; [|split; [|exact Htarget]].
    + rewrite Hf, has_flag_result_flags_wild, Hc, Hw. reflexivity.
    + intros Hcode r Hr.
      assert (Hsome : exists wnode, FindNodeResult.node nr = Some wnode).
      { revert Hres. unfold find_internal. rewrite Hn. cbn [bind].
        rewrite Hc. cbn [Result_eqb negb].
        destruct (FindNodeResult.node nr); [eexists; reflexivity|discriminate]. }
      destruct Hsome as [wnode Hwn].
      destruct (isEmpty wnode) eqn:He.
      * pose proof (Hempty _ Hwn He) as Hx.
        destruct Hcode as [Hk|[Hk|Hk]]; congruence.
      * now apply (Hnames _ _ Hwn He Hr).
  - intros wnode p' st' Hlook Hne.
    assert (Hn : findNode indeterminate (zone_data_ finder) name ZoneChain_new
                          options
                 = Return (FindNodeResult.mk SUCCESS (Some wnode) (rrset_ st')
                                             FIND_WILDCARD, p')).
    { rewrite Heq, Hlook. reflexivity. }
    destruct (find_internal_returns_at_data finder name type target options
                _ _ wnode Hn eq_refl eq_refl Hne)
      as (ctx & t' & Hres & Hfound).
    exists ctx, t'. split; [exact Hres|]. split; [exact Hfound|].
    destruct (find_internal_wild_names _ _ _ _ _ _ _ _ _ Hn eq_refl eq_refl Hres)
      as (_ & Hnames & _).
    intros r Hr. now apply (Hnames wnode r eq_refl Hne Hr).
Qed.
End FinderProperties.

(** ** The properties at the sample zone *)

Local Open Scope string_scope.

(** The scenarios of the specification, on the sample zone. *)

Example exact_authoritative_match :
  outcome_code (find None Samples.finder ["a"; "example"; ""] RRTypes.A
                     FIND_DEFAULT) = Some SUCCESS.
Proof. vm_compute. reflexivity. Qed.

Example empty_nonterminal_nxrrset :
  outcome_code (find None Samples.finder ["c"; "example"; ""] RRTypes.A
                     FIND_DEFAULT) = Some NXRRSET.
Proof. vm_compute. reflexivity. Qed.

Example wildcard_cancelled_by_sibling :
  outcome_code (find None Samples.finder
                     ["baz"; "foo"; "wild"; "example"; ""] RRTypes.TXT
                     FIND_DEFAULT) = Some NXDOMAIN.
Proof. vm_compute. reflexivity. Qed.

Example no_wildcard_suppresses :
  outcome_code (find None Samples.finder ["x"; "wild"; "example"; ""]
                     RRTypes.TXT NO_WILDCARD) = Some NXDOMAIN.
Proof. vm_compute. reflexivity. Qed.

Example delegation_below_cut :
  outcome_code (find None Samples.finder ["wild"; "sub"; "example"; ""]
                     RRTypes.A FIND_DEFAULT) = Some DELEGATION
  /\ outcome_code (find None Samples.finder ["wild"; "sub"; "example"; ""]
                        RRTypes.A FIND_GLUE_OK) = Some SUCCESS.
Proof. split; vm_compute; reflexivity. Qed.

Example ds_query_at_cut :
  outcome_code (find None Samples.finder ["sub"; "example"; ""] RRTypes.DS
                     FIND_DEFAULT) = Some SUCCESS.
Proof. vm_compute. reflexivity. Qed.

Example out_of_zone_query :
  outcome_exception (find None Samples.finder ["x"; "com"; ""] RRTypes.A
                          FIND_DEFAULT) = Some OutOfZone.
Proof. vm_compute. reflexivity. Qed.

Lemma exact_match_delegation_witness :
  isEmpty Samples.sub = false
  /\ exists ctx target',
       find_internal None Samples.finder ["sub"; "example"; ""] RRTypes.A None
                     FIND_DEFAULT = Return (ctx, target')
       /\ code ctx = DELEGATION.
Proof.
  split; [reflexivity|].
  destruct (exact_match_delegation None Samples.finder ["sub"; "example"; ""]
              RRTypes.A None FIND_DEFAULT _ _ Samples.sub
              eq_refl eq_refl eq_refl eq_refl)
    as (ctx & target' & Hres & Hiff & _).
  exists ctx, target'. split; [exact Hres|].
  apply Hiff. repeat split; try reflexivity; discriminate.
Defined.

Lemma signed_flags_whatever_the_options_witness :
  exists ctx,
    find_internal None Samples.finder ["x"; "wild"; "example"; ""] RRTypes.TXT
                  None FIND_DEFAULT = Return (ctx, None)
    /\ has_flag (flags ctx) RESULT_WILDCARD = true
    /\ has_flag (flags ctx) RESULT_NSEC_SIGNED = true.
Proof.
  eexists. split; [reflexivity|].
  destruct (signed_flags_whatever_the_options None Samples.finder
              ["x"; "wild"; "example"; ""] RRTypes.TXT None FIND_DEFAULT
              _ _ eq_refl) as (Hwild & Hsigned & _).
  split; [reflexivity|]. apply Hsigned; [|reflexivity..].
  right. right. reflexivity.
Defined.

Lemma empty_nonterminal_is_nxrrset_witness :
  getFlag Samples.wild WILDCARD_NODE = true
  /\ exists ctx,
       find_internal None Samples.finder ["foo"; "wild"; "example"; ""]
                     RRTypes.TXT None FIND_DNSSEC = Return (ctx, None)
       /\ code ctx = NXRRSET
       /\ has_flag (flags ctx) RESULT_WILDCARD = false.
Proof.
  split; [reflexivity|].
  destruct (empty_nonterminal_is_nxrrset None Samples.finder
              ["foo"; "wild"; "example"; ""] RRTypes.TXT None FIND_DNSSEC
              Samples.wild _ _ eq_refl eq_refl eq_refl eq_refl)
    as [_ Hreturns].
  destruct Hreturns as (rds & n & ctx & _ & _ & Hres & Hcode & Hflag & _).
  - intros _. exists Samples.star_wild.
    split; [now left | split; [reflexivity | discriminate]].
  - exists ctx. repeat split; assumption.
Defined.

(** Below the zone cut [sub.example.], searched with FIND_GLUE_OK, the
    search for [baz.foo.wild.sub.example.] stops at the wildcard parent
    [wild.sub.example.] with COMMONANCESTOR, and the answer is the
    delegation, not NXDOMAIN. *)
Lemma wildcard_cancel_claim_fails_below_cut :
  ~ wildcard_cancel_claim None Samples.finder
      ["baz"; "foo"; "wild"; "sub"; "example"; ""] RRTypes.A FIND_GLUE_OK.
Proof.
  intros H.
  destruct (H Samples.wild_sub _ _ eq_refl eq_refl eq_refl eq_refl)
    as (ctx & Hfind & Hcode).
  assert (Hdeleg : outcome_code
                     (find None Samples.finder
                           ["baz"; "foo"; "wild"; "sub"; "example"; ""]
                           RRTypes.A FIND_GLUE_OK) = Some DELEGATION)
    by (vm_compute; reflexivity).
  rewrite Hfind in Hdeleg. cbn [outcome_code] in Hdeleg. congruence.
Qed.

Lemma wildcard_cancelled_is_nxdomain_witness :
  getFlag Samples.wild WILDCARD_NODE = true
  /\ exists ctx,
       find_internal None Samples.finder ["baz"; "foo"; "wild"; "example"; ""]
                     RRTypes.TXT None FIND_DNSSEC = Return (ctx, None)
       /\ code ctx = NXDOMAIN
       /\ has_flag (flags ctx) RESULT_WILDCARD = false.
Proof.
  split; [reflexivity|].
  destruct (wildcard_cancelled_is_nxdomain None Samples.finder
              ["baz"; "foo"; "wild"; "example"; ""] RRTypes.TXT None FIND_DNSSEC
              Samples.wild _ _ eq_refl eq_refl eq_refl eq_refl eq_refl eq_refl)
    as [_ Hreturns].
  destruct Hreturns as (rds & n & ctx & _ & _ & Hres & Hcode & Hflag & _).
  - intros _. exists Samples.bar_foo_wild.
    split; [now left | split; [reflexivity | discriminate]].
  - exists ctx. repeat split; assumption.
Defined.

(** Below the same cut the search for [x.wild.sub.example.] stops at the
    wildcard parent with no common label, and the node search reports the
    delegation, not a wildcard match. *)
Lemma wildcard_synthesis_claim_fails_below_cut :
  ~ wildcard_synthesis_claim None Samples.finder
      ["x"; "wild"; "sub"; "example"; ""] FIND_GLUE_OK.
Proof.
  intros H.
  destruct (H Samples.wild_sub _ _ eq_refl eq_refl eq_refl
              ltac:(vm_compute; discriminate) ltac:(vm_compute; discriminate))
    as (nr & p & Hfind & Hcode & _).
  assert (Hdeleg : node_search_code
                     (findNode None (zone_data_ Samples.finder)
                               ["x"; "wild"; "sub"; "example"; ""]
                               ZoneChain_new FIND_GLUE_OK) = Some DELEGATION)
    by (vm_compute; reflexivity).
  rewrite Hfind in Hdeleg. cbn [node_search_code] in Hdeleg. congruence.
Qed.

Lemma wildcard_synthesis_witness :
  getFlag Samples.wild WILDCARD_NODE = true
  /\ exists ctx target',
       find_internal None Samples.finder ["x"; "wild"; "example"; ""]
                     RRTypes.TXT None FIND_DEFAULT = Return (ctx, target')
       /\ found_node ctx = Some Samples.star_wild
       /\ has_flag (flags ctx) RESULT_WILDCARD = true
       /\ forall r, rrset ctx = Some r ->
                    TreeNodeRRset_getName r = ["x"; "wild"; "example"; ""].
Proof.
  split; [reflexivity|].
  destruct (wildcard_synthesis None Samples.finder ["x"; "wild"; "example"; ""]
              RRTypes.TXT None FIND_DEFAULT Samples.wild _ _
              eq_refl eq_refl eq_refl eq_refl eq_refl
              ltac:(vm_compute; discriminate) ltac:(vm_compute; discriminate))
    as (_ & _ & Hall & Hreturns).
  destruct (Hreturns Samples.star_wild _ _ eq_refl eq_refl)
    as (ctx & target' & Hres & Hnode & Hnames).
  exists ctx, target'. split; [exact Hres|]. split; [exact Hnode|].
  split; [now destruct (Hall _ _ Hres) | intros r Hr; now apply Hnames].
Defined.

(** The empty node [c.example.] of the NSEC-signed sample zone: the witness
    of the answer is the NSEC of [a.example.], the name before it. *)
Lemma own_nsec_claim_fails_at_empty_node :
  ~ own_nsec_claim None Samples.finder ["c"; "example"; ""] RRTypes.A
      FIND_DNSSEC.
Proof.
  intros H.
  destruct (H _ _ Samples.c eq_refl eq_refl eq_refl eq_refl)
    as (ctx & Hfind & _ & Hown).
  destruct (Hown eq_refl) as [Hnode _].
  assert (Hprev : outcome_found_node
                    (find None Samples.finder ["c"; "example"; ""] RRTypes.A
                          FIND_DNSSEC) = Some (Some Samples.a))
    by (vm_compute; reflexivity).
  rewrite Hfind in Hprev. cbn [outcome_found_node] in Hprev.
  rewrite Hnode in Hprev. discriminate Hprev.
Qed.

Lemma empty_match_closest_nsec_witness :
  isEmpty Samples.c = true
  /\ exists ctx,
       find_internal None Samples.finder ["c"; "example"; ""] RRTypes.A None
                     FIND_DNSSEC = Return (ctx, None)
       /\ code ctx = NXRRSET
       /\ exists m nsec,
            found_node ctx = Some m /\ found_rdset ctx = Some nsec
            /\ m <> Samples.c.
Proof.
  split; [reflexivity|].
  destruct (empty_match_closest_nsec None Samples.finder ["c"; "example"; ""]
              RRTypes.A None FIND_DNSSEC _ _ Samples.c
              eq_refl eq_refl eq_refl eq_refl)
    as [_ Hreturns].
  destruct Hreturns as (ctx & Hres & Hcode & Hwanted & _).
  - intros _. exists Samples.a.
    split; [now left | split; [reflexivity | discriminate]].
  - exists ctx. split; [exact Hres|]. split; [exact Hcode|].
    destruct (Hwanted eq_refl) as (m & nsec & Hm & Hn & _ & Hneq & _).
    exists m, nsec. repeat split; assumption.
Defined.

(** ** The NSEC3 hash *)

Local Close Scope string_scope.

Section NSEC3HashProperties.
Variable SHA1 : list byte -> list byte.
Variable encodeBase32Hex : list byte -> string.

(** A SHA-1 digest has twenty octets. *)
Hypothesis SHA1_size : forall m, List.length (SHA1 m) = SHA1_HASHSIZE.

Lemma iterateSHA1_digest ctx input salt :
  snd (iterateSHA1 SHA1 ctx input (List.length input)
                   (if Nat.ltb 0 (List.length salt) then salt else [])
                   (List.length salt))
  = salted_sha1 SHA1 salt input.
Proof.
  unfold iterateSHA1, SHA1Result, SHA1Input, SHA1Reset, salted_sha1.
  cbn [snd app].
  assert (Hbuf : (if Nat.ltb 0 (List.length salt) then salt else []) = salt)
    by now destruct salt.
  now rewrite Hbuf, !firstn_all.
Qed.

Lemma iterated_hash_shift salt x k :
  iterated_hash SHA1 salt (salted_sha1 SHA1 salt x) k
  = salted_sha1 SHA1 salt (iterated_hash SHA1 salt x k).
Proof. induction k as [|k IH]; cbn; [reflexivity | now rewrite IH]. Qed.

Lemma more_rounds_digest k :
  forall ctx salt x,
    snd (more_rounds SHA1 k ctx
                     (if Nat.ltb 0 (List.length salt) then salt else [])
                     (List.length salt) (salted_sha1 SHA1 salt x))
    = iterated_hash SHA1 salt x k.
Proof.
  induction k as [|k IH]; intros ctx salt x; [reflexivity|].
  cbn [more_rounds].
  pose proof (iterateSHA1_digest ctx (salted_sha1 SHA1 salt x) salt) as Hd.
  replace (List.length (salted_sha1 SHA1 salt x)) with SHA1_HASHSIZE in Hd
    by (unfold salted_sha1; now rewrite SHA1_size).
  destruct (iterateSHA1 SHA1 ctx (salted_sha1 SHA1 salt x) SHA1_HASHSIZE _ _)
    as [ctx' digest].
  cbn [snd] in Hd. subst digest. rewrite IH.
  apply iterated_hash_shift.
Qed.

(** C6: the hash the finder computes is a function of the name, the
    iteration count and the salt, and is the reference hash: the base32hex
    form of the SHA-1 of the wire form of the downcased name with the salt
    appended, hashed again, salt appended, [iterations] times over. *)
Theorem nsec3_hash_is_reference (name : Name) (iterations : Z)
    (salt : list byte) :
  InMemoryZoneFinderNSEC3Calculate SHA1 encodeBase32Hex name iterations salt
                                   (List.length salt)
  = nsec3_hash_reference SHA1 encodeBase32Hex name iterations salt.
Proof.
  unfold InMemoryZoneFinderNSEC3Calculate, nsec3_hash_reference, downcase.
  pose proof (iterateSHA1_digest [] (toWire (map downcase_label name)) salt)
    as Hfirst.
  destruct (iterateSHA1 SHA1 [] (toWire (map downcase_label name)) _ _ _)
    as [ctx digest].
  cbn [snd] in Hfirst. subst digest.
  pose proof (more_rounds_digest (Z.to_nat iterations) ctx salt
                (toWire (map downcase_label name))) as Hmore.
  destruct (more_rounds SHA1 (Z.to_nat iterations) ctx _ _ _) as [ctx' digest].
  cbn [snd] in Hmore. now subst digest.
Qed.
End NSEC3HashProperties.

Lemma sha1_size (m : list byte) : List.length (SHA1Impl.sha1 m) = SHA1_HASHSIZE.
Proof.
  unfold SHA1Impl.sha1.
  destruct (SHA1Impl.process _ _ _) as [[[[h0 h1] h2] h3] h4].
  now rewrite !length_app.
Qed.

Local Open Scope string_scope.

(** The hash of [example.] in RFC 5155, appendix A: salt aabbccdd, twelve
    further iterations. *)
Lemma nsec3_hash_is_reference_witness :
  InMemoryZoneFinderNSEC3Calculate SHA1Impl.sha1 Base32Hex.encodeBase32Hex
    ["Example"; ""] 12 Samples.salt 4
  = "0P9MHAVEQVM6T7VBL5LOP2U3T2RP3TOM"
  /\ nsec3_hash_reference SHA1Impl.sha1 Base32Hex.encodeBase32Hex
       ["Example"; ""] 12 Samples.salt
     = "0P9MHAVEQVM6T7VBL5LOP2U3T2RP3TOM".
Proof.
  split; [vm_compute; reflexivity|].
  rewrite <- (nsec3_hash_is_reference SHA1Impl.sha1 Base32Hex.encodeBase32Hex
                sha1_size ["Example"; ""] 12 Samples.salt).
  vm_compute. reflexivity.
Defined.

(** ** The NSEC3 prover *)

Local Close Scope string_scope.

Section NSEC3Properties.
Context {ops : DomainTreeOps}.

Lemma compare_from_right_lengths (ra rb : list Label) (n : nat) :
  let relation := getRelation (compare_from_right ra rb n) in
  (relation = EQUAL -> List.length ra = List.length rb)
  /\ (relation = SUBDOMAIN -> (List.length rb < List.length ra)%nat).
Proof.
  revert rb n. induction ra as [|la ra IH]; intros [|lb rb] n;
    cbn [compare_from_right].
  - cbn. split; [reflexivity | discriminate].
  - destruct n; cbn; split; discriminate.
  - destruct n; cbn; split; try discriminate; intros _; lia.
  - destruct (label_compare la lb).
    + destruct (IH rb (S n)) as [He Hs]. cbn [List.length].
      split; intros H; [now rewrite He | apply Hs in H; lia].
    + destruct n; cbn; split; discriminate.
    + destruct n; cbn; split; discriminate.
Qed.

Lemma in_zone_label_counts finder name :
  in_zone finder name = true ->
  getLabelCount (getOrigin finder) <= getLabelCount name.
Proof.
  unfold in_zone, Name_compare, LabelSequence_compare, getLabelCount.
  intros H. apply orb_true_iff in H.
  destruct (compare_from_right_lengths (rev name) (rev (getOrigin finder)) 0)
    as [He Hs].
  rewrite !length_rev in He, Hs.
  destruct H as [H|H]; apply relation_eqb_eq in H.
  - rewrite (He H). lia.
  - specialize (Hs H). lia.
Qed.

(** One turn of the loop after a lookup without exact match. *)
Lemma findNSEC3_loop_no_match fuel finder name recursive d olabels qlabels
      labels covering_node result node chain last_node :
  olabels <= labels ->
  hash_lookup finder name d qlabels labels = Return (result, node, chain, tt) ->
  result <> EXACTMATCH ->
  getOrder (getLastComparisonResult chain) <> 0 ->
  getLastComparedNode chain = Some last_node ->
  findNSEC3_loop (S fuel) finder name recursive d olabels qlabels labels
                 covering_node
  = let covering :=
      choose_covering (getNSEC3Tree d) (getLastComparisonResult chain)
                      last_node in
    if recursive then
      findNSEC3_loop fuel finder name recursive d olabels qlabels
                     (if labels =? 0 then 2 ^ 32 - 1 else labels - 1) covering
    else
      Some (Return (FindNSEC3Result_new false labels
                      (covering_rrset finder covering) None)).
Proof.
  intros Hle Hlook Hres Hord Hlast. unfold hash_lookup in Hlook.
  cbn [findNSEC3_loop].
  replace (labels >=? olabels) with true by (symmetry; apply Z.geb_le; lia).
  rewrite Hlook, Hlast.
  apply Z.eqb_neq in Hord. rewrite Hord.
  destruct result; [now elim Hres | |]; destruct recursive; reflexivity.
Qed.

Lemma choose_covering_as_specified tree cmp stop_node :
  covering_as_specified tree (getOrder cmp) stop_node
                        (choose_covering tree cmp stop_node).
Proof.
  unfold covering_as_specified, choose_covering.
  destruct (Z.ltb_spec (getOrder cmp) 0) as [Hlt|Hlt],
    (Z.gtb_spec (getOrder cmp) 0) as [Hgt|Hgt],
    (predecessor tree stop_node), (successor tree stop_node);
    cbn; split; intros Hc; try reflexivity;
    try (exfalso; destruct Hc as [[? ?]|[? ?]]; (discriminate || lia));
    exfalso; apply Hc;
    first [left; split; [lia | reflexivity]
          | right; split; [lia | reflexivity]].
Qed.

(** C8: after a lookup of a hashed name that is no exact match, the
    covering node is the largest node of the subtree when the order is
    negative and the node compared last has no predecessor, or positive
    and it has no successor, and the predecessor of that node in every
    other case; it is the proof of a search that is not recursive, and the
    covering node the recursive search goes on with. *)
Theorem covering_node_choice
    (fuel : nat) (finder : InMemoryZoneFinder) (name : Name)
    (recursive : bool) (d : NSEC3Data) (olabels qlabels labels : Z)
    (covering_node : option ZoneNode)
    (result : TreeResult) (node : option ZoneNode) (chain : ZoneChain)
    (last_node : ZoneNode)
    (Hlabels : olabels <= labels)
    (Hlookup : hash_lookup finder name d qlabels labels
               = Return (result, node, chain, tt))
    (Hnomatch : result <> EXACTMATCH)
    (Horder : getOrder (getLastComparisonResult chain) <> 0)
    (Hlast : getLastComparedNode chain = Some last_node) :
  exists covering,
    covering_as_specified (getNSEC3Tree d)
                          (getOrder (getLastComparisonResult chain))
                          last_node covering
    /\ findNSEC3_loop (S fuel) finder name recursive d olabels qlabels labels
                      covering_node
       = if recursive then
           findNSEC3_loop fuel finder name recursive d olabels qlabels
                          (if labels =? 0 then 2 ^ 32 - 1 else labels - 1)
                          covering
         else
           Some (Return (FindNSEC3Result_new false labels
                           (covering_rrset finder covering) None)).
Proof.
  exists (choose_covering (getNSEC3Tree d) (getLastComparisonResult chain)
                          last_node).
  split; [apply choose_covering_as_specified|].
  now apply (findNSEC3_loop_no_match fuel finder name recursive d olabels
               qlabels labels covering_node result node chain last_node).
Qed.

(** ** The failure exits of the prover *)

Lemma findNSEC3_loop_below_origin fuel finder name recursive d olabels
      qlabels labels covering_node :
  labels < olabels ->
  findNSEC3_loop (S fuel) finder name recursive d olabels qlabels labels
                 covering_node
  = Some (Throw DataSourceError).
Proof.
  intros H. cbn [findNSEC3_loop].
  replace (labels >=? olabels) with false; [reflexivity|].
  symmetry. rewrite Z.geb_leb. apply Z.leb_gt. exact H.
Qed.

(** The recursive loop that finds no exact match throws. *)
Lemma findNSEC3_loop_exhausts finder name d olabels qlabels :
  1 <= olabels ->
  forall fuel labels covering_node,
    olabels - 1 <= labels ->
    labels - olabels + 2 <= Z.of_nat fuel ->
    (forall l, olabels <= l <= labels -> no_match_at finder name d qlabels l) ->
    findNSEC3_loop fuel finder name true d olabels qlabels labels covering_node
    = Some (Throw DataSourceError).
Proof.
  intros Ho. induction fuel as [|fuel IH]; intros labels cov Hlow Hfuel Hall.
  - cbn in Hfuel. lia.
  - destruct (Z_lt_le_dec labels olabels) as [Hlt|Hle].
    + now apply findNSEC3_loop_below_origin.
    + destruct (Hall labels ltac:(lia))
        as (result & node & chain & last & Hlook & Hres & Hord & Hlast).
      rewrite (findNSEC3_loop_no_match fuel finder name true d olabels
                 qlabels labels cov result node chain last
                 Hle Hlook Hres Hord Hlast).
      cbv zeta. replace (labels =? 0) with false
        by (symmetry; apply Z.eqb_neq; lia).
      apply IH; [lia | lia |]. intros l Hl. apply Hall. lia.
Qed.

(** With an origin of at least one label the loop ends within the fuel
    [findNSEC3] gives it. *)
Lemma findNSEC3_loop_ends finder name recursive d olabels qlabels :
  1 <= olabels ->
  forall fuel labels covering_node,
    olabels - 1 <= labels ->
    labels - olabels + 2 <= Z.of_nat fuel ->
    findNSEC3_loop fuel finder name recursive d olabels qlabels labels
                   covering_node <> None.
Proof.
  intros Ho. induction fuel as [|fuel IH]; intros labels cov Hlow Hfuel.
  - cbn in Hfuel. lia.
  - destruct (Z_lt_le_dec labels olabels) as [Hlt|Hle].
    + now rewrite findNSEC3_loop_below_origin.
    + cbn [findNSEC3_loop].
      replace (labels >=? olabels) with true
        by (symmetry; apply Z.geb_le; lia).
      replace (labels =? 0) with false by (symmetry; apply Z.eqb_neq; lia).
      repeat match goal with
             | |- context [match ?x with _ => _ end] => destruct x eqn:?
             end; try discriminate.
      all: apply IH; lia.
Qed.

(** A throw of the loop is the throw after the loop. *)
Lemma findNSEC3_loop_throws finder name recursive d olabels qlabels :
  lookups_do_not_throw d ->
  forall fuel labels covering_node e,
    findNSEC3_loop fuel finder name recursive d olabels qlabels labels
                   covering_node = Some (Throw e) ->
    e = DataSourceError
    /\ (labels < olabels \/ recursive = true)
    /\ forall l, olabels <= l <= labels ->
                 no_match_at finder name d qlabels l.
Proof.
  intros Hquiet. induction fuel as [|fuel IH]; intros labels cov e;
    [discriminate|].
  destruct (Z_lt_le_dec labels olabels) as [Hlt|Hle].
  - rewrite findNSEC3_loop_below_origin by exact Hlt. intros [= <-].
    split; [reflexivity|]. split; [now left | intros l Hl; lia].
  - cbn [findNSEC3_loop].
    replace (labels >=? olabels) with true
      by (symmetry; apply Z.geb_le; lia).
    pose proof (Hquiet
                  (nsec3_calculate_ finder
                     (if labels =? qlabels then name
                      else Name_split name (qlabels - labels) labels)
                     (iterations d) (getSaltData d) (getSaltLen d)
                   :: getOrigin finder)) as Hq.
    destruct (tree_find (getNSEC3Tree d) _ None ZoneChain_new None tt)
      as [[[[result node] chain] []]|e'|] eqn:Hlook;
      [|now elim (Hq e')|discriminate].
    assert (Hstep : result <> EXACTMATCH ->
              getOrder (getLastComparisonResult chain) <> 0 ->
              forall last, getLastComparedNode chain = Some last ->
              recursive = true ->
              findNSEC3_loop fuel finder name recursive d olabels qlabels
                (if labels =? 0 then 2 ^ 32 - 1 else labels - 1)
                (choose_covering (getNSEC3Tree d)
                   (getLastComparisonResult chain) last) = Some (Throw e) ->
              e = DataSourceError
              /\ (labels < olabels \/ recursive = true)
              /\ forall l, olabels <= l <= labels ->
                           no_match_at finder name d qlabels l).
    { intros Hres Hord last Hlast Hrec Hloop.
      destruct (IH _ _ _ Hloop) as (He & _ & Hall).
      split; [exact He|]. split; [now right|].
      intros l Hl. destruct (Z.eq_dec l labels) as [->|Hne].
      - exists result, node, chain, last. unfold hash_lookup.
        repeat split; assumption.
      - apply Hall. destruct (labels =? 0) eqn:Hz; [|lia].
        apply Z.eqb_eq in Hz. lia. }
    destruct result.
    + destruct node; discriminate.
    + destruct (getOrder (getLastComparisonResult chain) =? 0) eqn:Hord;
        [discriminate|].
      destruct (getLastComparedNode chain) as [last|] eqn:Hlast;
        [|discriminate].
      destruct recursive; [|discriminate]. cbn [negb].
      apply Z.eqb_neq in Hord.
      now apply Hstep.
    + destruct (getOrder (getLastComparisonResult chain) =? 0) eqn:Hord;
        [discriminate|].
      destruct (getLastComparedNode chain) as [last|] eqn:Hlast;
        [|discriminate].
      destruct recursive; [|discriminate]. cbn [negb].
      apply Z.eqb_neq in Hord.
      now apply Hstep.
Qed.

Lemma findNSEC3_unfold finder name recursive :
  findNSEC3 finder name recursive
  = if negb (isNSEC3Signed (zone_data_ finder)) then
      Some (Throw DataSourceError)
    else if negb (in_zone finder name) then Some (Throw OutOfZone)
    else
      match getNSEC3Data (zone_data_ finder) with
      | None => Some AssertionFailed
      | Some d =>
          findNSEC3_loop (S (Z.to_nat (getLabelCount name))) finder name
            recursive d (getLabelCount (getOrigin finder))
            (getLabelCount name) (getLabelCount name) None
      end.
Proof. unfold findNSEC3, in_zone. now rewrite negb_orb. Qed.

Lemma origin_label_count finder :
  getOrigin finder <> [] -> 1 <= getLabelCount (getOrigin finder).
Proof.
  unfold getLabelCount. destruct (getOrigin finder); [congruence|].
  cbn [List.length]. lia.
Qed.

(** C7: [findNSEC3] throws DataSourceError on a zone that is not NSEC3
    signed, OutOfZone on an NSEC3-signed zone for a name that is neither
    the origin nor below it, and DataSourceError when the recursive search
    has gone from the label count of the name down to that of the origin
    without an exact match; it throws in no other case, and it ends. *)
Theorem findNSEC3_failure_exits
    (finder : InMemoryZoneFinder) (name : Name) (recursive : bool) :
  (isNSEC3Signed (zone_data_ finder) = false ->
   findNSEC3 finder name recursive = Some (Throw DataSourceError))
  /\ (isNSEC3Signed (zone_data_ finder) = true ->
      in_zone finder name = false ->
      findNSEC3 finder name recursive = Some (Throw OutOfZone))
  /\ (forall d,
         getNSEC3Data (zone_data_ finder) = Some d ->
         in_zone finder name = true ->
         recursive = true ->
         getOrigin finder <> [] ->
         (forall l,
             getLabelCount (getOrigin finder) <= l <= getLabelCount name ->
             no_match_at finder name d (getLabelCount name) l) ->
         findNSEC3 finder name recursive = Some (Throw DataSourceError))
  /\ (forall e,
         findNSEC3 finder name recursive = Some (Throw e) ->
         (forall d, getNSEC3Data (zone_data_ finder) = Some d ->
                    lookups_do_not_throw d) ->
         (isNSEC3Signed (zone_data_ finder) = false /\ e = DataSourceError)
         \/ (isNSEC3Signed (zone_data_ finder) = true
             /\ in_zone finder name = false /\ e = OutOfZone)
         \/ (isNSEC3Signed (zone_data_ finder) = true
             /\ in_zone finder name = true /\ recursive = true
             /\ e = DataSourceError
             /\ exists d,
                  getNSEC3Data (zone_data_ finder) = Some d
                  /\ forall l,
                       getLabelCount (getOrigin finder) <= l
                       <= getLabelCount name ->
                       no_match_at finder name d (getLabelCount name) l))
  /\ (getOrigin finder <> [] -> findNSEC3 finder name recursive <> None).
Proof.
  rewrite findNSEC3_unfold. unfold isNSEC3Signed.
  assert (Hq : 0 <= getLabelCount name) by (unfold getLabelCount; lia).
  split; [|split; [|split; [|split]]].
  - intros H. now rewrite H.
  - intros H Hout. now rewrite H, Hout.
  - intros d Hd Hin -> Ho Hall. rewrite Hd, Hin. cbn [negb].
    apply origin_label_count in Ho.
    pose proof (in_zone_label_counts finder name Hin) as Hle.
    apply findNSEC3_loop_exhausts; try assumption; lia.
  - intros e Hthrow Hquiet.
    destruct (getNSEC3Data (zone_data_ finder)) as [d|] eqn:Hd; cbn [negb] in *.
    + destruct (in_zone finder name) eqn:Hin; cbn [negb] in *.
      * right. right.
        destruct (findNSEC3_loop_throws finder name recursive d _ _
                    (Hquiet d eq_refl) _ _ _ _ Hthrow) as (He & Hrec & Hall).
        pose proof (in_zone_label_counts finder name Hin) as Hle.
        destruct Hrec as [Hlt|Hrec]; [lia|].
        repeat split; try assumption. exists d. split; [reflexivity|exact Hall].
      * right. left. injection Hthrow as <-. repeat split.
    + left. injection Hthrow as <-. split; reflexivity.
  - intros Ho. apply origin_label_count in Ho.
    destruct (getNSEC3Data (zone_data_ finder)) as [d|]; cbn [negb];
      [|discriminate].
    destruct (in_zone finder name) eqn:Hin; cbn [negb]; [|discriminate].
    pose proof (in_zone_label_counts finder name Hin) as Hle.
    apply findNSEC3_loop_ends; try assumption; lia.
Qed.
End NSEC3Properties.

(** * Further properties of the finder *)

Section MoreFinderProperties.
Context {ops : DomainTreeOps}.
Variable indeterminate : option ZoneNode.

(** What the node search has gone through when it reports a wildcard
    match. *)
Lemma findNode_wildcard_only_when zd name options node_result path' :
  findNode indeterminate zd name ZoneChain_new options
  = Return (node_result, path') ->
  has_flag (FindNodeResult.flags node_result) FIND_WILDCARD = true ->
  FindNodeResult.code node_result = SUCCESS
  /\ has_flag options NO_WILDCARD = false
  /\ exists stop_node path state,
       first_search zd name options
       = Return (PARTIALMATCH, Some stop_node, path, state)
       /\ getFlag stop_node WILDCARD_NODE = true
       /\ dname_node_ state = None /\ zonecut_node_ state = None
       /\ getRelation (getLastComparisonResult path) <> SUPERDOMAIN
       /\ getRelation (getLastComparisonResult path) <> COMMONANCESTOR
       /\ exists state',
            wildcard_lookup zd stop_node path state
            = Return (EXACTMATCH, FindNodeResult.node node_result, path',
                      state').
Proof.
  unfold findNode, first_search, wildcard_lookup.
  destruct (tree_find (getZoneTree zd) name None ZoneChain_new
                      (Some cutCallback)
                      (FindState_new (has_flag options FIND_GLUE_OK)))
    as [[[[result node] path] state]| |]; cbn [bind]; try discriminate.
  destruct result; try discriminate.
  - intros [= <- <-]. cbn [FindNodeResult.flags].
    destruct (zonecut_node_ state); discriminate.
  - destruct node as [stop_node|]; [|discriminate].
    destruct (dname_node_ state) eqn:Hd; [intros [= <- <-]; discriminate|].
    destruct (zonecut_node_ state) eqn:Hz; [intros [= <- <-]; discriminate|].
    destruct (relation_eqb (getRelation (getLastComparisonResult path))
                           SUPERDOMAIN) eqn:Hs.
    { unfold bind. destruct (getClosestNSEC _ _ _ _) as [[rds n]| |];
        try discriminate. intros [= <- <-]. discriminate. }
    destruct (getFlag stop_node WILDCARD_NODE) eqn:Hw; cbn [andb].
    2:{ unfold bind. destruct (getClosestNSEC _ _ _ _) as [[rds n]| |];
        try discriminate. intros [= <- <-]. discriminate. }
    destruct (Z.land options NO_WILDCARD =? 0) eqn:Ho.
    2:{ unfold bind. destruct (getClosestNSEC _ _ _ _) as [[rds n]| |];
        try discriminate. intros [= <- <-]. discriminate. }
    destruct (relation_eqb (getRelation (getLastComparisonResult path))
                           COMMONANCESTOR) eqn:Hc.
    { unfold bind. destruct (getClosestNSEC _ _ _ _) as [[rds n]| |];
        try discriminate. intros [= <- <-]. discriminate. }
    rewrite extend_with_uppers_absolute.
    destruct (tree_find (getZoneTree zd) (WILDCARD ++ getAbsoluteLabels stop_node)
                        (Some stop_node) (ZoneChain_clear path)
                        (Some cutCallback) state)
      as [[[[result2 node2] path2] state2]| |] eqn:Hw2; cbn [bind];
      try discriminate.
    destruct result2; try discriminate. intros [= <- <-] _.
    split; [reflexivity|]. split; [unfold has_flag; now rewrite Ho|].
    exists stop_node, path, state. split; [reflexivity|].
    apply relation_eqb_neq in Hs, Hc.
    repeat split; try assumption. exists state2.
    exact Hw2.
Qed.

(** X1: an answer bears RESULT_WILDCARD only when NO_WILDCARD is unset and
    the search of the tree stopped, with neither DNAME nor zone cut
    recorded and a last comparison that is neither SUPERDOMAIN nor
    COMMONANCESTOR, in a partial match at a node flagged WILDCARD_NODE
    under which the wildcard name was found. *)
Theorem wildcard_answer_only_when
    (finder : InMemoryZoneFinder) (name : Name) (type : RRType)
    (target : option (list TreeNodeRRsetPtr)) (options : FindOptions)
    (ctx : ZoneFinderResultContext) (target' : option (list TreeNodeRRsetPtr))
    (Hresult : find_internal indeterminate finder name type target options
               = Return (ctx, target'))
    (Hwild : has_flag (flags ctx) RESULT_WILDCARD = true) :
  has_flag options NO_WILDCARD = false
  /\ exists stop_node path state,
       first_search (zone_data_ finder) name options
       = Return (PARTIALMATCH, Some stop_node, path, state)
       /\ getFlag stop_node WILDCARD_NODE = true
       /\ dname_node_ state = None /\ zonecut_node_ state = None
       /\ getRelation (getLastComparisonResult path) <> SUPERDOMAIN
       /\ getRelation (getLastComparisonResult path) <> COMMONANCESTOR
       /\ exists wnode path' state',
            wildcard_lookup (zone_data_ finder) stop_node path state
            = Return (EXACTMATCH, wnode, path', state').
Proof.
  destruct (find_internal_flags indeterminate _ _ _ _ _ _ _ Hresult)
    as (nr & p & Hn & Hf).
  rewrite Hf, has_flag_result_flags_wild in Hwild.
  apply andb_true_iff in Hwild as [_ Hw].
  destruct (findNode_wildcard_only_when _ _ _ _ _ Hn Hw)
    as (_ & Hopt & stop & path & state & Hs & H1 & H2 & H3 & H4 & H5 & st' & H6).
  split; [exact Hopt|]. exists stop, path, state.
  repeat split; try assumption. now exists (FindNodeResult.node nr), p, st'.
Qed.
End MoreFinderProperties.

Section MoreFinderProperties2.
Context {ops : DomainTreeOps}.
Variable indeterminate : option ZoneNode.

Lemma closest_nsec_walk_no_throw prev_nodes e :
  closest_nsec_walk prev_nodes <> Throw e.
Proof.
  induction prev_nodes as [|k rest IH]; cbn [closest_nsec_walk];
    [discriminate|].
  destruct (negb (isEmpty k)); [|exact IH].
  destruct (RdataSet_find (getData k) RRTypes.NSEC); [discriminate | exact IH].
Qed.

Lemma getClosestNSEC_no_throw zd path nsec_node options e :
  getClosestNSEC zd path nsec_node options <> Throw e.
Proof.
  unfold getClosestNSEC.
  destruct (negb (isSigned zd) || (Z.land options FIND_DNSSEC =? 0)
            || isNSEC3Signed zd); [discriminate|].
  apply closest_nsec_walk_no_throw.
Qed.

Lemma findNode_throws zd name options e :
  tree_search_does_not_throw zd ->
  findNode indeterminate zd name ZoneChain_new options = Throw e <->
  e = OutOfZone
  /\ exists node path state,
       first_search zd name options = Return (NOTFOUND, node, path, state).
Proof.
  intros Hsearch. unfold findNode, first_search.
  destruct (tree_find (getZoneTree zd) name None ZoneChain_new
                      (Some cutCallback)
                      (FindState_new (has_flag options FIND_GLUE_OK)))
    as [[[[result node] path] state]| e' |] eqn:Hfirst; cbn [bind].
  - destruct result.
    + split; [discriminate | intros (_ & n & p & s & [=])].
    + split; [|intros (_ & n & p & s & [=])].
      destruct node as [stop_node|]; [|discriminate].
      destruct (dname_node_ state); [discriminate|].
      destruct (zonecut_node_ state); [discriminate|].
      assert (Hneg : forall c,
                 ('(nsec_rds, nsec_node) <-
                    getClosestNSEC zd path indeterminate options ;;
                  Return (FindNodeResult.mk c nsec_node nsec_rds 0, path))
                 <> Throw e).
      { intros c. unfold bind.
        destruct (getClosestNSEC zd path indeterminate options)
          as [[rds n]| e2 |] eqn:Hn; try discriminate.
        now elim (getClosestNSEC_no_throw zd path indeterminate options e2). }
      destruct (relation_eqb _ SUPERDOMAIN); [intros H; now elim (Hneg _ H)|].
      destruct (getFlag stop_node WILDCARD_NODE && _);
        [|intros H; now elim (Hneg _ H)].
      destruct (relation_eqb _ COMMONANCESTOR);
        [intros H; now elim (Hneg _ H)|].
      destruct (tree_find (getZoneTree zd)
                          (extend_with_uppers WILDCARD stop_node)
                          (Some stop_node) (ZoneChain_clear path)
                          (Some cutCallback) state)
        as [[[[r2 n2] p2] s2]| e2 |] eqn:Hw;
        cbn [bind]; [destruct r2; discriminate | | discriminate].
      now elim (Hsearch _ _ _ _ _ Hw).
    + split; [intros [= <-]; split; [reflexivity|]; now exists node, path, state
             | intros [-> _]; reflexivity].
  - now elim (Hsearch _ _ _ _ _ Hfirst).
  - split; [discriminate | intros (_ & n & p & s & [=])].
Qed.

(** X2: when the searches of the tree throw nothing, a query throws
    exactly when the first search of the tree reports NOTFOUND, and what
    it throws then is OutOfZone. *)
Theorem find_throws_only_out_of_zone
    (finder : InMemoryZoneFinder) (name : Name) (type : RRType)
    (target : option (list TreeNodeRRsetPtr)) (options : FindOptions)
    (e : Exception)
    (Hsearch : tree_search_does_not_throw (zone_data_ finder)) :
  find_internal indeterminate finder name type target options = Throw e <->
  e = OutOfZone
  /\ exists node path state,
       first_search (zone_data_ finder) name options
       = Return (NOTFOUND, node, path, state).
Proof.
  rewrite <- (findNode_throws (zone_data_ finder) name options e Hsearch).
  unfold find_internal.
  destruct (findNode indeterminate (zone_data_ finder) name ZoneChain_new
                     options) as [[nr path]| e' |]; cbn [bind];
    [|split; intros [= ->]; reflexivity | split; discriminate].
  split; [|discriminate].
  destruct (negb _); [discriminate|].
  destruct (FindNodeResult.node nr) as [node|]; [|discriminate].
  destruct (isEmpty node).
  - unfold bind.
    destruct (getClosestNSEC _ _ _ _) as [[rds n]| e2 |] eqn:Hn;
      try discriminate.
    now elim (getClosestNSEC_no_throw _ _ _ _ _ Hn).
  - repeat match goal with
           | |- context [match ?x with _ => _ end] => destruct x
           end; discriminate.
Qed.

Ltac negative_node_result :=
  unfold bind;
  destruct (getClosestNSEC _ _ _ _) as [[? ?]| |]; try discriminate;
  intros [= <- <-]; split; [discriminate|];
  let H := fresh in intros [H|H]; discriminate H.

Lemma findNode_codes zd name options nr path :
  findNode indeterminate zd name ZoneChain_new options = Return (nr, path) ->
  FindNodeResult.code nr <> CNAME
  /\ (FindNodeResult.code nr = DNAME \/ FindNodeResult.code nr = DELEGATION ->
      exists stop_node path1 state,
        first_search zd name options
        = Return (PARTIALMATCH, Some stop_node, path1, state)
        /\ FindNodeResult.rrset nr = rrset_ state
        /\ match dname_node_ state with
           | Some d => FindNodeResult.code nr = DNAME
                       /\ FindNodeResult.node nr = Some d
           | None => FindNodeResult.code nr = DELEGATION
                     /\ FindNodeResult.node nr = zonecut_node_ state
                     /\ zonecut_node_ state <> None
           end).
Proof.
  unfold findNode, first_search.
  destruct (tree_find (getZoneTree zd) name None ZoneChain_new
                      (Some cutCallback)
                      (FindState_new (has_flag options FIND_GLUE_OK)))
    as [[[[result node] p] state]| |]; cbn [bind]; try discriminate.
  destruct result; try discriminate.
  - intros [= <- <-]. split; [discriminate|].
    intros [H|H]; discriminate H.
  - destruct node as [stop_node|]; [|discriminate].
    destruct (dname_node_ state) as [d|] eqn:Hd.
    { intros [= <- <-]. split; [discriminate|]. intros _.
      exists stop_node, p, state. rewrite Hd. now repeat split. }
    destruct (zonecut_node_ state) as [z|] eqn:Hz.
    { intros [= <- <-]. split; [discriminate|]. intros _.
      exists stop_node, p, state. rewrite Hd, Hz. now repeat split. }
    destruct (relation_eqb _ SUPERDOMAIN); [negative_node_result|].
    destruct (getFlag stop_node WILDCARD_NODE && _);
      [|negative_node_result].
    destruct (relation_eqb _ COMMONANCESTOR); [negative_node_result|].
    destruct (tree_find (getZoneTree zd)
                        (extend_with_uppers WILDCARD stop_node)
                        (Some stop_node) (ZoneChain_clear p)
                        (Some cutCallback) state)
      as [[[[r2 n2] p2] s2]| |]; cbn [bind]; try discriminate.
    destruct r2; try discriminate. intros [= <- <-].
    split; [discriminate|]. intros [H|H]; discriminate H.
Qed.
End MoreFinderProperties2.

Section MoreFinderProperties3.
Context {ops : DomainTreeOps}.
Variable indeterminate : option ZoneNode.

Lemma createTreeNodeRRset_fields node rdset rrclass options rename :
  match createTreeNodeRRset node rdset rrclass options rename with
  | Some r =>
      node = Some (rrset_node r) /\ rdset = Some (rrset_rdataset r)
      /\ rrset_rrclass r = rrclass
      /\ rrset_dnssec_ok r = has_flag options FIND_DNSSEC
      /\ rrset_realname r = rename
  | None => node = None \/ rdset = None
  end.
Proof.
  unfold createTreeNodeRRset.
  destruct node, rdset, rename; cbn; auto; repeat split.
Qed.

(** Every result is made by [createFindResult], for the zone of the
    finder, with the name of the query or without a name. *)
Lemma find_internal_created finder name type target options ctx target' :
  find_internal indeterminate finder name type target options
  = Return (ctx, target') ->
  exists c rdset node wild qname,
    ctx = createFindResult (rrclass_ finder) (zone_data_ finder) c rdset node
                           options wild qname
    /\ (qname = None \/ qname = Some name).
Proof.
  unfold find_internal.
  destruct (findNode indeterminate (zone_data_ finder) name ZoneChain_new
                     options) as [[nr path]| |]; cbn [bind]; try discriminate.
  unfold bind.
  repeat match goal with
         | |- context [match ?x with _ => _ end] => destruct x
         end;
    intros H; try discriminate; injection H as <- <-;
    do 5 eexists; (split; [reflexivity|]); auto.
Qed.

(** X3: the record set of an answer is made of the node and the rdata set
    the answer names, with the class of the finder and the DNSSEC wish of
    the options; it is null exactly when one of the two is; and it bears
    a name of its own, that of the query, only in an answer come by
    through a wildcard. *)
Theorem answer_rrset_is_of_the_found_node
    (finder : InMemoryZoneFinder) (name : Name) (type : RRType)
    (target : option (list TreeNodeRRsetPtr)) (options : FindOptions)
    (ctx : ZoneFinderResultContext) (target' : option (list TreeNodeRRsetPtr))
    (Hresult : find_internal indeterminate finder name type target options
               = Return (ctx, target')) :
  zone_data ctx = zone_data_ finder
  /\ match rrset ctx with
     | Some r =>
         found_node ctx = Some (rrset_node r)
         /\ found_rdset ctx = Some (rrset_rdataset r)
         /\ rrset_rrclass r = rrclass_ finder
         /\ rrset_dnssec_ok r = has_flag options FIND_DNSSEC
         /\ (rrset_realname r = None
             \/ rrset_realname r = Some name
                /\ has_flag (flags ctx) RESULT_WILDCARD = true)
     | None => found_node ctx = None \/ found_rdset ctx = None
     end.
Proof.
  destruct (find_internal_created _ _ _ _ _ _ _ Hresult)
    as (c & rdset & node & wild & qname & -> & Hq).
  split; [unfold createFindResult; now destruct wild|].
  rewrite createFindResult_rrset, createFindResult_flags,
    has_flag_result_flags_wild.
  destruct (createFindResult_found (rrclass_ finder) (zone_data_ finder) c
              rdset node options wild qname) as [-> ->].
  pose proof (createTreeNodeRRset_fields node rdset (rrclass_ finder) options
                (if wild then qname else None)) as Hf.
  destruct (createTreeNodeRRset node rdset (rrclass_ finder) options
              (if wild then qname else None)) as [r|]; [|exact Hf].
  destruct Hf as (Hn & Hr & Hc & Hd & Hname).
  repeat split; try assumption.
  destruct wild; [|now left]. destruct Hq as [-> | ->]; [now left|now right].
Qed.

(** What the node search hands back with a negative code. *)
Lemma findNode_negative zd name options nr path :
  findNode indeterminate zd name ZoneChain_new options = Return (nr, path) ->
  FindNodeResult.code nr = NXRRSET \/ FindNodeResult.code nr = NXDOMAIN ->
  getClosestNSEC zd path indeterminate options
  = Return (FindNodeResult.rrset nr, FindNodeResult.node nr).
Proof.
  unfold findNode.
  destruct (tree_find (getZoneTree zd) name None ZoneChain_new
                      (Some cutCallback)
                      (FindState_new (has_flag options FIND_GLUE_OK)))
    as [[[[result node] p] state]| |]; cbn [bind]; try discriminate.
  destruct result; try discriminate.
  - intros [= <- <-] [H|H]; discriminate H.
  - destruct node as [stop_node|]; [|discriminate].
    destruct (dname_node_ state); [intros [= <- <-] [H|H]; discriminate H|].
    destruct (zonecut_node_ state); [intros [= <- <-] [H|H]; discriminate H|].
    assert (Hneg : forall c,
               ('(nsec_rds, nsec_node) <-
                  getClosestNSEC zd p indeterminate options ;;
                Return (FindNodeResult.mk c nsec_node nsec_rds 0, p))
               = Return (nr, path) ->
               getClosestNSEC zd path indeterminate options
               = Return (FindNodeResult.rrset nr, FindNodeResult.node nr)).
    { intros c. unfold bind.
      destruct (getClosestNSEC zd p indeterminate options) as [[rds n]| |] eqn:E;
        try discriminate.
      intros [= <- <-]. exact E. }
    destruct (relation_eqb _ SUPERDOMAIN); [intros H _; exact (Hneg _ H)|].
    destruct (getFlag stop_node WILDCARD_NODE && _);
      [|intros H _; exact (Hneg _ H)].
    destruct (relation_eqb _ COMMONANCESTOR); [intros H _; exact (Hneg _ H)|].
    destruct (tree_find (getZoneTree zd)
                        (extend_with_uppers WILDCARD stop_node)
                        (Some stop_node) (ZoneChain_clear p)
                        (Some cutCallback) state)
      as [[[[r2 n2] p2] s2]| |]; cbn [bind]; try discriminate.
    destruct r2; try discriminate. intros [= <- <-] [H|H]; discriminate H.
Qed.

Lemma getClosestNSEC_set zd path options rds n :
  getClosestNSEC zd path indeterminate options = Return (rds, n) ->
  (nsec_wanted zd options = false /\ rds = None)
  \/ (nsec_wanted zd options = true
      /\ exists m, n = Some m /\ set_of_node RRTypes.NSEC n rds
                   /\ isEmpty m = false).
Proof.
  intros H. apply getClosestNSEC_result in H.
  destruct H as [(Hw & -> & _) | (Hw & m & nsec & -> & -> & Hc)];
    [now left | right].
  split; [exact Hw|]. exists m. destruct Hc as (sk & rest & _ & He & Hf & _).
  split; [reflexivity|]. split; [|exact He]. now exists m, nsec.
Qed.

Lemma getNSECForNXRRSET_set zd options node :
  match getNSECForNXRRSET zd options node with
  | Some rds => nsec_wanted zd options = true
                /\ RdataSet_find (getData node) RRTypes.NSEC = Some rds
  | None => nsec_wanted zd options = false
            \/ RdataSet_find (getData node) RRTypes.NSEC = None
  end.
Proof.
  unfold getNSECForNXRRSET, nsec_wanted, has_flag.
  destruct (isSigned zd), (isNSEC3Signed zd),
    (Z.land options FIND_DNSSEC =? 0); cbn; auto.
  destruct (RdataSet_find (getData node) RRTypes.NSEC); auto.
Qed.

(** X4: a negative answer names an rdata set only when the zone is NSEC
    signed and DNSSEC records are asked for; the set is then the NSEC of
    the node the answer names, a node that has data.  Without that wish
    the answer has neither rdata set nor record set. *)
Theorem negative_answer_carries_only_nsec
    (finder : InMemoryZoneFinder) (name : Name) (type : RRType)
    (target : option (list TreeNodeRRsetPtr)) (options : FindOptions)
    (ctx : ZoneFinderResultContext) (target' : option (list TreeNodeRRsetPtr))
    (Hresult : find_internal indeterminate finder name type target options
               = Return (ctx, target'))
    (Hcode : code ctx = NXRRSET \/ code ctx = NXDOMAIN) :
  (nsec_wanted (zone_data_ finder) options = false ->
   found_rdset ctx = None /\ rrset ctx = None)
  /\ (found_rdset ctx <> None ->
      nsec_wanted (zone_data_ finder) options = true
      /\ set_of_node RRTypes.NSEC (found_node ctx) (found_rdset ctx)
      /\ exists m, found_node ctx = Some m /\ isEmpty m = false)
  /\ target' = target.
Proof.
  assert (Hshape :
            (found_rdset ctx = None
             \/ nsec_wanted (zone_data_ finder) options = true
                /\ set_of_node RRTypes.NSEC (found_node ctx) (found_rdset ctx)
                /\ exists m, found_node ctx = Some m /\ isEmpty m = false)
            /\ (nsec_wanted (zone_data_ finder) options = false ->
                found_rdset ctx = None)
            /\ target' = target).
  { revert Hresult. unfold find_internal.
    destruct (findNode indeterminate (zone_data_ finder) name ZoneChain_new
                       options) as [[nr path]| |] eqn:Hn; cbn [bind];
      try discriminate.
    destruct (Result_eqb (FindNodeResult.code nr) SUCCESS) eqn:Hc;
      cbn [negb].
    2:{ intros [= <- <-]. rewrite createFindResult_code in Hcode.
        pose proof (findNode_negative _ _ _ _ _ Hn Hcode) as Hclosest.
        destruct (createFindResult_found (rrclass_ finder) (zone_data_ finder)
                    (FindNodeResult.code nr) (FindNodeResult.rrset nr)
                    (FindNodeResult.node nr) options false None) as [-> ->].
        apply getClosestNSEC_set in Hclosest.
        destruct Hclosest as [(Hw & ->) | (Hw & m & Hm & Hset & He)].
        - repeat split; auto.
        - split; [right; split; [exact Hw|]; split; [exact Hset|];
                  now exists m|].
          split; [congruence | reflexivity]. }
    destruct (FindNodeResult.node nr) as [node|]; [|discriminate].
    destruct (isEmpty node) eqn:He.
    { unfold bind.
      destruct (getClosestNSEC (zone_data_ finder) path indeterminate options)
        as [[rds n]| |] eqn:Hclosest; try discriminate.
      intros [= <- <-].
      destruct (createFindResult_found (rrclass_ finder) (zone_data_ finder)
                  NXRRSET rds n options
                  (has_flag (FindNodeResult.flags nr) FIND_WILDCARD) None)
        as [-> ->].
      apply getClosestNSEC_set in Hclosest.
      destruct Hclosest as [(Hw & ->) | (Hw & m & Hm & Hset & Hem)].
      - split; [now left|]. split; reflexivity.
      - split; [right; split; [exact Hw|]; split; [exact Hset|];
                now exists m|].
        split; [congruence | reflexivity]. }
    pose proof (getNSECForNXRRSET_set (zone_data_ finder) options node)
      as Hown.
    repeat match goal with
           | |- context [match ?x with _ => _ end] => destruct x eqn:?
           end;
      intros H; try discriminate; injection H as <- <-;
      rewrite createFindResult_code in Hcode;
      try (destruct Hcode as [Hcode|Hcode]; discriminate Hcode);
      match goal with
      | |- context [createFindResult ?a ?b ?c ?d ?e ?f ?g ?h] =>
          destruct (createFindResult_found a b c d e f g h) as [-> ->]
      end.
    all: destruct (getNSECForNXRRSET (zone_data_ finder) options node)
      as [own|] eqn:Hnsec.
    all: try (destruct Hown as [Hw Hfind];
              split; [right; split; [exact Hw|]; split;
                      [now exists node, own | now exists node]|];
              split; [congruence | reflexivity]).
    all: split; [now left|]; split; [|reflexivity].
    all: destruct Hown as [Hw|Hfind]; [congruence | reflexivity]. }
  destruct Hshape as (Hset & Hnone & Ht).
  split; [|split; [|exact Ht]].
  - intros Hw. split; [now apply Hnone|].
    destruct (find_internal_created _ _ _ _ _ _ _ Hresult)
      as (c & rdset & node & wild & qname & Hctx & _).
    pose proof (Hnone Hw) as Hrd. rewrite Hctx in *.
    rewrite createFindResult_rrset.
    destruct (createFindResult_found (rrclass_ finder) (zone_data_ finder) c
                rdset node options wild qname) as [_ Hfound].
    rewrite Hfound in Hrd. rewrite Hrd.
    unfold createTreeNodeRRset. now destruct node.
  - intros Hsome. destruct Hset as [Hn|Hs]; [contradiction | exact Hs].
Qed.
End MoreFinderProperties3.

Section MoreFinderProperties4.
Context {ops : DomainTreeOps}.
Variable indeterminate : option ZoneNode.

(** The answer after a node search that is no exact match is that of the
    node search. *)
Lemma find_internal_passes_on finder name type target options nr path :
  findNode indeterminate (zone_data_ finder) name ZoneChain_new options
  = Return (nr, path) ->
  FindNodeResult.code nr <> SUCCESS ->
  find_internal indeterminate finder name type target options
  = Return (createFindResult (rrclass_ finder) (zone_data_ finder)
              (FindNodeResult.code nr) (FindNodeResult.rrset nr)
              (FindNodeResult.node nr) options false None, target).
Proof.
  intros Hn Hc. unfold find_internal. rewrite Hn. cbn [bind].
  destruct (Result_eqb (FindNodeResult.code nr) SUCCESS) eqn:E;
    [now apply Result_eqb_eq in E | reflexivity].
Qed.

(** The answers after an exact match of the node search. *)
Lemma find_internal_at_node finder name type target options nr path ctx
      target' :
  findNode indeterminate (zone_data_ finder) name ZoneChain_new options
  = Return (nr, path) ->
  FindNodeResult.code nr = SUCCESS ->
  find_internal indeterminate finder name type target options
  = Return (ctx, target') ->
  exists node,
    FindNodeResult.node nr = Some node
    /\ ((isEmpty node = true /\ code ctx = NXRRSET /\ target' = target)
        \/ (isEmpty node = false /\ found_node ctx = Some node
            /\ ((code ctx = DELEGATION /\ target' = target
                 /\ RdataSet_find (getData node) RRTypes.NS = found_rdset ctx
                 /\ found_rdset ctx <> None)
                \/ (code ctx = SUCCESS /\ found_rdset ctx = None
                    /\ exists collected,
                         target = Some collected
                         /\ target' = Some (push_all finder node name options
                                                     collected))
                \/ (target = None /\ target' = None
                    /\ ((code ctx = SUCCESS
                         /\ RdataSet_find (getData node) type
                            = found_rdset ctx
                         /\ found_rdset ctx <> None)
                        \/ (code ctx = CNAME
                            /\ RdataSet_find (getData node) type = None
                            /\ RdataSet_find (getData node) RRTypes.CNAME
                               = found_rdset ctx
                            /\ found_rdset ctx <> None)
                        \/ (code ctx = NXRRSET
                            /\ RdataSet_find (getData node) type = None)))))).
Proof.
  intros Hn Hc. unfold find_internal. rewrite Hn. cbn [bind].
  rewrite Hc. cbn [Result_eqb negb].
  destruct (FindNodeResult.node nr) as [node|]; [|discriminate].
  intros H. exists node. split; [reflexivity|].
  destruct (isEmpty node) eqn:He.
  - left. unfold bind in H.
    destruct (getClosestNSEC _ _ _ _) as [[rds n]| |]; try discriminate.
    injection H as <- <-. now rewrite createFindResult_code.
  - right. split; [reflexivity|].
    assert (Hdata : getData node <> []).
    { unfold isEmpty in He. now destruct (getData node). }
    revert H.
    repeat match goal with
           | |- context [match ?x with _ => _ end] => destruct x eqn:?
           end;
      intros H; try discriminate; injection H as <- <-;
      rewrite createFindResult_code;
      match goal with
      | |- context [createFindResult ?a ?b ?c ?d ?e ?f ?g ?h] =>
          destruct (createFindResult_found a b c d e f g h) as [-> ->]
      end;
      try (now elim Hdata);
      (split; [reflexivity|]).
    all: try (left; repeat split; try assumption; discriminate).
    all: try (right; left; repeat split; eexists; split; reflexivity).
    all: right; right; split; [reflexivity|]; split; [reflexivity|].
    all: try (left; repeat split; try assumption; discriminate).
    all: try (right; left; repeat split; try assumption; discriminate).
    all: right; right; split; reflexivity.
Qed.

Lemma find_internal_node_search finder name type target options ctx target' :
  find_internal indeterminate finder name type target options
  = Return (ctx, target') ->
  exists nr path,
    findNode indeterminate (zone_data_ finder) name ZoneChain_new options
    = Return (nr, path).
Proof.
  unfold find_internal.
  destruct (findNode indeterminate (zone_data_ finder) name ZoneChain_new
                     options) as [[nr path]| |]; cbn [bind]; try discriminate.
  intros _. now exists nr, path.
Qed.

(** X5: an ordinary query answers SUCCESS only with the rdata set of the
    type asked for, found at the node the answer names, and CNAME only
    with the CNAME of a node that has no set of the type asked for; the
    collection of a type ANY query stays null. *)
Theorem positive_answer_is_of_the_type_asked
    (finder : InMemoryZoneFinder) (name : Name) (type : RRType)
    (options : FindOptions)
    (ctx : ZoneFinderResultContext) (target' : option (list TreeNodeRRsetPtr))
    (Hresult : find_internal indeterminate finder name type None options
               = Return (ctx, target')) :
  target' = None
  /\ (code ctx = SUCCESS ->
      set_of_node type (found_node ctx) (found_rdset ctx))
  /\ (code ctx = CNAME ->
      set_of_node RRTypes.CNAME (found_node ctx) (found_rdset ctx)
      /\ type <> RRTypes.CNAME
      /\ exists node, found_node ctx = Some node
                      /\ RdataSet_find (getData node) type = None).
Proof.
  destruct (find_internal_node_search _ _ _ _ _ _ _ Hresult)
    as (nr & path & Hn).
  destruct (Result_eqb (FindNodeResult.code nr) SUCCESS) eqn:Hc.
  - apply Result_eqb_eq in Hc.
    destruct (find_internal_at_node _ _ _ _ _ _ _ _ _ Hn Hc Hresult)
      as (node & _ & [(_ & Hcode & Ht) | (_ & Hfound & Hcases)]).
    { rewrite Hcode. repeat split; try discriminate. exact Ht. }
    destruct Hcases as [(Hcode & Ht & _) | [(_ & _ & c & Hsome & _) | Hplain]];
      [rewrite Hcode; repeat split; try discriminate; exact Ht
      | discriminate Hsome |].
    destruct Hplain as (_ & Ht & [(Hcode & Hf & Hs) | [(Hcode & Hno & Hf & Hs)
                                                      | (Hcode & _)]]);
      rewrite Hcode; (split; [exact Ht|]); split; try discriminate; intros _.
    + destruct (found_rdset ctx) as [found|] eqn:E; [|now elim Hs].
      now exists node, found.
    + destruct (found_rdset ctx) as [found|] eqn:E; [|now elim Hs].
      split; [now exists node, found|].
      split; [intros ->; congruence | now exists node].
  - assert (Hne : FindNodeResult.code nr <> SUCCESS)
      by (intros E; rewrite E in Hc; discriminate Hc).
    rewrite (find_internal_passes_on _ _ _ _ _ _ _ Hn Hne) in Hresult.
    injection Hresult as <- <-. rewrite createFindResult_code.
    split; [reflexivity|].
    split; [intros E; now elim Hne|].
    intros E. now destruct (findNode_codes indeterminate _ _ _ _ _ Hn) as [Hcn _].
Qed.

(** X6: a type ANY query never answers CNAME.  It answers SUCCESS only at
    a node that has data, with neither record set nor rdata set in the
    answer, and has then added to the collection one record set for each
    rdata set of the node, in their order, each under the name of the
    query; with any other answer the collection is as it was. *)
Theorem findAll_collects_the_sets_of_the_node
    (finder : InMemoryZoneFinder) (name : Name)
    (target : list TreeNodeRRsetPtr) (options : FindOptions)
    (ctx : ZoneFinderResultContext) (target' : list TreeNodeRRsetPtr)
    (Hresult : findAll indeterminate finder name target options
               = Return (ctx, target')) :
  code ctx <> CNAME
  /\ ((code ctx = SUCCESS /\ rrset ctx = None /\ found_rdset ctx = None
       /\ exists node,
            found_node ctx = Some node /\ isEmpty node = false
            /\ target'
               = target
                 ++ map (fun rds =>
                           Some (mkTreeNodeRRset (Some name) (rrclass_ finder)
                                   node rds (has_flag options FIND_DNSSEC)))
                        (getData node))
      \/ (code ctx <> SUCCESS /\ target' = target)).
Proof.
  unfold findAll in Hresult.
  destruct (find_internal indeterminate finder name RRTypes.ANY (Some target)
                          options) as [[ctx0 t0]| |] eqn:Hfind;
    cbn [bind] in Hresult; try discriminate.
  injection Hresult as <- <-.
  destruct (find_internal_node_search _ _ _ _ _ _ _ Hfind)
    as (nr & path & Hn).
  destruct (Result_eqb (FindNodeResult.code nr) SUCCESS) eqn:Hc.
  - apply Result_eqb_eq in Hc.
    destruct (find_internal_at_node _ _ _ _ _ _ _ _ _ Hn Hc Hfind)
      as (node & _ & [(_ & Hcode & ->) | (He & Hfound & Hcases)]).
    { rewrite Hcode. split; [discriminate|]. right.
      split; [discriminate | reflexivity]. }
    destruct Hcases as [(Hcode & -> & _) | [(Hcode & Hrd & c & Hsome & ->)
                                           | (Hnone & _)]];
      [rewrite Hcode; split; [discriminate|]; right;
       split; [discriminate | reflexivity]
      | | discriminate Hnone].
    injection Hsome as <-. rewrite Hcode. split; [discriminate|]. left.
    split; [reflexivity|].
    destruct (find_internal_created indeterminate _ _ _ _ _ _ _ Hfind)
      as (c & rdset & nd & wild & qname & Hctx & _).
    assert (Hrr : rrset ctx0 = None).
    { rewrite Hctx in Hrd |- *. rewrite createFindResult_rrset.
      destruct (createFindResult_found (rrclass_ finder) (zone_data_ finder)
                  c rdset nd options wild qname) as [_ Hf].
      rewrite Hf in Hrd. rewrite Hrd. unfold createTreeNodeRRset.
      now destruct nd. }
    split; [exact Hrr|]. split; [exact Hrd|]. exists node.
    split; [exact Hfound|]. split; [exact He|]. now rewrite push_all_app.
  - assert (Hne : FindNodeResult.code nr <> SUCCESS)
      by (intros E; rewrite E in Hc; discriminate Hc).
    rewrite (find_internal_passes_on _ _ _ _ _ _ _ Hn Hne) in Hfind.
    injection Hfind as <- <-. rewrite createFindResult_code.
    split; [now destruct (findNode_codes indeterminate _ _ _ _ _ Hn)|].
    right. split; [exact Hne | reflexivity].
Qed.

(** ** Referrals *)

Lemma callback_run_keeps (s0 s : FindState) :
  callback_run s0 s ->
  dname_node_ s0 = None ->
  (forall z, zonecut_node_ s0 = Some z ->
             set_of_node RRTypes.NS (Some z) (rrset_ s0)) ->
  dname_node_ s = None
  /\ forall z, zonecut_node_ s = Some z ->
               set_of_node RRTypes.NS (Some z) (rrset_ s).
Proof.
  intros Hrun Hd0 Hz0. induction Hrun as [|s s' node Hrun IH Hstep];
    [now split|].
  destruct IH as [Hd Hz]. unfold cutCallback in Hstep.
  destruct (RdataSet_find (getData node) RRTypes.DNAME); [discriminate|].
  destruct (RdataSet_find (getData node) RRTypes.NS) as [ns|] eqn:Hns;
    [|discriminate].
  destruct (zonecut_node_ s) as [z|] eqn:Hcut.
  - injection Hstep as <-. rewrite Hcut. now split.
  - injection Hstep as _ <-. cbn. split; [exact Hd|].
    intros z [= <-]. now exists node, ns.
Qed.

Lemma callback_trace_sets (glue_ok : bool) (s : FindState) :
  callback_trace (FindState_new glue_ok) s ->
  match dname_node_ s with
  | Some d => set_of_node RRTypes.DNAME (Some d) (rrset_ s)
  | None => forall z, zonecut_node_ s = Some z ->
                      set_of_node RRTypes.NS (Some z) (rrset_ s)
  end.
Proof.
  assert (Hstart : forall z, zonecut_node_ (FindState_new glue_ok) = Some z ->
                     set_of_node RRTypes.NS (Some z)
                                 (rrset_ (FindState_new glue_ok)))
    by (intros z H; discriminate H).
  intros [Hrun | (s1 & node & Hrun & Hstop)].
  - destruct (callback_run_keeps _ _ Hrun eq_refl Hstart) as [-> Hz].
    exact Hz.
  - destruct (callback_run_keeps _ _ Hrun eq_refl Hstart) as [Hd Hz].
    unfold cutCallback in Hstop.
    destruct (RdataSet_find (getData node) RRTypes.DNAME) as [dn|] eqn:Hdn.
    + injection Hstop as <-. cbn. now exists node, dn.
    + destruct (RdataSet_find (getData node) RRTypes.NS) as [ns|] eqn:Hns;
        [|discriminate].
      destruct (zonecut_node_ s1) as [z|] eqn:Hcut; [discriminate|].
      injection Hstop as _ <-. cbn. rewrite Hd.
      intros z [= <-]. now exists node, ns.
Qed.

(** X7: when the tree hands the state of a search through the cut
    callback, the rdata set of a DELEGATION answer is the NS of the node
    the answer names and that of a DNAME answer is the DNAME of the node
    it names. *)
Theorem referral_carries_the_set_of_its_node
    (finder : InMemoryZoneFinder) (name : Name) (type : RRType)
    (target : option (list TreeNodeRRsetPtr)) (options : FindOptions)
    (ctx : ZoneFinderResultContext) (target' : option (list TreeNodeRRsetPtr))
    (Htree : search_runs_callback (zone_data_ finder))
    (Hresult : find_internal indeterminate finder name type target options
               = Return (ctx, target')) :
  (code ctx = DELEGATION ->
   set_of_node RRTypes.NS (found_node ctx) (found_rdset ctx))
  /\ (code ctx = DNAME ->
      set_of_node RRTypes.DNAME (found_node ctx) (found_rdset ctx)).
Proof.
  destruct (find_internal_node_search _ _ _ _ _ _ _ Hresult)
    as (nr & path & Hn).
  destruct (Result_eqb (FindNodeResult.code nr) SUCCESS) eqn:Hc.
  - apply Result_eqb_eq in Hc.
    destruct (find_internal_at_node _ _ _ _ _ _ _ _ _ Hn Hc Hresult)
      as (node & _ & [(_ & Hcode & _) | (_ & Hfound & Hcases)]).
    { rewrite Hcode. split; discriminate. }
    destruct Hcases as [(Hcode & _ & Hf & Hs)
                       | [(Hcode & _) | (_ & _ & [(Hcode & _)
                                                 | [(Hcode & _)
                                                   | (Hcode & _)]])]];
      rewrite Hcode; split; try discriminate.
    intros _. destruct (found_rdset ctx) as [found|] eqn:E; [|now elim Hs].
    now exists node, found.
  - assert (Hne : FindNodeResult.code nr <> SUCCESS)
      by (intros E; rewrite E in Hc; discriminate Hc).
    rewrite (find_internal_passes_on _ _ _ _ _ _ _ Hn Hne) in Hresult.
    injection Hresult as <- <-. rewrite createFindResult_code.
    destruct (createFindResult_found (rrclass_ finder) (zone_data_ finder)
                (FindNodeResult.code nr) (FindNodeResult.rrset nr)
                (FindNodeResult.node nr) options false None) as [-> ->].
    destruct (findNode_codes indeterminate _ _ _ _ _ Hn) as [_ Hrefer].
    assert (Hboth : FindNodeResult.code nr = DNAME
                    \/ FindNodeResult.code nr = DELEGATION ->
                    (FindNodeResult.code nr = DELEGATION ->
                     set_of_node RRTypes.NS (FindNodeResult.node nr)
                                 (FindNodeResult.rrset nr))
                    /\ (FindNodeResult.code nr = DNAME ->
                        set_of_node RRTypes.DNAME (FindNodeResult.node nr)
                                    (FindNodeResult.rrset nr))).
    { intros Hcode.
      destruct (Hrefer Hcode) as (stop & p1 & state & Hs & Hrr & Hst).
      pose proof (callback_trace_sets _ _ (Htree _ _ _ _ _ _ _ _ Hs)) as Hsets.
      rewrite Hrr.
      destruct (dname_node_ state) as [d|].
      - destruct Hst as [Hcd ->]. rewrite Hcd. split; [discriminate|].
        intros _. exact Hsets.
      - destruct Hst as (Hcd & -> & Hz). rewrite Hcd.
        split; [|discriminate]. intros _.
        destruct (zonecut_node_ state) as [z|]; [|now elim Hz].
        now apply Hsets. }
    split; intros Hcode; apply Hboth; auto.
Qed.

(** X8: an answer without RESULT_WILDCARD that is neither NXRRSET nor
    NXDOMAIN has no flag at all, however the zone is signed; NXDOMAIN and
    DNAME answers never have RESULT_WILDCARD; and no answer has both
    RESULT_NSEC_SIGNED and RESULT_NSEC3_SIGNED. *)
Theorem flags_of_answers
    (finder : InMemoryZoneFinder) (name : Name) (type : RRType)
    (target : option (list TreeNodeRRsetPtr)) (options : FindOptions)
    (ctx : ZoneFinderResultContext) (target' : option (list TreeNodeRRsetPtr))
    (Hresult : find_internal indeterminate finder name type target options
               = Return (ctx, target')) :
  (has_flag (flags ctx) RESULT_WILDCARD = false ->
   code ctx <> NXRRSET -> code ctx <> NXDOMAIN ->
   flags ctx = RESULT_DEFAULT)
  /\ (code ctx = NXDOMAIN \/ code ctx = DNAME ->
      has_flag (flags ctx) RESULT_WILDCARD = false)
  /\ (has_flag (flags ctx) RESULT_NSEC_SIGNED = true ->
      has_flag (flags ctx) RESULT_NSEC3_SIGNED = false).
Proof.
  destruct (find_internal_flags indeterminate _ _ _ _ _ _ _ Hresult)
    as (nr & path & Hn & Hf).
  split; [|split].
  - rewrite Hf, has_flag_result_flags_wild. intros -> Hx Hd.
    unfold result_flags. rewrite orb_false_r.
    destruct (code ctx); try reflexivity; [now elim Hd | now elim Hx].
  - intros Hcode. rewrite Hf, has_flag_result_flags_wild.
    destruct (Result_eqb (FindNodeResult.code nr) SUCCESS) eqn:Hc;
      [|reflexivity].
    apply Result_eqb_eq in Hc.
    destruct (find_internal_at_node _ _ _ _ _ _ _ _ _ Hn Hc Hresult)
      as (node & _ & [(_ & Hcode' & _) | (_ & _ & Hcases)]).
    { rewrite Hcode' in Hcode. destruct Hcode; discriminate. }
    destruct Hcases as [(Hcode' & _)
                       | [(Hcode' & _) | (_ & _ & [(Hcode' & _)
                                                  | [(Hcode' & _)
                                                    | (Hcode' & _)]])]];
      rewrite Hcode' in Hcode; destruct Hcode; discriminate.
  - rewrite Hf. unfold has_flag, result_flags, signed_flag.
    destruct (Result_eqb _ SUCCESS && _), (code ctx),
      (isNSEC3Signed (zone_data_ finder)), (isSigned (zone_data_ finder));
      cbn; congruence.
Qed.
End MoreFinderProperties4.

Section ClosestNSECProperties.
Context {ops : DomainTreeOps}.

Lemma closest_nsec_walk_fails prev_nodes :
  closest_nsec_walk prev_nodes = AssertionFailed <->
  Forall (fun k => ~ has_nsec k) prev_nodes.
Proof.
  induction prev_nodes as [|k rest IH]; cbn [closest_nsec_walk].
  - split; [constructor | reflexivity].
  - destruct (isEmpty k) eqn:He; cbn [negb].
    + rewrite IH. split; intros H.
      * constructor; [|exact H]. intros [Hk _]. congruence.
      * now inversion H.
    + destruct (RdataSet_find (getData k) RRTypes.NSEC) as [found|] eqn:Hk.
      * split; [discriminate|]. intros H. inversion H as [|? ? Hno _].
        elim Hno. split; [exact He | congruence].
      * rewrite IH. split; intros H.
        -- constructor; [|exact H]. intros [_ Hn]. congruence.
        -- now inversion H.
Qed.

(** X9: the search for the closest NSEC throws nothing, and it fails its
    assertion exactly when an NSEC is searched for and none of the nodes
    before the path has one. *)
Theorem closest_nsec_search_fails_only_without_nsec
    (zd : ZoneData) (path : ZoneChain) (nsec_node : option ZoneNode)
    (options : FindOptions) :
  (forall e, getClosestNSEC zd path nsec_node options <> Throw e)
  /\ (getClosestNSEC zd path nsec_node options = AssertionFailed <->
      nsec_wanted zd options = true
      /\ Forall (fun k => ~ has_nsec k)
                (previousNodes (getZoneTree zd) path)).
Proof.
  split.
  - intros e. destruct (nsec_wanted zd options) eqn:Hw.
    + rewrite getClosestNSEC_wanted by exact Hw.
      induction (previousNodes (getZoneTree zd) path) as [|k rest IH];
        cbn [closest_nsec_walk]; [discriminate|].
      destruct (negb (isEmpty k)); [|exact IH].
      destruct (RdataSet_find (getData k) RRTypes.NSEC);
        [discriminate | exact IH].
    + rewrite getClosestNSEC_unwanted by exact Hw. discriminate.
  - destruct (nsec_wanted zd options) eqn:Hw.
    + rewrite getClosestNSEC_wanted by exact Hw.
      rewrite closest_nsec_walk_fails. split; [now split | now intros [_ H]].
    + rewrite getClosestNSEC_unwanted by exact Hw.
      split; [discriminate | intros [H _]; discriminate H].
Qed.
End ClosestNSECProperties.

Section MoreNSEC3Properties.
Context {ops : DomainTreeOps}.

(** What the loop has gone through when it returns: [l] is the label
    count it ended at. *)
Lemma findNSEC3_loop_returns finder name recursive d olabels qlabels :
  1 <= olabels ->
  forall fuel labels covering_node r,
    findNSEC3_loop fuel finder name recursive d olabels qlabels labels
                   covering_node = Some (Return r) ->
    exists l,
      olabels <= l <= labels
      /\ closest_labels r = l mod 256
      /\ (recursive = false -> l = labels)
      /\ (forall l', l < l' <= labels ->
                     no_match_at finder name d qlabels l')
      /\ ((matched r = true
           /\ (exists node chain,
                  hash_lookup finder name d qlabels l
                  = Return (EXACTMATCH, Some node, chain, tt)
                  /\ closest_proof r
                     = createTreeNodeRRset (Some node) (data_head node)
                         (getClass finder) FIND_DNSSEC None)
           /\ exists covering,
                next_proof r = covering_rrset finder covering
                /\ (l = labels -> covering = covering_node)
                /\ (l < labels ->
                    exists result node chain last_node,
                      hash_lookup finder name d qlabels (l + 1)
                      = Return (result, node, chain, tt)
                      /\ getLastComparedNode chain = Some last_node
                      /\ covering
                         = choose_covering (getNSEC3Tree d)
                             (getLastComparisonResult chain) last_node))
          \/ (matched r = false /\ recursive = false
              /\ next_proof r = None
              /\ exists result node chain last_node,
                   hash_lookup finder name d qlabels l
                   = Return (result, node, chain, tt)
                   /\ result <> EXACTMATCH
                   /\ getLastComparedNode chain = Some last_node
                   /\ closest_proof r
                      = covering_rrset finder
                          (choose_covering (getNSEC3Tree d)
                             (getLastComparisonResult chain) last_node))).
Proof.
  intros Ho. induction fuel as [|fuel IH]; intros labels cov r;
    [discriminate|].
  destruct (Z_lt_le_dec labels olabels) as [Hlt|Hle].
  { rewrite findNSEC3_loop_below_origin by exact Hlt. discriminate. }
  cbn [findNSEC3_loop].
  replace (labels >=? olabels) with true by (symmetry; apply Z.geb_le; lia).
  replace (labels =? 0) with false by (symmetry; apply Z.eqb_neq; lia).
  fold (hash_lookup finder name d qlabels labels).
  destruct (hash_lookup finder name d qlabels labels)
    as [[[[result node] chain] []]| |] eqn:Hlook; try discriminate.
  assert (Hstep :
            result <> EXACTMATCH ->
            (if getOrder (getLastComparisonResult chain) =? 0
             then Some AssertionFailed
             else
               match getLastComparedNode chain with
               | None => Some AssertionFailed
               | Some last_node =>
                   if negb recursive then
                     Some (Return (FindNSEC3Result_new false labels
                                     (covering_rrset finder
                                        (choose_covering (getNSEC3Tree d)
                                           (getLastComparisonResult chain)
                                           last_node))
                                     None))
                   else
                     findNSEC3_loop fuel finder name recursive d olabels
                       qlabels (labels - 1)
                       (choose_covering (getNSEC3Tree d)
                          (getLastComparisonResult chain) last_node)
               end) = Some (Return r) ->
            exists l,
              olabels <= l <= labels
              /\ closest_labels r = l mod 256
              /\ (recursive = false -> l = labels)
              /\ (forall l', l < l' <= labels ->
                             no_match_at finder name d qlabels l')
              /\ ((matched r = true
                   /\ (exists node chain,
                          hash_lookup finder name d qlabels l
                          = Return (EXACTMATCH, Some node, chain, tt)
                          /\ closest_proof r
                             = createTreeNodeRRset (Some node)
                                 (data_head node) (getClass finder)
                                 FIND_DNSSEC None)
                   /\ exists covering,
                        next_proof r = covering_rrset finder covering
                        /\ (l = labels -> covering = cov)
                        /\ (l < labels ->
                            exists result node chain last_node,
                              hash_lookup finder name d qlabels (l + 1)
                              = Return (result, node, chain, tt)
                              /\ getLastComparedNode chain = Some last_node
                              /\ covering
                                 = choose_covering (getNSEC3Tree d)
                                     (getLastComparisonResult chain)
                                     last_node))
                  \/ (matched r = false /\ recursive = false
                      /\ next_proof r = None
                      /\ exists result node chain last_node,
                           hash_lookup finder name d qlabels l
                           = Return (result, node, chain, tt)
                           /\ result <> EXACTMATCH
                           /\ getLastComparedNode chain = Some last_node
                           /\ closest_proof r
                              = covering_rrset finder
                                  (choose_covering (getNSEC3Tree d)
                                     (getLastComparisonResult chain)
                                     last_node)))).
  { intros Hres.
    destruct (getOrder (getLastComparisonResult chain) =? 0) eqn:Hord;
      [discriminate|].
    apply Z.eqb_neq in Hord.
    destruct (getLastComparedNode chain) as [last|] eqn:Hlast;
      [|discriminate].
    destruct recursive; cbn [negb].
    - intros Hloop.
      destruct (IH _ _ _ Hloop)
        as (l & Hl & Hcl & Hnr & Hno & Hcases).
      exists l. split; [lia|]. split; [exact Hcl|].
      split; [discriminate|].
      assert (Hhere : no_match_at finder name d qlabels labels)
        by (exists result, node, chain, last; now repeat split).
      split.
      { intros l' Hl'. destruct (Z.eq_dec l' labels) as [->|Hne];
          [exact Hhere | apply Hno; lia]. }
      destruct Hcases as [(Hm & Hexact & cv & Hnext & Hsame & Hbelow)
                         | (_ & Hrec & _)]; [left | discriminate Hrec].
      split; [exact Hm|]. split; [exact Hexact|]. exists cv.
      split; [exact Hnext|]. split; [lia|]. intros _.
      destruct (Z.eq_dec l (labels - 1)) as [->|Hne].
      + replace (labels - 1 + 1) with labels by lia.
        exists result, node, chain, last.
        split; [exact Hlook|]. split; [exact Hlast|]. now apply Hsame.
      + apply Hbelow. lia.
    - intros [= <-]. exists labels. split; [lia|].
      split; [reflexivity|]. split; [reflexivity|].
      split; [intros l' Hl'; lia|]. right.
      repeat split. exists result, node, chain, last. now repeat split. }
  destruct result.
  - destruct node as [node|]; [|discriminate]. intros [= <-].
    exists labels. split; [lia|]. split; [reflexivity|].
    split; [reflexivity|]. split; [intros l' Hl'; lia|]. left.
    split; [reflexivity|].
    split; [exists node, chain; split; [exact Hlook | reflexivity]|].
    exists cov. split; [reflexivity|]. split; [reflexivity | lia].
  - apply Hstep. discriminate.
  - apply Hstep. discriminate.
Qed.

(** X10: when the prover returns, the zone is NSEC3 signed and the name in
    the zone, and the label count it reports is that of the longest
    ancestor of the name, the name itself among them, whose hash is in the
    tree of hashes (recursive search) or that of the name (search that is
    not recursive).  It reports a match exactly when the hash looked up
    last is in the tree, with the record set of the node found; the
    second proof is the covering record set chosen at the label count one
    above when the search has gone down, and null otherwise.  Without a
    match, which only a search that is not recursive reports, the proof
    is the covering record set of the name. *)
Theorem findNSEC3_closest_encloser
    (finder : InMemoryZoneFinder) (name : Name) (recursive : bool)
    (r : FindNSEC3Result)
    (Horigin : getOrigin finder <> [])
    (Hresult : findNSEC3 finder name recursive = Some (Return r)) :
  in_zone finder name = true
  /\ exists d l,
       getNSEC3Data (zone_data_ finder) = Some d
       /\ getLabelCount (getOrigin finder) <= l <= getLabelCount name
       /\ closest_labels r = l mod 256
       /\ (recursive = false -> l = getLabelCount name)
       /\ (forall l', l < l' <= getLabelCount name ->
                      no_match_at finder name d (getLabelCount name) l')
       /\ (l = getLabelCount name -> next_proof r = None)
       /\ (matched r = true ->
           (exists node chain,
               hash_lookup finder name d (getLabelCount name) l
               = Return (EXACTMATCH, Some node, chain, tt)
               /\ closest_proof r
                  = createTreeNodeRRset (Some node) (data_head node)
                      (getClass finder) FIND_DNSSEC None)
           /\ (l < getLabelCount name ->
               exists result node chain last_node,
                 hash_lookup finder name d (getLabelCount name) (l + 1)
                 = Return (result, node, chain, tt)
                 /\ getLastComparedNode chain = Some last_node
                 /\ next_proof r
                    = covering_rrset finder
                        (choose_covering (getNSEC3Tree d)
                           (getLastComparisonResult chain) last_node)))
       /\ (matched r = false ->
           recursive = false
           /\ exists result node chain last_node,
                hash_lookup finder name d (getLabelCount name) l
                = Return (result, node, chain, tt)
                /\ result <> EXACTMATCH
                /\ getLastComparedNode chain = Some last_node
                /\ closest_proof r
                   = covering_rrset finder
                       (choose_covering (getNSEC3Tree d)
                          (getLastComparisonResult chain) last_node)).
Proof.
  rewrite findNSEC3_unfold in Hresult.
  destruct (negb (isNSEC3Signed (zone_data_ finder))); [discriminate|].
  destruct (in_zone finder name) eqn:Hin; cbn [negb] in Hresult;
    [|discriminate].
  split; [reflexivity|].
  destruct (getNSEC3Data (zone_data_ finder)) as [d|]; [|discriminate].
  apply origin_label_count in Horigin.
  destruct (findNSEC3_loop_returns finder name recursive d _ _ Horigin
              _ _ _ _ Hresult)
    as (l & Hl & Hcl & Hnr & Hno & Hcases).
  exists d, l. split; [reflexivity|]. split; [exact Hl|].
  split; [exact Hcl|]. split; [exact Hnr|]. split; [exact Hno|].
  destruct Hcases as [(Hm & Hexact & cv & Hnext & Hsame & Hbelow)
                     | (Hm & Hrec & Hnext & Hcover)].
  - split; [intros E; rewrite Hnext, (Hsame E); reflexivity|].
    split; [|rewrite Hm; discriminate]. intros _.
    split; [exact Hexact|]. intros Hlt.
    destruct (Hbelow Hlt) as (res & nd & ch & last & H1 & H2 & H3).
    exists res, nd, ch, last. rewrite Hnext, H3. now repeat split.
  - split; [intros _; exact Hnext|].
    split; [rewrite Hm; discriminate|]. intros _. now split.
Qed.
End MoreNSEC3Properties.

Section HashOfEqualNames.
Variable SHA1 : list byte -> list byte.
Variable encodeBase32Hex : list byte -> string.

Lemma label_compare_eq (a b : Label) :
  label_compare a b = Eq -> downcase_label a = downcase_label b.
Proof.
  revert b. induction a as [|x a IH]; intros [|y b]; cbn;
    try discriminate; [reflexivity|].
  destruct (Nat.compare_spec (nat_of_ascii (downcase_ascii x))
                             (nat_of_ascii (downcase_ascii y)))
    as [Heq| |]; try discriminate.
  intros H. rewrite (IH _ H). f_equal.
  rewrite <- (ascii_nat_embedding (downcase_ascii x)),
    <- (ascii_nat_embedding (downcase_ascii y)).
  now rewrite Heq.
Qed.

Lemma compare_from_right_equal (ra rb : list Label) (n : nat) :
  getRelation (compare_from_right ra rb n) = EQUAL ->
  map downcase_label ra = map downcase_label rb.
Proof.
  revert rb n. induction ra as [|la ra IH]; intros [|lb rb] n;
    cbn [compare_from_right map]; try reflexivity.
  - destruct n; discriminate.
  - destruct n; discriminate.
  - destruct (label_compare la lb) eqn:Hl.
    + intros H. now rewrite (IH _ _ H), (label_compare_eq _ _ Hl).
    + destruct n; discriminate.
    + destruct n; discriminate.
Qed.

(** X11: two names the comparison of names finds equal, names that differ
    in the case of letters at most, have the same NSEC3 hash. *)
Theorem equal_names_hash_alike
    (name1 name2 : Name) (iterations : Z) (salt : list byte) (salt_len : nat)
    (Hequal : getRelation (Name_compare name1 name2) = EQUAL) :
  InMemoryZoneFinderNSEC3Calculate SHA1 encodeBase32Hex name1 iterations salt
                                   salt_len
  = InMemoryZoneFinderNSEC3Calculate SHA1 encodeBase32Hex name2 iterations
                                     salt salt_len.
Proof.
  unfold Name_compare, LabelSequence_compare in Hequal.
  apply compare_from_right_equal in Hequal.
  rewrite !map_rev in Hequal.
  apply (f_equal (@rev Label)) in Hequal. rewrite !rev_involutive in Hequal.
  unfold InMemoryZoneFinderNSEC3Calculate, downcase. now rewrite Hequal.
Qed.
End HashOfEqualNames.

Section AdditionalProperties.
Context {ops : DomainTreeOps}.
Variable indeterminate : option ZoneNode.
Variable name_fields :
  RRClass -> RRType -> list byte -> Z -> Z -> list (LabelSequence * Z).

Lemma findAdditionalHelper_adds ctx requested_types node options real_name
      (P : TreeNodeRRsetPtr -> Prop) :
  (forall rdset,
      In rdset (getData node) ->
      type_requested requested_types (rdata_type rdset) = true ->
      P (createTreeNodeRRset (Some node) (Some rdset) (context_rrclass_ ctx)
                             options real_name)) ->
  forall result,
  exists added,
    findAdditionalHelper ctx requested_types result node options real_name
    = result ++ added
    /\ Forall P added.
Proof.
  unfold findAdditionalHelper.
  induction (getData node) as [|rdset rest IH]; intros HP result; cbn.
  - exists []. now rewrite app_nil_r.
  - assert (Hrest : forall rdset : RdataSet,
               In rdset rest ->
               type_requested requested_types (rdata_type rdset) = true ->
               P (createTreeNodeRRset (Some node) (Some rdset)
                    (context_rrclass_ ctx) options real_name))
      by (intros x Hx; apply HP; now right).
    destruct (type_requested requested_types (rdata_type rdset)) eqn:Ht.
    + destruct (IH Hrest
                  (result
                   ++ [createTreeNodeRRset (Some node) (Some rdset)
                         (context_rrclass_ ctx) options real_name]))
        as (added & Heq & Hadded).
      exists (createTreeNodeRRset (Some node) (Some rdset)
                (context_rrclass_ ctx) options real_name :: added).
      split; [etransitivity; [exact Heq|]; now rewrite <- app_assoc|].
      constructor; [|exact Hadded]. apply HP; [now left | exact Ht].
    + exact (IH Hrest result).
Qed.

Lemma findAdditional_adds ctx requested_types result options name_labels attr
      result' :
  findAdditional indeterminate ctx requested_types result options name_labels
                 attr = Return result' ->
  exists added,
    result' = result ++ added
    /\ Forall (additional_rrset ctx requested_types options) added.
Proof.
  assert (Hsame : exists added,
             result = result ++ added
             /\ Forall (additional_rrset ctx requested_types options) added)
    by (exists []; now rewrite app_nil_r).
  unfold findAdditional.
  destruct (Z.land attr NAMEATTR_ADDITIONAL =? 0);
    [intros [= <-]; exact Hsame|].
  destruct (negb _ && negb _); [intros [= <-]; exact Hsame|].
  destruct (findNode indeterminate (context_zone_data_ ctx) name_labels
                     ZoneChain_new options) as [[nr path]| |];
    cbn [bind]; try discriminate.
  destruct (negb (Result_eqb (FindNodeResult.code nr) SUCCESS));
    [intros [= <-]; exact Hsame|].
  destruct (FindNodeResult.node nr) as [node|]; [|discriminate].
  destruct ((Z.land options FIND_GLUE_OK =? 0)
            && getFlag node FLAG_CALLBACK
            && negb (node_ptr_eqb node
                                  (getOriginNode (context_zone_data_ ctx))))
    eqn:Hcut; [intros [= <-]; exact Hsame|].
  assert (Hadd : forall real_name rdset,
             In rdset (getData node) ->
             type_requested requested_types (rdata_type rdset) = true ->
             additional_rrset ctx requested_types options
               (createTreeNodeRRset (Some node) (Some rdset)
                  (context_rrclass_ ctx) options real_name)).
  { intros real_name rdset Hin Ht.
    exists (mkTreeNodeRRset real_name (context_rrclass_ ctx) node rdset
                            (has_flag options FIND_DNSSEC)).
    split; [unfold createTreeNodeRRset; now destruct real_name|].
    cbn. repeat split; try assumption.
    unfold has_flag. intros Hglue. apply negb_false_iff in Hglue.
    rewrite Hglue in Hcut. cbn [andb] in Hcut.
    destruct (getFlag node FLAG_CALLBACK); [right | now left].
    cbn [andb] in Hcut. now apply negb_false_iff in Hcut. }
  destruct (Z.land (FindNodeResult.flags nr) FIND_WILDCARD =? 0);
    intros [= <-];
    match goal with
    | |- context [findAdditionalHelper _ _ _ _ _ ?real_name] =>
        destruct (findAdditionalHelper_adds ctx requested_types node options
                    real_name (additional_rrset ctx requested_types options)
                    (Hadd real_name) result) as (added & Heq & Hall)
    end;
    exists added; split; assumption.
Qed.

Lemma iterate_names_adds ctx requested_types options names :
  forall result result',
    iterate_names indeterminate ctx requested_types options names result
    = Return result' ->
    exists added,
      result' = result ++ added
      /\ Forall (additional_rrset ctx requested_types options) added.
Proof.
  induction names as [|[name_labels attr] rest IH]; intros result result';
    cbn [iterate_names].
  - intros [= <-]. exists []. now rewrite app_nil_r.
  - destruct (findAdditional indeterminate ctx requested_types result options
                             name_labels attr) as [mid| |] eqn:Hone;
      cbn [bind]; try discriminate.
    intros Hrest.
    destruct (findAdditional_adds _ _ _ _ _ _ _ Hone) as (a1 & -> & H1).
    destruct (IH _ _ Hrest) as (a2 & -> & H2).
    exists (a1 ++ a2). rewrite app_assoc. split; [reflexivity|].
    apply Forall_app. now split.
Qed.

(** The options the names of an rdata set are looked up with. *)
Lemma getAdditionalForRdataset_options ctx rdset requested_types result
      orig_options :
  exists options,
    getAdditionalForRdataset indeterminate name_fields ctx rdset
                             requested_types result orig_options
    = iterate_names indeterminate ctx requested_types options
        (name_fields (context_rrclass_ ctx) (rdata_type rdset)
                     (getDataBuf rdset) (getRdataCount rdset)
                     (getSigRdataCount rdset))
        result
    /\ has_flag options FIND_DNSSEC = has_flag orig_options FIND_DNSSEC
    /\ has_flag options FIND_GLUE_OK = (rdata_type rdset =? RRTypes.NS)
    /\ has_flag options NO_WILDCARD = false.
Proof.
  unfold getAdditionalForRdataset, has_flag.
  eexists. split; [reflexivity|].
  destruct (Z.land orig_options FIND_DNSSEC =? 0),
    (rdata_type rdset =? RRTypes.NS); cbn; repeat split.
Qed.

Lemma additional_rrset_options ctx requested_types options options' p :
  has_flag options FIND_DNSSEC = has_flag options' FIND_DNSSEC ->
  (has_flag options' FIND_GLUE_OK = false ->
   has_flag options FIND_GLUE_OK = false) ->
  additional_rrset ctx requested_types options p ->
  additional_rrset ctx requested_types options' p.
Proof.
  intros Hd Hg (r & Hp & Ht & Hin & Hc & Hdn & Hcut).
  exists r. repeat split; try assumption; [congruence | auto].
Qed.

(** X12: the additional section processing only appends to the result,
    and what it appends are record sets of the requested types, each made
    of an rdata set of the node it is of, with the class of the context
    and the DNSSEC wish of the options of the query; with no requested
    type the result is as it was. *)
Theorem additional_only_adds_requested_sets
    (ctx : Context) (requested_types : list RRType)
    (result result' : list TreeNodeRRsetPtr)
    (Hresult : getAdditionalImpl indeterminate name_fields ctx requested_types
                                 result = Return result') :
  (exists added,
      result' = result ++ added
      /\ Forall (fun p =>
                   exists r,
                     p = Some r
                     /\ In (rdata_type (rrset_rdataset r)) requested_types
                     /\ In (rrset_rdataset r) (getData (rrset_node r))
                     /\ rrset_rrclass r = context_rrclass_ ctx
                     /\ rrset_dnssec_ok r
                        = has_flag (options_ ctx) FIND_DNSSEC)
                added)
  /\ (requested_types = [] -> result' = result).
Proof.
  assert (Hone : forall rdset res res',
             getAdditionalForRdataset indeterminate name_fields ctx rdset
               requested_types res (options_ ctx) = Return res' ->
             exists added,
               res' = res ++ added
               /\ Forall (additional_rrset ctx requested_types
                            (Z.lor (options_ ctx) FIND_GLUE_OK)) added).
  { intros rdset res res' H.
    destruct (getAdditionalForRdataset_options ctx rdset requested_types res
                (options_ ctx)) as (options & Heq & Hd & Hg & _).
    rewrite Heq in H.
    destruct (iterate_names_adds _ _ _ _ _ _ H) as (added & -> & Hall).
    exists added. split; [reflexivity|].
    eapply Forall_impl; [|exact Hall].
    intros p. apply additional_rrset_options.
    - rewrite Hd. unfold has_flag. f_equal. f_equal.
      rewrite Z.land_lor_distr_l. cbn. now rewrite Z.lor_0_r.
    - unfold has_flag at 1. rewrite Z.land_lor_distr_l. cbn.
      intros Hz. apply negb_false_iff in Hz. apply Z.eqb_eq in Hz.
      apply Z.lor_eq_0_iff in Hz. destruct Hz as [_ Hz]. discriminate Hz. }
  assert (Hall : exists added,
             result' = result ++ added
             /\ Forall (additional_rrset ctx requested_types
                          (Z.lor (options_ ctx) FIND_GLUE_OK)) added).
  { unfold getAdditionalImpl in Hresult.
    destruct (found_rdset_ ctx) as [rdset|]; [now apply (Hone rdset)|].
    destruct (found_node_ ctx) as [node|];
      [|injection Hresult as <-; exists []; now rewrite app_nil_r].
    revert result Hresult.
    induction (getData node) as [|rdset rest IH]; intros result;
      cbn [additional_for_all].
    - intros [= <-]. exists []. now rewrite app_nil_r.
    - destruct (getAdditionalForRdataset indeterminate name_fields ctx rdset
                  requested_types result (options_ ctx)) as [mid| |] eqn:Hm;
        cbn [bind]; try discriminate.
      intros Hrest. destruct (Hone _ _ _ Hm) as (a1 & -> & H1).
      destruct (IH _ Hrest) as (a2 & -> & H2).
      exists (a1 ++ a2). rewrite app_assoc. split; [reflexivity|].
      apply Forall_app. now split. }
  destruct Hall as (added & -> & Hadded).
  assert (Htypes : forall p,
             additional_rrset ctx requested_types
                              (Z.lor (options_ ctx) FIND_GLUE_OK) p ->
             exists r,
               p = Some r
               /\ In (rdata_type (rrset_rdataset r)) requested_types
               /\ In (rrset_rdataset r) (getData (rrset_node r))
               /\ rrset_rrclass r = context_rrclass_ ctx
               /\ rrset_dnssec_ok r = has_flag (options_ ctx) FIND_DNSSEC).
  { intros p (r & Hp & Ht & Hin & Hc & Hd & _). exists r.
    repeat split; try assumption.
    - unfold type_requested in Ht. apply existsb_exists in Ht.
      destruct Ht as (t & Hint & Heq). apply Z.eqb_eq in Heq. now subst.
    - rewrite Hd. unfold has_flag. f_equal. f_equal.
      rewrite Z.land_lor_distr_l. cbn. now rewrite Z.lor_0_r. }
  split.
  - exists added. split; [reflexivity|].
    eapply Forall_impl; [exact Htypes | exact Hadded].
  - intros ->. destruct added as [|p rest]; [now rewrite app_nil_r|].
    inversion Hadded as [|? ? Hp _]. apply Htypes in Hp.
    destruct Hp as (r & _ & [] & _).
Qed.

(** X13: for the names of an rdata set that is no NS the result is only
    appended to, and no record set is added of a node flagged for the
    callback other than the origin of the zone: glue is left out. *)
Theorem additional_stays_above_zone_cuts
    (ctx : Context) (rdset : RdataSet) (requested_types : list RRType)
    (result result' : list TreeNodeRRsetPtr) (orig_options : FindOptions)
    (Hset : rdata_type rdset <> RRTypes.NS)
    (Hresult : getAdditionalForRdataset indeterminate name_fields ctx rdset
                 requested_types result orig_options = Return result') :
  exists added,
    result' = result ++ added
    /\ Forall (fun p =>
                 exists r,
                   p = Some r
                   /\ (getFlag (rrset_node r) FLAG_CALLBACK = false
                       \/ node_ptr_eqb
                            (rrset_node r)
                            (getOriginNode (context_zone_data_ ctx)) = true))
              added.
Proof.
  destruct (getAdditionalForRdataset_options ctx rdset requested_types result
              orig_options) as (options & Heq & _ & Hg & _).
  rewrite Heq in Hresult.
  destruct (iterate_names_adds _ _ _ _ _ _ Hresult) as (added & -> & Hall).
  exists added. split; [reflexivity|].
  eapply Forall_impl; [|exact Hall].
  intros p (r & Hp & _ & _ & _ & _ & Hcut). exists r.
  split; [exact Hp|]. apply Hcut. rewrite Hg. now apply Z.eqb_neq.
Qed.

(** X14: the name fields that do not ask for additional section
    processing and those of names outside the zone have no part in the
    iteration: it goes as it does without them. *)
Theorem names_not_to_be_processed_are_skipped
    (ctx : Context) (requested_types : list RRType) (options : FindOptions)
    (names : list (LabelSequence * Z)) (result : list TreeNodeRRsetPtr) :
  iterate_names indeterminate ctx requested_types options names result
  = iterate_names indeterminate ctx requested_types options
      (filter (to_be_processed ctx) names) result.
Proof.
  revert result.
  induction names as [|[name_labels attr] rest IH]; intros result;
    [reflexivity|].
  cbn [filter]. unfold to_be_processed at 1. cbn [fst snd].
  destruct (Z.land attr NAMEATTR_ADDITIONAL =? 0) eqn:Hattr; cbn [negb andb].
  - cbn [iterate_names]. unfold findAdditional at 1. rewrite Hattr.
    cbn [bind]. apply IH.
  - destruct (relation_eqb _ SUPERDOMAIN || relation_eqb _ EQUAL) eqn:Hrel.
    + cbn [iterate_names].
      destruct (findAdditional indeterminate ctx requested_types result
                               options name_labels attr); cbn [bind];
        [apply IH | reflexivity | reflexivity].
    + cbn [iterate_names]. unfold findAdditional at 1. rewrite Hattr.
      apply orb_false_iff in Hrel as [H1 H2]. rewrite H1, H2.
      cbn [negb andb bind]. apply IH.
Qed.

(** X15: a query answered NXDOMAIN while no NSEC is searched for leaves in
    its context, as the node found, what the local of the node search
    that is never written happens to hold, and the additional section
    processing of that context goes through the rdata sets of the node
    this value designates. *)
Theorem additional_after_nxdomain
    (finder : InMemoryZoneFinder) (name : Name) (type : RRType)
    (options : FindOptions) (ctx : Context) (requested_types : list RRType)
    (result : list TreeNodeRRsetPtr)
    (Hresult : find_context indeterminate finder name type options
               = Return ctx)
    (Hcode : context_code ctx = NXDOMAIN)
    (Hnsec : nsec_wanted (zone_data_ finder) options = false) :
  found_node_ ctx = indeterminate
  /\ found_rdset_ ctx = None
  /\ getAdditionalImpl indeterminate name_fields ctx requested_types result
     = match indeterminate with
       | Some node =>
           additional_for_all indeterminate name_fields ctx (getData node)
                              requested_types result
       | None => Return result
       end.
Proof.
  unfold find_context in Hresult.
  destruct (find_internal indeterminate finder name type None options)
    as [[res t]| |] eqn:Hfind; cbn [bind] in Hresult; try discriminate.
  injection Hresult as <-. cbn [context_code Context_new] in Hcode.
  destruct (find_internal_node_search indeterminate _ _ _ _ _ _ _ Hfind)
    as (nr & path & Hn).
  assert (Hne : FindNodeResult.code nr <> SUCCESS).
  { intros Hc.
    destruct (find_internal_at_node indeterminate _ _ _ _ _ _ _ _ _ Hn Hc
                Hfind)
      as (node & _ & [(_ & Hcode' & _) | (_ & _ & Hcases)]);
      [congruence|].
    destruct Hcases as [(Hcode' & _)
                       | [(Hcode' & _) | (_ & _ & [(Hcode' & _)
                                                  | [(Hcode' & _)
                                                    | (Hcode' & _)]])]];
      congruence. }
  rewrite (find_internal_passes_on indeterminate _ _ _ _ _ _ _ Hn Hne)
    in Hfind.
  injection Hfind as <- _. rewrite createFindResult_code in Hcode.
  pose proof (findNode_negative indeterminate _ _ _ _ _ Hn (or_intror Hcode))
    as Hclosest.
  rewrite getClosestNSEC_unwanted in Hclosest by exact Hnsec.
  injection Hclosest as Hrr Hnode.
  unfold getAdditionalImpl. cbn [found_node_ found_rdset_ Context_new].
  destruct (createFindResult_found (rrclass_ finder) (zone_data_ finder)
              (FindNodeResult.code nr) (FindNodeResult.rrset nr)
              (FindNodeResult.node nr) options false None) as [-> ->].
  rewrite <- Hrr, <- Hnode. repeat split.
Qed.
End AdditionalProperties.

Section OriginProperties.
Context {ops : DomainTreeOps}.

(** X25: the origin the finder reports is the absolute name of the origin
    node whenever that node has no node above it, be its labels absolute
    or not: the name the prover compares a query with is the name the
    additional section processing compares the names of the rdata with. *)
Theorem getOrigin_is_the_name_of_the_origin_node
    (finder : InMemoryZoneFinder)
    (Htop : getUpperNode (getOriginNode (zone_data_ finder)) = None) :
  getOrigin finder = getAbsoluteLabels (getOriginNode (zone_data_ finder))
  /\ getOrigin finder = getLabels (getOriginNode (zone_data_ finder)).
Proof.
  unfold getOrigin.
  destruct (getOriginNode (zone_data_ finder))
    as [addr labels data node_flags upper].
  cbn [getUpperNode] in Htop. subst upper.
  cbn [getAbsoluteLabels getLabels getUpperNode]. rewrite app_nil_r.
  now destruct (isAbsolute labels).
Qed.
End OriginProperties.

(** * The message counters *)

Section StatisticsProperties.
Import Statistics StatisticsNotions.

Lemma opcode_counter_stage (n : nat) (type : MsgCounterType) :
  nth_error opcode_to_msgcounter n = Some type -> stage type = 3%nat.
Proof.
  intros H. apply nth_error_In in H. revert type H. apply Forall_forall.
  unfold opcode_to_msgcounter. repeat constructor.
Qed.

Lemma opcode_counter_in_range (code : N) :
  (code < 16)%N <->
  nth_error opcode_to_msgcounter (N.to_nat code) <> None.
Proof.
  rewrite nth_error_Some. unfold opcode_to_msgcounter. cbn [List.length]. lia.
Qed.

Lemma rcode_counter_stage (rcode : N) : stage (rcode_counter rcode) = 13%nat.
Proof.
  unfold rcode_counter.
  destruct (nth_in_or_default (N.to_nat rcode) rcode_to_msgcounter
                              MSG_RCODE_OTHER) as [Hin|Hd];
    [|now rewrite Hd].
  revert Hin. generalize (nth (N.to_nat rcode) rcode_to_msgcounter
                              MSG_RCODE_OTHER).
  apply Forall_forall. unfold rcode_to_msgcounter. repeat constructor.
Qed.

Lemma rcode_counter_outside (rcode : N) :
  (17 <= rcode)%N -> rcode_counter rcode = MSG_RCODE_OTHER.
Proof.
  intros H. unfold rcode_counter. apply nth_overflow.
  unfold rcode_to_msgcounter. cbn [List.length]. lia.
Qed.

Lemma staged_nil (lo hi : nat) : staged lo hi [].
Proof. split; constructor. Qed.

Lemma staged_snoc (lo hi hi' : nat) (counted : list MsgCounterType)
      (type : MsgCounterType) :
  staged lo hi counted ->
  (hi < stage type)%nat -> (lo <= stage type)%nat -> (stage type <= hi')%nat ->
  staged lo hi' (counted ++ [type]).
Proof.
  unfold staged, in_stages. intros [Hs Hb] Hlt Hlo Hhi.
  induction counted as [|x rest IH]; cbn [app map].
  - split; repeat constructor; assumption.
  - inversion Hs as [|? ? Hrest Hx]; subst.
    inversion Hb as [|? ? Hxb Hrb]; subst.
    destruct (IH Hrest Hrb) as [IHs IHb].
    split.
    + constructor; [exact IHs|]. rewrite map_app. apply Forall_app.
      split; [exact Hx|]. repeat constructor. lia.
    + constructor; [lia | exact IHb].
Qed.

Lemma staged_weaken (lo hi hi' : nat) (counted : list MsgCounterType) :
  staged lo hi counted -> (hi <= hi')%nat -> staged lo hi' counted.
Proof.
  intros [Hs Hb] Hle. split; [exact Hs|].
  eapply Forall_impl; [|exact Hb]. intros type Ht. cbn beta in Ht. lia.
Qed.

Lemma staged_app (lo hi lo' hi' : nat) (first second : list MsgCounterType) :
  staged lo hi first -> staged lo' hi' second -> (hi < lo')%nat ->
  in_stages (first ++ second).
Proof.
  unfold staged, in_stages. intros [H1 Hlow] [H2 Hhigh] Hlt.
  induction first as [|x rest IH]; [exact H2|].
  cbn [app map] in *. inversion H1 as [|? ? Hrest Hx]; subst.
  inversion Hlow as [|? ? Hxb Hrb]; subst.
  constructor; [now apply IH|].
  rewrite map_app. apply Forall_app. split; [exact Hx|].
  apply Forall_map. eapply Forall_impl; [|exact Hhigh].
  intros type Ht. cbn beta in Ht. lia.
Qed.

Lemma in_stages_NoDup (counted : list MsgCounterType) :
  in_stages counted -> NoDup counted.
Proof.
  unfold in_stages. induction counted as [|x rest IH]; intros H;
    [constructor|].
  cbn [map] in H. inversion H as [|? ? Hrest Hx]; subst.
  constructor; [|now apply IH].
  intros Hin. rewrite Forall_map, Forall_forall in Hx.
  specialize (Hx x Hin). cbn beta in Hx. lia.
Qed.

Lemma staged_outside (lo hi : nat) (counted : list MsgCounterType)
      (type : MsgCounterType) :
  staged lo hi counted ->
  (stage type < lo)%nat \/ (hi < stage type)%nat ->
  ~ In type counted.
Proof.
  intros [_ Hb] Hout Hin. rewrite Forall_forall in Hb.
  specialize (Hb type Hin). cbn beta in Hb. lia.
Qed.

Ltac stage_arith :=
  repeat match goal with
         | H : stage ?t = _ |- context [stage ?t] => rewrite H
         end;
  cbn [stage]; lia.

(** A step of the count: the list is as it was or has one counter more. *)
Ltac staged_step :=
  first [ eapply staged_snoc; [eassumption | stage_arith ..]
        | eapply staged_weaken; [eassumption | lia]
        | eapply staged_snoc; [apply (staged_nil _ 0) | stage_arith ..] ].

Section CountingProperties.
Variables AF_INET AF_INET6 IPPROTO_UDP IPPROTO_TCP : Z.

(** The count of a request up to its signature, and the rest of it. *)
Lemma incRequest_shape (msgattrs : MessageAttributes) :
  (exists counted,
      staged 1 5 counted
      /\ incRequest AF_INET AF_INET6 IPPROTO_UDP IPPROTO_TCP msgattrs
         = if requestHasBadSig msgattrs then
             mkRun (counted ++ [MSG_REQUEST_BADSIG]) Returned
           else
             mkRun ((if requestHasDO msgattrs
                     then fun counted => counted ++ [MSG_REQUEST_DNSSEC_OK]
                     else fun counted => counted)
                      (if requestHasEDNS0 msgattrs
                       then counted ++ [MSG_REQUEST_EDNS0]
                       else counted))
                   Returned)
  \/ (exists code counted,
         getRequestOpCode msgattrs = Some code /\ (16 <= code)%N
         /\ staged 1 2 counted
         /\ incRequest AF_INET AF_INET6 IPPROTO_UDP IPPROTO_TCP msgattrs
            = mkRun counted ReadOutOfBounds).
Proof.
  unfold incRequest. cbv zeta.
  set (c1 := if getRequestIPVersion msgattrs =? AF_INET then _ else _).
  assert (H1 : staged 1 1 c1)
    by (subst c1; cbn [app];
        destruct (_ =? AF_INET); [|destruct (_ =? AF_INET6)];
        first [apply staged_nil
              | apply (staged_snoc 1 0 1 []); [apply staged_nil | cbn; lia ..]]).
  clearbody c1.
  set (c2 := if getRequestTransportProtocol msgattrs =? IPPROTO_UDP
             then _ else _).
  assert (H2 : staged 1 2 c2)
    by (subst c2;
        destruct (_ =? IPPROTO_UDP); [|destruct (_ =? IPPROTO_TCP)];
        staged_step).
  clearbody c2. clear H1 c1.
  destruct (getRequestOpCode msgattrs) as [code|] eqn:Hop.
  - destruct (nth_error opcode_to_msgcounter (N.to_nat code)) as [type|] eqn:E.
    + left. pose proof (opcode_counter_stage _ _ E) as Hs.
      set (c3 := if N.eqb code Opcode_QUERY then _ else _).
      assert (H3 : staged 1 4 c3).
      { assert (Hin : staged 1 3 (c2 ++ [type])) by staged_step.
        subst c3. destruct (N.eqb code Opcode_QUERY);
          [destruct (requestHasRD msgattrs)|]; staged_step. }
      clearbody c3.
      set (c4 := if requestHasTSIG msgattrs then _ else _).
      assert (H4 : staged 1 5 c4)
        by (subst c4; destruct (requestHasTSIG msgattrs); staged_step).
      clearbody c4. exists c4. split; [exact H4|].
      destruct (requestHasBadSig msgattrs), (requestHasEDNS0 msgattrs),
        (requestHasDO msgattrs); reflexivity.
    + right. exists code, c2. split; [reflexivity|].
      split; [|split; [exact H2 | reflexivity]].
      destruct (N.lt_ge_cases code 16) as [Hlt|Hge]; [|exact Hge].
      apply opcode_counter_in_range in Hlt. congruence.
  - left.
    set (c4 := if requestHasTSIG msgattrs then _ else _).
    assert (H4 : staged 1 5 c4)
      by (subst c4; destruct (requestHasTSIG msgattrs); staged_step).
    clearbody c4. exists c4. split; [exact H4|].
    destruct (requestHasBadSig msgattrs), (requestHasEDNS0 msgattrs),
      (requestHasDO msgattrs); reflexivity.
Qed.

(** The count of a response up to the version of EDNS, and the rest of
    it. *)
Lemma incResponse_shape (msgattrs : MessageAttributes) (response : Message) :
  exists prefix counted,
    staged 9 12 prefix
    /\ hd_error prefix = Some MSG_RESPONSE
    /\ counted
       = (if N.eqb (getRcode response) Rcode_BADVERS
          then fun counted => counted ++ [MSG_REQUEST_BADEDNSVER]
          else fun counted => counted)
           (prefix ++ [rcode_counter (getRcode response)])
    /\ staged 9 14 counted
    /\ incResponse msgattrs response
       = match getRequestOpCode msgattrs with
         | None => mkRun counted ThrewUnexpected
         | Some code =>
             if negb (requestHasBadSig msgattrs) && N.eqb code Opcode_QUERY
             then
               mkRun
                 ((if N.eqb (getRcode response) Rcode_NOERROR_CODE then
                     if N.ltb 0 (getRRCount_ANSWER response)
                     then fun counted => counted ++ [MSG_QRYSUCCESS]
                     else if getHeaderFlag_AA response
                          then fun counted => counted ++ [MSG_QRYNXRRSET]
                          else fun counted => counted ++ [MSG_QRYREFERRAL]
                   else if N.eqb (getRcode response) Rcode_REFUSED_CODE then
                          if negb (getHeaderFlag_RD response)
                          then fun counted => counted ++ [MSG_QRYREJECT]
                          else fun counted => counted
                        else fun counted => counted)
                    (if getHeaderFlag_AA response
                     then counted ++ [MSG_QRYAUTHANS]
                     else counted ++ [MSG_QRYNOAUTHANS]))
                 Returned
             else mkRun counted Returned
         end.
Proof.
  unfold incResponse. cbv zeta.
  assert (Hrcode : (if N.ltb (getRcode response) num_rcode_to_msgcounter
                    then nth (N.to_nat (getRcode response))
                             rcode_to_msgcounter MSG_RCODE_OTHER
                    else MSG_RCODE_OTHER)
                   = rcode_counter (getRcode response)).
  { destruct (N.ltb_spec (getRcode response) num_rcode_to_msgcounter)
      as [Hlt|Hge]; [reflexivity|].
    symmetry. apply rcode_counter_outside. exact Hge. }
  rewrite Hrcode. clear Hrcode.
  pose proof (rcode_counter_stage (getRcode response)) as Hs.
  generalize dependent (rcode_counter (getRcode response)).
  intros in_table Hs.
  set (c1 := if responseIsTruncated msgattrs then _ else _).
  assert (H1 : staged 9 10 c1 /\ hd_error c1 = Some MSG_RESPONSE).
  { assert (H0 : staged 9 9 ([] ++ [MSG_RESPONSE])) by staged_step.
    subst c1. destruct (responseIsTruncated msgattrs);
      (split; [staged_step | reflexivity]). }
  clearbody c1.
  set (c2 := match getEDNS response with Some _ => _ | None => _ end).
  assert (H2 : staged 9 11 c2 /\ hd_error c2 = Some MSG_RESPONSE).
  { destruct H1 as [H1 Hhd]. subst c2.
    destruct (getEDNS response) as [version|];
      [destruct (version =? 0)|];
      (split; [staged_step | try exact Hhd]).
    destruct c1; [discriminate Hhd | exact Hhd]. }
  clearbody c2. clear H1 c1.
  set (c3 := if responseHasTSIG msgattrs then _ else _).
  assert (H3 : staged 9 12 c3 /\ hd_error c3 = Some MSG_RESPONSE).
  { destruct H2 as [H2 Hhd]. subst c3.
    destruct (responseHasTSIG msgattrs);
      (split; [staged_step | try exact Hhd]).
    destruct c2; [discriminate Hhd | exact Hhd]. }
  clearbody c3. clear H2 c2. destruct H3 as [H3 Hhd].
  set (c5 := if N.eqb (getRcode response) Rcode_BADVERS
             then _ ++ [MSG_REQUEST_BADEDNSVER] else _).
  assert (H5 : staged 9 14 c5).
  { assert (H4 : staged 9 13 (c3 ++ [in_table])) by staged_step.
    subst c5. destruct (N.eqb (getRcode response) Rcode_BADVERS);
      staged_step. }
  exists c3, c5. split; [exact H3|]. split; [exact Hhd|].
  split; [subst c5; now destruct (N.eqb (getRcode response) Rcode_BADVERS)|].
  split; [exact H5|]. clearbody c5.
  destruct (getRequestOpCode msgattrs) as [code|]; [|reflexivity].
  destruct (negb (requestHasBadSig msgattrs) && N.eqb code Opcode_QUERY);
    [|reflexivity].
  destruct (getHeaderFlag_AA response),
    (N.eqb (getRcode response) Rcode_NOERROR_CODE),
    (N.ltb 0 (getRRCount_ANSWER response)),
    (N.eqb (getRcode response) Rcode_REFUSED_CODE),
    (negb (getHeaderFlag_RD response)); reflexivity.
Qed.
Lemma incRequest_staged (msgattrs : MessageAttributes) :
  staged 1 8 (calls (incRequest AF_INET AF_INET6 IPPROTO_UDP IPPROTO_TCP
                                msgattrs)).
Proof.
  destruct (incRequest_shape msgattrs)
    as [(counted & Hc & ->) | (code & counted & _ & _ & Hc & ->)].
  - destruct (requestHasBadSig msgattrs); cbn [calls]; [staged_step|].
    assert (He : staged 1 7 (if requestHasEDNS0 msgattrs
                             then counted ++ [MSG_REQUEST_EDNS0]
                             else counted))
      by (destruct (requestHasEDNS0 msgattrs); staged_step).
    destruct (requestHasDO msgattrs); staged_step.
  - cbn [calls]. staged_step.
Qed.

Lemma incResponse_staged (msgattrs : MessageAttributes) (response : Message) :
  staged 9 16 (calls (incResponse msgattrs response)).
Proof.
  destruct (incResponse_shape msgattrs response)
    as (prefix & counted & _ & _ & _ & Hc & ->).
  destruct (getRequestOpCode msgattrs) as [code|]; [|cbn [calls]; staged_step].
  destruct (negb (requestHasBadSig msgattrs) && N.eqb code Opcode_QUERY);
    cbn [calls]; [|staged_step].
  assert (Ha : staged 9 15 (if getHeaderFlag_AA response
                            then counted ++ [MSG_QRYAUTHANS]
                            else counted ++ [MSG_QRYNOAUTHANS]))
    by (destruct (getHeaderFlag_AA response); staged_step).
  destruct (N.eqb (getRcode response) Rcode_NOERROR_CODE);
    [destruct (N.ltb 0 (getRRCount_ANSWER response));
     [|destruct (getHeaderFlag_AA response)]
    |destruct (N.eqb (getRcode response) Rcode_REFUSED_CODE);
     [destruct (negb (getHeaderFlag_RD response))|]];
    staged_step.
Qed.

(** X16: the counters incremented for one message are incremented in the
    order of the attributes gone through, at most one for each of them:
    the address family, the transport, the opcode, recursion desired,
    TSIG, bad signature, EDNS0 and DNSSEC OK of the request, then the
    response, its truncation, EDNS0 and TSIG, its rcode, the bad EDNS
    version, the authority of the answer and its kind.  No counter is
    incremented twice. *)
Theorem message_counts_each_counter_once
    (msgattrs : MessageAttributes) (response : Message) (done : bool) :
  in_stages (calls (inc AF_INET AF_INET6 IPPROTO_UDP IPPROTO_TCP msgattrs
                        response done))
  /\ NoDup (calls (inc AF_INET AF_INET6 IPPROTO_UDP IPPROTO_TCP msgattrs
                       response done)).
Proof.
  assert (H : in_stages (calls (inc AF_INET AF_INET6 IPPROTO_UDP IPPROTO_TCP
                                    msgattrs response done))).
  { unfold inc.
    pose proof (incRequest_staged msgattrs) as Hreq.
    pose proof (incResponse_staged msgattrs response) as Hres.
    destruct (ending (incRequest AF_INET AF_INET6 IPPROTO_UDP IPPROTO_TCP
                                 msgattrs)); try exact (proj1 Hreq).
    destruct done; [|exact (proj1 Hreq)]. cbn [calls].
    apply (staged_app 1 8 9 16); [exact Hreq | exact Hres | lia]. }
  split; [exact H | now apply in_stages_NoDup].
Qed.

Ltac outside_stages H :=
  apply (staged_outside _ _ _ _ H); cbn [stage]; lia.

Lemma in_snoc (counted : list MsgCounterType) (type last : MsgCounterType) :
  In type (counted ++ [last]) <-> In type counted \/ last = type.
Proof. rewrite in_app_iff. cbn [In]. tauto. Qed.

(** X17: a request is counted to the end unless its opcode is outside the
    table of the opcode counters, a table of sixteen, and counting it
    throws nothing.  When it has a bad signature it is counted up to the
    signature: neither its EDNS0 nor its DNSSEC OK bit is counted, and the
    counter of bad signatures is the last one incremented.  Without a bad
    signature that counter is left alone, and EDNS0 and DNSSEC OK are
    counted exactly when the request has them. *)
Theorem bad_signature_ends_the_count (msgattrs : MessageAttributes) :
  (ending (incRequest AF_INET AF_INET6 IPPROTO_UDP IPPROTO_TCP msgattrs)
   = Returned <->
   forall code, getRequestOpCode msgattrs = Some code -> (code < 16)%N)
  /\ ending (incRequest AF_INET AF_INET6 IPPROTO_UDP IPPROTO_TCP msgattrs)
     <> ThrewUnexpected
  /\ (ending (incRequest AF_INET AF_INET6 IPPROTO_UDP IPPROTO_TCP msgattrs)
      = Returned ->
      (requestHasBadSig msgattrs = true ->
       ~ In MSG_REQUEST_EDNS0
            (calls (incRequest AF_INET AF_INET6 IPPROTO_UDP IPPROTO_TCP
                               msgattrs))
       /\ ~ In MSG_REQUEST_DNSSEC_OK
               (calls (incRequest AF_INET AF_INET6 IPPROTO_UDP IPPROTO_TCP
                                  msgattrs))
       /\ last (calls (incRequest AF_INET AF_INET6 IPPROTO_UDP IPPROTO_TCP
                                  msgattrs)) MSG_RESPONSE
          = MSG_REQUEST_BADSIG)
      /\ (requestHasBadSig msgattrs = false ->
          ~ In MSG_REQUEST_BADSIG
               (calls (incRequest AF_INET AF_INET6 IPPROTO_UDP IPPROTO_TCP
                                  msgattrs))
          /\ (In MSG_REQUEST_EDNS0
                 (calls (incRequest AF_INET AF_INET6 IPPROTO_UDP IPPROTO_TCP
                                    msgattrs)) <->
              requestHasEDNS0 msgattrs = true)
          /\ (In MSG_REQUEST_DNSSEC_OK
                 (calls (incRequest AF_INET AF_INET6 IPPROTO_UDP IPPROTO_TCP
                                    msgattrs)) <->
              requestHasDO msgattrs = true))).
Proof.
  destruct (incRequest_shape msgattrs)
    as [(counted & Hc & Heq) | (code & counted & Hop & Hcode & Hc & ->)].
  - assert (Hend : ending (incRequest AF_INET AF_INET6 IPPROTO_UDP
                                      IPPROTO_TCP msgattrs) = Returned)
      by (rewrite Heq; now destruct (requestHasBadSig msgattrs)).
    assert (Hrange : forall code,
               getRequestOpCode msgattrs = Some code -> (code < 16)%N).
    { intros code Hop. apply opcode_counter_in_range. intros Hnone.
      revert Hend. unfold incRequest. cbv zeta. rewrite Hop, Hnone.
      discriminate. }
    split; [split; [intros _; exact Hrange | intros _; exact Hend]|].
    split; [rewrite Hend; discriminate|]. intros _.
    assert (Hno : forall type, (5 < stage type)%nat -> ~ In type counted)
      by (intros type Ht; apply (staged_outside _ _ _ _ Hc); now right).
    rewrite Heq. split; intros Hbad; rewrite Hbad; cbn [calls].
    + rewrite !in_snoc, last_last.
      split; [|split; [|reflexivity]]; intros [Hin|Hin];
        try discriminate Hin; revert Hin; apply Hno; cbn; lia.
    + destruct (requestHasEDNS0 msgattrs), (requestHasDO msgattrs);
        rewrite ?in_snoc;
        (split; [|split; split]);
        try (intros _; reflexivity); try discriminate;
        try (intros _; tauto);
        intros Hin;
        repeat (destruct Hin as [Hin|Hin]; try discriminate Hin);
        exfalso; revert Hin; apply Hno; cbn; lia.
  - cbn [ending]. split; [|split; discriminate].
    split; [discriminate|]. intros H. specialize (H code Hop). lia.
Qed.

(** X18: a response is always counted up to its rcode, also when the
    count then throws: the counter of responses is the first one
    incremented, and the counter of the rcode is incremented, that of the
    other rcodes for every rcode of seventeen or more.  The counter of bad
    EDNS versions is incremented exactly for the rcode BADVERS.  The count
    throws exactly when the request had no opcode, and never reads outside
    a table. *)
Theorem response_is_counted_before_the_throw
    (msgattrs : MessageAttributes) (response : Message) :
  (ending (incResponse msgattrs response) = ThrewUnexpected <->
   getRequestOpCode msgattrs = None)
  /\ ending (incResponse msgattrs response) <> ReadOutOfBounds
  /\ hd_error (calls (incResponse msgattrs response)) = Some MSG_RESPONSE
  /\ In (rcode_counter (getRcode response))
        (calls (incResponse msgattrs response))
  /\ ((17 <= getRcode response)%N ->
      In MSG_RCODE_OTHER (calls (incResponse msgattrs response)))
  /\ (In MSG_REQUEST_BADEDNSVER (calls (incResponse msgattrs response)) <->
      getRcode response = 16%N).
Proof.
  destruct (incResponse_shape msgattrs response)
    as (prefix & counted & Hp & Hhd & Hcounted & Hc & Heq).
  assert (Hfirst : hd_error counted = Some MSG_RESPONSE).
  { rewrite Hcounted. destruct prefix as [|x rest]; [discriminate Hhd|].
    now destruct (N.eqb (getRcode response) Rcode_BADVERS). }
  assert (Hrcode : In (rcode_counter (getRcode response)) counted).
  { rewrite Hcounted.
    destruct (N.eqb (getRcode response) Rcode_BADVERS);
      rewrite ?in_snoc; tauto. }
  assert (Hbad : In MSG_REQUEST_BADEDNSVER counted <->
                 getRcode response = 16%N).
  { pose proof (rcode_counter_stage (getRcode response)) as Hs.
    rewrite Hcounted.
    destruct (N.eqb_spec (getRcode response) Rcode_BADVERS) as [He|Hne];
      rewrite ?in_snoc.
    - split; [intros _; exact He | tauto].
    - split; [|intros He; now elim Hne].
      intros [Hin|Hin]; [|rewrite Hin in Hs; discriminate Hs].
      exfalso. revert Hin. outside_stages Hp. }
  assert (Hkept : forall type,
             In type counted ->
             In type (calls (incResponse msgattrs response))).
  { intros type Hin. rewrite Heq.
    destruct (getRequestOpCode msgattrs) as [code|]; [|exact Hin].
    destruct (negb (requestHasBadSig msgattrs) && N.eqb code Opcode_QUERY);
      [|exact Hin].
    cbn [calls].
    destruct (getHeaderFlag_AA response),
      (N.eqb (getRcode response) Rcode_NOERROR_CODE),
      (N.ltb 0 (getRRCount_ANSWER response)),
      (N.eqb (getRcode response) Rcode_REFUSED_CODE),
      (negb (getHeaderFlag_RD response));
      rewrite ?in_snoc; tauto. }
  assert (Hadded : forall type,
             In type (calls (incResponse msgattrs response)) ->
             In type counted \/ (14 < stage type)%nat).
  { intros type. rewrite Heq.
    destruct (getRequestOpCode msgattrs) as [code|]; [|now left].
    destruct (negb (requestHasBadSig msgattrs) && N.eqb code Opcode_QUERY);
      [|now left].
    cbn [calls].
    destruct (getHeaderFlag_AA response),
      (N.eqb (getRcode response) Rcode_NOERROR_CODE),
      (N.ltb 0 (getRRCount_ANSWER response)),
      (N.eqb (getRcode response) Rcode_REFUSED_CODE),
      (negb (getHeaderFlag_RD response));
      rewrite ?in_snoc; intros Hin;
      repeat (destruct Hin as [Hin|Hin]);
      try (now left); subst type; right; cbn; lia. }
  split; [|split; [|split; [|split; [|split]]]].
  - rewrite Heq. destruct (getRequestOpCode msgattrs) as [code|].
    + destruct (negb (requestHasBadSig msgattrs) && N.eqb code Opcode_QUERY);
        split; discriminate.
    + split; reflexivity.
  - rewrite Heq. destruct (getRequestOpCode msgattrs) as [code|];
      [destruct (negb (requestHasBadSig msgattrs)
                 && N.eqb code Opcode_QUERY)|]; discriminate.
  - destruct counted as [|x rest]; [discriminate Hfirst|].
    injection Hfirst as ->.
    assert (Hin : In MSG_RESPONSE
                     (calls (incResponse msgattrs response)))
      by (apply Hkept; now left).
    revert Hin. rewrite Heq.
    destruct (getRequestOpCode msgattrs) as [code|]; [|reflexivity].
    destruct (negb (requestHasBadSig msgattrs) && N.eqb code Opcode_QUERY);
      [|reflexivity].
    cbn [calls].
    destruct (getHeaderFlag_AA response),
      (N.eqb (getRcode response) Rcode_NOERROR_CODE),
      (N.ltb 0 (getRRCount_ANSWER response)),
      (N.eqb (getRcode response) Rcode_REFUSED_CODE),
      (negb (getHeaderFlag_RD response)); reflexivity.
  - now apply Hkept.
  - intros Hge. rewrite <- (rcode_counter_outside _ Hge). now apply Hkept.
  - split.
    + intros Hin. apply Hadded in Hin. destruct Hin as [Hin|Hst];
        [now apply Hbad | cbn in Hst; lia].
    + intros He. apply Hkept. now apply Hbad.
Qed.

(** X19: the counters of the kind of answer are incremented only for a
    request of opcode QUERY without bad signature.  For such a request
    exactly one of the counters of authoritative and of other answers is
    incremented, by the AA bit of the response, and the counters of
    successes, of empty answers, of referrals and of rejections are
    incremented exactly for: rcode NOERROR with an answer; NOERROR with
    no answer and AA; NOERROR with no answer and no AA; REFUSED without
    RD in the response. *)
Theorem answers_are_counted_by_kind
    (msgattrs : MessageAttributes) (response : Message) :
  (forall type,
      (14 < stage type)%nat ->
      In type (calls (incResponse msgattrs response)) ->
      getRequestOpCode msgattrs = Some Opcode_QUERY
      /\ requestHasBadSig msgattrs = false)
  /\ (getRequestOpCode msgattrs = Some Opcode_QUERY ->
      requestHasBadSig msgattrs = false ->
      (In MSG_QRYAUTHANS (calls (incResponse msgattrs response)) <->
       getHeaderFlag_AA response = true)
      /\ (In MSG_QRYNOAUTHANS (calls (incResponse msgattrs response)) <->
          getHeaderFlag_AA response = false)
      /\ (In MSG_QRYSUCCESS (calls (incResponse msgattrs response)) <->
          getRcode response = 0%N /\ (0 < getRRCount_ANSWER response)%N)
      /\ (In MSG_QRYNXRRSET (calls (incResponse msgattrs response)) <->
          getRcode response = 0%N /\ getRRCount_ANSWER response = 0%N
          /\ getHeaderFlag_AA response = true)
      /\ (In MSG_QRYREFERRAL (calls (incResponse msgattrs response)) <->
          getRcode response = 0%N /\ getRRCount_ANSWER response = 0%N
          /\ getHeaderFlag_AA response = false)
      /\ (In MSG_QRYREJECT (calls (incResponse msgattrs response)) <->
          getRcode response = 5%N /\ getHeaderFlag_RD response = false)).
Proof.
  destruct (incResponse_shape msgattrs response)
    as (prefix & counted & _ & _ & _ & Hc & Heq).
  assert (Hno : forall type, (14 < stage type)%nat -> ~ In type counted)
    by (intros type Ht; apply (staged_outside _ _ _ _ Hc); now right).
  rewrite Heq. clear Heq. split.
  - intros type Ht.
    destruct (getRequestOpCode msgattrs) as [code|];
      [|intros Hin; now elim (Hno type Ht)].
    destruct (requestHasBadSig msgattrs); cbn [negb andb];
      [intros Hin; now elim (Hno type Ht)|].
    destruct (N.eqb_spec code Opcode_QUERY) as [->|Hne];
      [now split | intros Hin; now elim (Hno type Ht)].
  - intros -> ->. cbn [negb andb N.eqb Opcode_QUERY calls].
    unfold Rcode_NOERROR_CODE, Rcode_REFUSED_CODE.
    pose proof (Hno MSG_QRYAUTHANS ltac:(cbn; lia)) as H1.
    pose proof (Hno MSG_QRYNOAUTHANS ltac:(cbn; lia)) as H2.
    pose proof (Hno MSG_QRYSUCCESS ltac:(cbn; lia)) as H3.
    pose proof (Hno MSG_QRYNXRRSET ltac:(cbn; lia)) as H4.
    pose proof (Hno MSG_QRYREFERRAL ltac:(cbn; lia)) as H5.
    pose proof (Hno MSG_QRYREJECT ltac:(cbn; lia)) as H6.
    destruct (getHeaderFlag_AA response),
      (N.eqb_spec (getRcode response) 0) as [Hz|Hz],
      (N.ltb_spec 0 (getRRCount_ANSWER response)) as [Hr|Hr],
      (N.eqb_spec (getRcode response) 5) as [Hf|Hf],
      (getHeaderFlag_RD response);
      cbn [negb]; rewrite ?in_snoc;
      intuition (try discriminate; try congruence; try lia).
Qed.
End CountingProperties.

Section ItemTreeProperties.
Variable Counter : Type.
Variable Counter_get : Counter -> MsgCounterType -> Z.

Lemma items_in_range (items : list (string * Element)) :
  in_int64_range (MapElement items) <->
  Forall (fun item => in_int64_range (snd item)) items.
Proof.
  cbn [in_int64_range].
  induction items as [|[name value] rest IH].
  - split; [constructor | exact (fun _ => I)].
  - split.
    + intros [Hv Hrest]. constructor; [exact Hv | now apply IH].
    + intros H. inversion H as [|? ? Hv Hrest]; subst.
      split; [exact Hv | now apply IH].
Qed.

Lemma Element_set_range (items : list (string * Element)) (name : string)
      (value : Element) :
  in_int64_range (MapElement items) -> in_int64_range value ->
  in_int64_range (MapElement (Element_set items name value)).
Proof.
  rewrite !items_in_range. intros Hitems Hvalue.
  induction items as [|[key old] rest IH]; cbn [Element_set].
  - repeat constructor. exact Hvalue.
  - inversion Hitems as [|? ? Hold Hrest]; subst.
    destruct (String.eqb key name); constructor;
      [exact Hvalue | exact Hrest | exact Hold | now apply IH].
Qed.

Lemma Element_set_found (items : list (string * Element)) (name : string)
      (value : Element) :
  List.find (fun item => String.eqb (fst item) name)
            (Element_set items name value)
  = Some (match List.find (fun item => String.eqb (fst item) name) items
          with
          | Some (key, _) => key
          | None => name
          end, value).
Proof.
  induction items as [|[key old] rest IH]; cbn [Element_set List.find fst].
  - now rewrite String.eqb_refl.
  - destruct (String.eqb key name) eqn:E; cbn [List.find fst]; rewrite E;
      [reflexivity | exact IH].
Qed.

Lemma fillNode_range (counter : Counter) :
  forall (spec : CounterSpec) (trees : list (string * Element)),
    in_int64_range (MapElement trees) ->
    in_int64_range (MapElement (fillNode Counter_get counter spec trees)).
Proof.
  fix IH 1. intros [name counter_id | name sub_counters] trees Htrees;
    cbn [fillNode].
  - apply Element_set_range; [exact Htrees|]. cbn [in_int64_range].
    change 0x7fffffffffffffff with (Z.ones 63).
    rewrite Z.land_ones by lia. apply Z.mod_pos_bound. lia.
  - apply Element_set_range; [exact Htrees|].
    assert (Hsub : in_int64_range (MapElement [])) by exact I.
    revert Hsub. generalize (@nil (string * Element)).
    induction sub_counters as [|entry rest IHrest]; intros sub Hsub;
      cbn [fold_left]; [exact Hsub|].
    apply IHrest. now apply IH.
Qed.

Lemma fillNodes_range (counter : Counter) (type_tree : list CounterSpec) :
  forall trees,
    in_int64_range (MapElement trees) ->
    in_int64_range (MapElement (fillNodes Counter_get counter type_tree trees)).
Proof.
  unfold fillNodes. induction type_tree as [|entry rest IH]; intros trees H;
    cbn [fold_left]; [exact H|].
  apply IH. now apply fillNode_range.
Qed.

(** X20: the item tree of the counters has the items of the server under
    the names zones and _SERVER_, and every integer in it is in the range
    of a 64-bit signed integer that is not negative, whatever the
    counters hold; the value of an item that is not overwritten is the
    value of its counter cut to 63 bits. *)
Theorem item_tree_is_in_range
    (msg_counter_tree : list CounterSpec) (server_msg_counter_ : Counter) :
  in_int64_range (get Counter_get msg_counter_tree server_msg_counter_)
  /\ Element_at (get Counter_get msg_counter_tree server_msg_counter_)
                ["zones"; "_SERVER_"]%string
     = Some (MapElement (fillNodes Counter_get server_msg_counter_
                                   msg_counter_tree []))
  /\ (forall trees name counter_id,
         Element_at (MapElement
                       (fillNode Counter_get server_msg_counter_
                                 (CounterItem name counter_id) trees))
                    [name]
         = Some (IntElement
                   (Counter_get server_msg_counter_ counter_id mod 2 ^ 63))).
Proof.
  split; [|split].
  - unfold get.
    repeat (apply Element_set_range; [exact I|]).
    apply fillNodes_range. exact I.
  - reflexivity.
  - intros trees name counter_id. cbn [fillNode Element_at].
    rewrite Element_set_found.
    change 0x7fffffffffffffff with (Z.ones 63).
    now rewrite Z.land_ones by lia.
Qed.
End ItemTreeProperties.

(** A query over UDP and IPv4 with RD and EDNS0, answered from the zone. *)
Example counters_of_a_query :
  calls (inc 2 10 17 6
             (mkMessageAttributes 2 17 (Some 0%N) true false false true false
                                  false false)
             (mkMessage (Some 0) 0 1 true true) true)
  = [MSG_REQUEST_IPV4; MSG_REQUEST_UDP; MSG_OPCODE_QUERY; MSG_QRYRECURSION;
     MSG_REQUEST_EDNS0; MSG_RESPONSE; MSG_RESPONSE_EDNS0; MSG_RCODE_NOERROR;
     MSG_QRYAUTHANS; MSG_QRYSUCCESS].
Proof. reflexivity. Qed.
End StatisticsProperties.

(** * The mutex and the condition variable *)

Section SyncProperties.
Import Sync.

(** X21: a mutex is made exactly when the three pthread calls of its
    constructor and the destruction of the attributes succeed, and it is
    then unlocked.  The constructor is aborted exactly when the
    attributes were made and their destruction fails, whatever else
    happened. *)
Theorem mutex_is_made_unlocked
    (ENOMEM EAGAIN : Z)
    (attr_init_result settype_result mutex_init_result destroy_result : Z) :
  (forall m,
      Mutex_new ENOMEM EAGAIN attr_init_result settype_result
                mutex_init_result destroy_result = Completed m <->
      attr_init_result = 0 /\ settype_result = 0 /\ mutex_init_result = 0
      /\ destroy_result = 0 /\ m = Some (mkImpl 0))
  /\ (Mutex_new ENOMEM EAGAIN attr_init_result settype_result
                mutex_init_result destroy_result = Aborted <->
      attr_init_result = 0 /\ destroy_result <> 0)
  /\ (forall e m,
         Mutex_new ENOMEM EAGAIN attr_init_result settype_result
                   mutex_init_result destroy_result = Threw e m ->
         m = None).
Proof.
  unfold Mutex_new, leave_with_attributes.
  split; [|split].
  - intros m. split.
    + destruct (Z.eqb_spec attr_init_result 0) as [Ha|Ha],
        (Z.eqb_spec settype_result 0) as [Hs|Hs],
        (Z.eqb_spec mutex_init_result 0) as [Hm|Hm],
        (Z.eqb_spec destroy_result 0) as [Hd|Hd],
        (attr_init_result =? ENOMEM),
        ((mutex_init_result =? ENOMEM) || (mutex_init_result =? EAGAIN));
        cbn [negb]; intros H; try discriminate H;
        injection H as <-; now repeat split.
    + intros (-> & -> & -> & -> & ->). reflexivity.
  - split.
    + destruct (Z.eqb_spec attr_init_result 0) as [Ha|Ha],
        (Z.eqb_spec settype_result 0) as [Hs|Hs],
        (Z.eqb_spec mutex_init_result 0) as [Hm|Hm],
        (Z.eqb_spec destroy_result 0) as [Hd|Hd],
        (attr_init_result =? ENOMEM),
        ((mutex_init_result =? ENOMEM) || (mutex_init_result =? EAGAIN));
        cbn [negb]; intros H; try discriminate H; now split.
    + intros [-> Hd]. cbn [Z.eqb].
      destruct (Z.eqb_spec destroy_result 0) as [Hz|_]; [contradiction|].
      destruct (negb (settype_result =? 0)); [reflexivity|].
      destruct (mutex_init_result =? 0); [reflexivity|].
      destruct ((mutex_init_result =? ENOMEM) || (mutex_init_result =? EAGAIN));
        reflexivity.
  - intros e m.
    destruct (attr_init_result =? 0), (negb (settype_result =? 0)),
      (mutex_init_result =? 0), (destroy_result =? 0),
      (attr_init_result =? ENOMEM),
      ((mutex_init_result =? ENOMEM) || (mutex_init_result =? EAGAIN));
      intros H; try discriminate H; injection H as _ <-; reflexivity.
Qed.

(** X22: locking and unlocking.  [lock] returns exactly when the pthread
    call succeeded on a mutex that was not locked, which then is; when
    the pthread call fails it throws InvalidOperation and leaves the
    mutex as it was; when the call succeeds on a mutex counted as locked
    the process is aborted.  [unlock] never throws: it returns, with the
    count one less, when the mutex was locked and the pthread call
    succeeds, and is aborted otherwise.  A lock followed by an unlock
    leaves the mutex as it was. *)
Theorem lock_and_unlock (impl_ : Impl) (lock_result unlock_result : Z) :
  (forall m,
      lock (Some impl_) lock_result = Completed m <->
      lock_result = 0 /\ locked_count impl_ = 0%N /\ m = Some (mkImpl 1))
  /\ (forall e m,
         lock (Some impl_) lock_result = Threw e m <->
         lock_result <> 0 /\ e = InvalidOperation /\ m = Some impl_)
  /\ (forall m,
         unlock (Some impl_) unlock_result = Completed m <->
         unlock_result = 0 /\ locked_count impl_ <> 0%N
         /\ m = Some (mkImpl (locked_count impl_ - 1)))
  /\ (forall e m, unlock (Some impl_) unlock_result <> Threw e m)
  /\ (forall m,
         lock (Some impl_) 0 = Completed m ->
         unlock m 0 = Completed (Some impl_)).
Proof.
  destruct impl_ as [count].
  unfold lock, unlock, postLockAction, preUnlockAction. cbn [locked_count].
  split; [|split; [|split; [|split]]].
  - intros m. split.
    + destruct (Z.eqb_spec lock_result 0) as [Hr|Hr],
        (N.eqb_spec count 0) as [Hc|Hc];
        cbn [negb]; intros H; try discriminate H.
      injection H as <-. subst count. now repeat split.
    + intros (-> & -> & ->). reflexivity.
  - intros e m. split.
    + destruct (Z.eqb_spec lock_result 0) as [Hr|Hr],
        (N.eqb_spec count 0) as [Hc|Hc];
        cbn [negb]; intros H; try discriminate H;
        injection H as <- <-; now repeat split.
    + intros (Hr & -> & ->).
      destruct (Z.eqb_spec lock_result 0); [contradiction | reflexivity].
  - intros m. split.
    + destruct (N.eqb_spec count 0) as [Hc|Hc],
        (Z.eqb_spec unlock_result 0) as [Hr|Hr];
        intros H; try discriminate H.
      injection H as <-. now repeat split.
    + intros (-> & Hc & ->).
      destruct (N.eqb_spec count 0); [contradiction | reflexivity].
  - intros e m.
    destruct (N.eqb count 0), (unlock_result =? 0); discriminate.
  - intros m. cbn [Z.eqb negb].
    destruct (N.eqb_spec count 0) as [->|Hc]; cbn [negb]; [|discriminate].
    intros [= <-]. reflexivity.
Qed.

(** X23: waiting on a condition variable.  With a mutex that is not
    locked the wait throws InvalidOperation and the mutex is as it was.
    With a mutex locked once the mutex is locked once after the wait,
    which returns when [pthread_cond_wait] succeeded and throws BadValue
    when it failed.  A count above one aborts the process. *)
Theorem wait_keeps_the_mutex_locked (impl_ : Impl) (wait_result : Z) :
  (locked_count impl_ = 0%N ->
   CondVar_wait impl_ wait_result = Threw InvalidOperation impl_)
  /\ (locked_count impl_ = 1%N ->
      CondVar_wait impl_ wait_result
      = if wait_result =? 0 then Completed impl_ else Threw BadValue impl_)
  /\ ((1 < locked_count impl_)%N ->
      CondVar_wait impl_ wait_result = Aborted)
  /\ (forall e after,
         CondVar_wait impl_ wait_result = Threw e after ->
         after = impl_
         /\ (e = InvalidOperation /\ locked impl_ = false
             \/ e = BadValue /\ locked impl_ = true /\ wait_result <> 0)).
Proof.
  destruct impl_ as [count].
  unfold CondVar_wait, preUnlockAction, postLockAction, locked.
  cbn [locked_count].
  split; [|split; [|split]].
  - intros ->. reflexivity.
  - intros ->. cbn. now destruct (wait_result =? 0).
  - intros Hc. destruct (N.eqb_spec count 0) as [->|_]; [lia|].
    cbn [locked_count]. destruct (N.eqb_spec (count - 1) 0); [lia|].
    reflexivity.
  - intros e after. destruct (N.eqb_spec count 0) as [->|Hc].
    + intros [= <- <-]. split; [reflexivity | now left].
    + cbn [locked_count].
      destruct (N.eqb_spec (count - 1) 0) as [Hone|Hmore]; cbn [negb];
        [|discriminate].
      destruct (Z.eqb_spec wait_result 0) as [Hw|Hw]; cbn [negb];
        [discriminate|].
      intros [= <- <-].
      replace (count - 1 + 1)%N with count by lia.
      split; [reflexivity|]. right. now repeat split.
Qed.

Lemma call_keeps_the_count (c : Call) (impl_ : Impl) :
  (locked_count impl_ <= 1)%N ->
  match call c impl_ with
  | Completed after | Threw _ after => (locked_count after <= 1)%N
  | Aborted => True
  end.
Proof.
  destruct impl_ as [count]. cbn [locked_count]. intros Hle.
  destruct c as [r|r|r]; cbn [call].
  - unfold lock, postLockAction. cbn [locked_count].
    destruct (r =? 0); cbn [negb]; [|exact Hle].
    destruct (N.eqb_spec count 0) as [->|_]; cbn [negb]; [cbn; lia | exact I].
  - unfold unlock, preUnlockAction. cbn [locked_count].
    destruct (N.eqb_spec count 0) as [->|_]; [exact I|].
    destruct (r =? 0); [cbn; lia | exact I].
  - unfold CondVar_wait, preUnlockAction, postLockAction.
    cbn [locked_count].
    destruct (N.eqb_spec count 0) as [->|Hc]; [cbn; lia|].
    cbn [locked_count].
    destruct (N.eqb_spec (count - 1) 0); cbn [negb]; [|exact I].
    destruct (r =? 0); cbn; lia.
Qed.

(** X24: whatever is called on a mutex made unlocked, and whatever the
    pthread calls answer, as long as the process is not aborted the
    count of locks is zero or one: [locked] tells whether it is one. *)
Theorem count_of_locks_is_at_most_one (cs : list Call) (after : Impl)
    (Hcalls : calls_in_turn cs (mkImpl 0) = Some after) :
  (locked_count after <= 1)%N
  /\ (locked after = true <-> locked_count after = 1%N).
Proof.
  assert (Hle : (locked_count after <= 1)%N).
  { assert (Hgen : forall impl_,
               (locked_count impl_ <= 1)%N ->
               calls_in_turn cs impl_ = Some after ->
               (locked_count after <= 1)%N).
    { clear Hcalls. induction cs as [|c rest IH]; intros impl_ Hle;
        cbn [calls_in_turn].
      - now intros [= <-].
      - pose proof (call_keeps_the_count c impl_ Hle) as Hstep.
        destruct (call c impl_) as [next|e next|]; try discriminate;
          now apply IH. }
    apply (Hgen (mkImpl 0)); [cbn; lia | exact Hcalls]. }
  split; [exact Hle|]. unfold locked.
  destruct (N.eqb_spec (locked_count after) 0) as [Hz|Hnz]; cbn [negb];
    split; intros H; try discriminate H; try reflexivity; lia.
Qed.

(** A lock, a wait that fails, an unlock: the mutex is unlocked again. *)
Lemma count_of_locks_is_at_most_one_witness :
  calls_in_turn [CallLock 0; CallWait 1; CallUnlock 0] (mkImpl 0)
  = Some (mkImpl 0)
  /\ (locked_count (mkImpl 0) <= 1)%N.
Proof.
  split; [reflexivity|].
  apply (count_of_locks_is_at_most_one
           [CallLock 0; CallWait 1; CallUnlock 0] (mkImpl 0)).
  reflexivity.
Defined.
End SyncProperties.

(** ** The prover at the sample zones *)

Local Open Scope string_scope.

#[local] Existing Instance ConcreteTree.ops.

(** A search of the sample tree without callback returns. *)
Lemma find_from_returns (t : ConcreteTree.DomainTree) :
  forall target_labels ret target path,
  exists r,
    ConcreteTree.find_from t target_labels ret target path None tt = Return r.
Proof.
  induction t as [|l IHl n d IHd r IHr]; intros ls ret target path;
    cbn [ConcreteTree.find_from]; [eexists; reflexivity|].
  destruct (getRelation (LabelSequence_compare ls (getLabels n)));
    try (eexists; reflexivity); try apply IHd.
  destruct (getOrder (LabelSequence_compare ls (getLabels n)) <? 0)%Z;
    [apply IHl | apply IHr].
Qed.

Lemma sample_lookups_do_not_throw (d : NSEC3Data) : lookups_do_not_throw d.
Proof.
  intros target e Hthrow.
  destruct (find_from_returns (getNSEC3Tree d) target NOTFOUND None
              ConcreteTree.empty_chain) as [r Hr].
  assert (Heq : Return r = Throw e) by (rewrite <- Hr; exact Hthrow).
  discriminate Heq.
Qed.

(** The closest-encloser proof for [b.example.]: the hash of the name does
    not match, that of its parent [example.] does. *)
Example closest_encloser_proof :
  findNSEC3 Samples.nsec3_finder ["b"; "example"; ""] true
  = Some (Return (FindNSEC3Result_new true 2
                    (covering_rrset Samples.nsec3_finder
                                    (Some Samples.hash_of_origin))
                    (covering_rrset Samples.nsec3_finder
                                    (Some Samples.hash_of_a)))).
Proof. vm_compute. reflexivity. Qed.

(** The hash of [b.example.] sorts after every hash of the sample tree; the
    covering node is the largest of them, that of [a.example.]. *)
Lemma covering_node_choice_witness :
  exists result node chain,
    hash_lookup Samples.nsec3_finder ["b"; "example"; ""]
                Samples.nsec3_data 3 3
    = Return (result, node, chain, tt)
    /\ result <> EXACTMATCH
    /\ findNSEC3_loop 1 Samples.nsec3_finder ["b"; "example"; ""] false
         Samples.nsec3_data 2 3 3 None
       = Some (Return (FindNSEC3Result_new false 3
                         (covering_rrset Samples.nsec3_finder
                                         (Some Samples.hash_of_a)) None)).
Proof.
  eassert (Hlook : hash_lookup Samples.nsec3_finder ["b"; "example"; ""]
                     Samples.nsec3_data 3 3
                   = Return (_, _, _, tt)) by (vm_compute; reflexivity).
  do 3 eexists. split; [exact Hlook|]. split; [discriminate|].
  destruct (covering_node_choice 0 Samples.nsec3_finder ["b"; "example"; ""]
              false Samples.nsec3_data 2 3 3 None
              _ _ _ Samples.hash_of_a ltac:(lia) Hlook
              ltac:(discriminate) ltac:(discriminate) eq_refl)
    as (covering & [Hlargest _] & Hloop).
  rewrite Hloop, Hlargest; [reflexivity|].
  right. split; [reflexivity | reflexivity].
Defined.

(** With the hash of the origin missing from the tree of hashes, the
    recursive search for [b.example.] runs out of labels and throws. *)
Lemma findNSEC3_failure_exits_witness :
  lookups_do_not_throw Samples.broken_nsec3_data
  /\ findNSEC3 Samples.broken_nsec3_finder ["b"; "example"; ""] true
     = Some (Throw DataSourceError)
  /\ findNSEC3 Samples.nsec3_finder ["b"; "com"; ""] true
     = Some (Throw OutOfZone)
  /\ findNSEC3 Samples.finder ["b"; "example"; ""] true
     = Some (Throw DataSourceError).
Proof.
  split; [apply sample_lookups_do_not_throw|].
  destruct (findNSEC3_failure_exits Samples.broken_nsec3_finder
              ["b"; "example"; ""] true) as (_ & _ & Hexhaust & _).
  destruct (findNSEC3_failure_exits Samples.nsec3_finder ["b"; "com"; ""] true)
    as (_ & Hout & _).
  destruct (findNSEC3_failure_exits Samples.finder ["b"; "example"; ""] true)
    as (Hunsigned & _).
  split; [|split; [now apply Hout | now apply Hunsigned]].
  apply (Hexhaust Samples.broken_nsec3_data eq_refl eq_refl eq_refl);
    [discriminate|].
  intros l Hl. change (2 <= l <= 3)%Z in Hl.
  assert (Hcases : l = 2%Z \/ l = 3%Z) by lia.
  destruct Hcases as [-> | ->]; do 4 eexists;
    (split; [vm_compute; reflexivity|]);
    (split; [discriminate|]); (split; [discriminate | reflexivity]).
Defined.

(** ** The further properties at the sample zones *)

(** ** The tree of trees and the cut callback *)

Lemma cutCallback_no_throw (node : ZoneNode) (state : FindState)
      (e : Exception) :
  cutCallback node state <> Throw e.
Proof.
  unfold cutCallback.
  destruct (RdataSet_find (getData node) RRTypes.DNAME); [discriminate|].
  destruct (RdataSet_find (getData node) RRTypes.NS); [|discriminate].
  destruct (zonecut_node_ state); discriminate.
Qed.

Lemma find_from_cut_no_throw (t : ConcreteTree.DomainTree) :
  forall target_labels ret target path state e,
    ConcreteTree.find_from t target_labels ret target path (Some cutCallback)
                           state <> Throw e.
Proof.
  induction t as [|l IHl n d IHd r IHr]; intros ls ret target path state e;
    cbn [ConcreteTree.find_from]; [discriminate|].
  destruct (getRelation (LabelSequence_compare ls (getLabels n)));
    try discriminate.
  - destruct (getFlag n FLAG_CALLBACK); [|apply IHd].
    destruct (cutCallback n state) as [[stop state']|e'|] eqn:Hcb;
      cbn [bind]; [|now elim (cutCallback_no_throw n state e')|discriminate].
    destruct stop; [discriminate | apply IHd].
  - destruct (getOrder (LabelSequence_compare ls (getLabels n)) <? 0)%Z;
      [apply IHl | apply IHr].
Qed.

Lemma concrete_search_does_not_throw (zd : ZoneData) :
  tree_search_does_not_throw zd.
Proof.
  intros name from path state e.
  exact (find_from_cut_no_throw (getZoneTree zd) name NOTFOUND from path
                                state e).
Qed.

Lemma find_from_cut_trace (t : ConcreteTree.DomainTree) :
  forall target_labels ret target path s0 s1 result node path' s,
    callback_run s0 s1 ->
    ConcreteTree.find_from t target_labels ret target path (Some cutCallback)
                           s1 = Return (result, node, path', s) ->
    callback_trace s0 s.
Proof.
  induction t as [|l IHl n d IHd r IHr];
    intros ls ret target path s0 s1 result node path' s Hrun;
    cbn [ConcreteTree.find_from].
  - intros [= _ _ _ <-]. now left.
  - destruct (getRelation (LabelSequence_compare ls (getLabels n))).
    + intros [= _ _ _ <-]. now left.
    + destruct (getFlag n FLAG_CALLBACK); [|now apply IHd].
      destruct (cutCallback n s1) as [[stop s2]| |] eqn:Hcb; cbn [bind];
        try discriminate.
      destruct stop.
      * intros [= _ _ _ <-]. right. now exists s1, n.
      * apply IHd. now apply (@run_step s0 s1 s2 n).
    + intros [= _ _ _ <-]. now left.
    + intros [= _ _ _ <-]. now left.
    + destruct (getOrder (LabelSequence_compare ls (getLabels n)) <? 0)%Z;
        [now apply IHl | now apply IHr].
Qed.

Lemma concrete_search_runs_callback (zd : ZoneData) :
  search_runs_callback zd.
Proof.
  intros name from path s0 result node path' s Hfind.
  exact (find_from_cut_trace (getZoneTree zd) name NOTFOUND from path s0 s0
           result node path' s (@run_start s0) Hfind).
Qed.

(** [x.wild.example.] is answered from [*.wild.example.]. *)
Lemma wildcard_answer_only_when_witness :
  exists stop_node path state,
    first_search Samples.zone ["x"; "wild"; "example"; ""] FIND_DEFAULT
    = Return (PARTIALMATCH, Some stop_node, path, state)
    /\ getFlag stop_node WILDCARD_NODE = true.
Proof.
  destruct (wildcard_answer_only_when None Samples.finder
              ["x"; "wild"; "example"; ""] RRTypes.TXT None FIND_DEFAULT _ _
              eq_refl eq_refl)
    as (_ & stop & path & state & Hs & Hw & _).
  exists stop, path, state. split; [exact Hs | exact Hw].
Defined.

(** A name of another zone: the query throws OutOfZone. *)
Lemma find_throws_only_out_of_zone_witness :
  find_internal None Samples.finder ["x"; "com"; ""] RRTypes.A None
                FIND_DEFAULT = Throw OutOfZone.
Proof.
  apply (find_throws_only_out_of_zone None Samples.finder ["x"; "com"; ""]
           RRTypes.A None FIND_DEFAULT OutOfZone
           (concrete_search_does_not_throw Samples.zone)).
  split; [reflexivity|]. do 3 eexists. reflexivity.
Defined.

(** The address of [a.example.], asked for with FIND_DNSSEC. *)
Lemma answer_rrset_is_of_the_found_node_witness :
  exists ctx r,
    outcome_code (find None Samples.finder ["a"; "example"; ""] RRTypes.A
                       FIND_DNSSEC) = Some (code ctx)
    /\ rrset ctx = Some r
    /\ found_node ctx = Some (rrset_node r)
    /\ rrset_dnssec_ok r = true.
Proof.
  pose proof (answer_rrset_is_of_the_found_node None Samples.finder
                ["a"; "example"; ""] RRTypes.A None FIND_DNSSEC _ _ eq_refl)
    as [_ H].
  eexists. eexists. split; [reflexivity|]. split; [reflexivity|].
  destruct H as (Hn & _ & _ & Hd & _). split; [exact Hn | exact Hd].
Defined.

(** [c.example.] is an empty node; the NSEC of the answer is that of
    [a.example.], the name before it. *)
Lemma negative_answer_carries_only_nsec_witness :
  exists ctx target',
    find_internal None Samples.finder ["c"; "example"; ""] RRTypes.A None
                  FIND_DNSSEC = Return (ctx, target')
    /\ code ctx = NXRRSET
    /\ set_of_node RRTypes.NSEC (found_node ctx) (found_rdset ctx)
    /\ found_node ctx = Some Samples.a.
Proof.
  destruct (negative_answer_carries_only_nsec None Samples.finder
              ["c"; "example"; ""] RRTypes.A None FIND_DNSSEC _ _ eq_refl
              (or_introl eq_refl)) as (_ & Hset & _).
  eexists. eexists. split; [reflexivity|]. split; [reflexivity|].
  split; [apply Hset; discriminate | reflexivity].
Defined.

Lemma positive_answer_is_of_the_type_asked_witness :
  exists ctx target',
    find_internal None Samples.finder ["a"; "example"; ""] RRTypes.A None
                  FIND_DEFAULT = Return (ctx, target')
    /\ code ctx = SUCCESS
    /\ set_of_node RRTypes.A (found_node ctx) (found_rdset ctx)
    /\ found_node ctx = Some Samples.a.
Proof.
  destruct (positive_answer_is_of_the_type_asked None Samples.finder
              ["a"; "example"; ""] RRTypes.A FIND_DEFAULT _ _ eq_refl)
    as (_ & Hset & _).
  eexists. eexists. split; [reflexivity|]. split; [reflexivity|].
  split; [apply Hset; reflexivity | reflexivity].
Defined.

(** The two sets of [a.example.], collected after what was there. *)
Lemma findAll_collects_the_sets_of_the_node_witness :
  exists ctx target',
    findAll None Samples.finder ["a"; "example"; ""] [None] FIND_DEFAULT
    = Return (ctx, target')
    /\ code ctx = SUCCESS
    /\ List.length target' = 3%nat.
Proof.
  destruct (findAll_collects_the_sets_of_the_node None Samples.finder
              ["a"; "example"; ""] [None] FIND_DEFAULT _ _ eq_refl)
    as [_ [(Hc & _ & _ & node & _ & _ & Ht) | (Hc & _)]].
  - eexists. eexists. split; [reflexivity|]. split; [exact Hc|].
    reflexivity.
  - now elim Hc.
Defined.

(** Below the zone cut [sub.example.] the answer is the NS of the cut. *)
Lemma referral_carries_the_set_of_its_node_witness :
  exists ctx target',
    find_internal None Samples.finder ["wild"; "sub"; "example"; ""]
                  RRTypes.A None FIND_DEFAULT = Return (ctx, target')
    /\ code ctx = DELEGATION
    /\ set_of_node RRTypes.NS (found_node ctx) (found_rdset ctx)
    /\ found_node ctx = Some Samples.sub.
Proof.
  destruct (referral_carries_the_set_of_its_node None Samples.finder
              ["wild"; "sub"; "example"; ""] RRTypes.A None FIND_DEFAULT _ _
              (concrete_search_runs_callback Samples.zone) eq_refl)
    as [Hset _].
  eexists. eexists. split; [reflexivity|]. split; [reflexivity|].
  split; [apply Hset; reflexivity | reflexivity].
Defined.

(** The sample zone is signed, the answer for [a.example.] has no flag. *)
Lemma flags_of_answers_witness :
  isSigned Samples.zone = true
  /\ exists ctx,
       outcome_code (find None Samples.finder ["a"; "example"; ""] RRTypes.A
                          FIND_DNSSEC) = Some (code ctx)
       /\ flags ctx = RESULT_DEFAULT.
Proof.
  split; [reflexivity|].
  destruct (flags_of_answers None Samples.finder ["a"; "example"; ""]
              RRTypes.A None FIND_DNSSEC _ _ eq_refl) as (Hflags & _).
  eexists. split; [reflexivity|].
  apply Hflags; [reflexivity | discriminate | discriminate].
Defined.

(** The closest encloser of [b.example.] in the NSEC3-signed sample zone
    is [example.], of two labels. *)
Lemma findNSEC3_closest_encloser_witness :
  exists r d l,
    findNSEC3 Samples.nsec3_finder ["b"; "example"; ""] true
    = Some (Return r)
    /\ getNSEC3Data Samples.nsec3_zone = Some d
    /\ 2 <= l <= 3
    /\ closest_labels r = l mod 256
    /\ closest_labels r = 2.
Proof.
  assert (Hfind : findNSEC3 Samples.nsec3_finder ["b"; "example"; ""] true
                  = Some (Return (FindNSEC3Result_new true 2
                            (covering_rrset Samples.nsec3_finder
                                            (Some Samples.hash_of_origin))
                            (covering_rrset Samples.nsec3_finder
                                            (Some Samples.hash_of_a)))))
    by (vm_compute; reflexivity).
  destruct (findNSEC3_closest_encloser Samples.nsec3_finder
              ["b"; "example"; ""] true _
              ltac:(vm_compute; discriminate) Hfind)
    as (_ & d & l & Hd & Hl & Hcl & _).
  eexists. exists d, l. split; [exact Hfind|]. split; [exact Hd|].
  split; [exact Hl|]. split; [exact Hcl | reflexivity].
Defined.

(** [Example.] and [example.] have the hash of RFC 5155, appendix A. *)
Lemma equal_names_hash_alike_witness :
  InMemoryZoneFinderNSEC3Calculate SHA1Impl.sha1 Base32Hex.encodeBase32Hex
    ["Example"; ""] 12 Samples.salt 4
  = InMemoryZoneFinderNSEC3Calculate SHA1Impl.sha1 Base32Hex.encodeBase32Hex
      ["example"; ""] 12 Samples.salt 4.
Proof.
  apply (equal_names_hash_alike SHA1Impl.sha1 Base32Hex.encodeBase32Hex
           ["Example"; ""] ["example"; ""] 12 Samples.salt 4).
  reflexivity.
Defined.

Lemma additional_only_adds_requested_sets_witness :
  exists added,
    getAdditionalImpl None AdditionalSamples.name_fields AdditionalSamples.ns_context [RRTypes.A]
                      []
    = Return added
    /\ List.length added = 2%nat
    /\ Forall (fun p => exists r, p = Some r
                                  /\ rdata_type (rrset_rdataset r) = RRTypes.A)
              added.
Proof.
  destruct (additional_only_adds_requested_sets None AdditionalSamples.name_fields
              AdditionalSamples.ns_context [RRTypes.A] [] _ eq_refl)
    as [(added & Heq & Hall) _].
  eexists. split; [reflexivity|]. split; [reflexivity|].
  cbn [app] in Heq. rewrite Heq.
  eapply Forall_impl; [|exact Hall].
  intros p (r & Hp & [Ht|[]] & _). exists r. split; [exact Hp | now symmetry].
Defined.

(** The name in the TXT of [*.wild.example.] is below the zone cut:
    nothing is added for it. *)
Lemma additional_stays_above_zone_cuts_witness :
  exists result',
    getAdditionalForRdataset None AdditionalSamples.name_fields AdditionalSamples.ns_context
      (Samples.rds RRTypes.TXT) [RRTypes.A] [] FIND_DEFAULT
    = Return result'
    /\ result' = []
    /\ Forall (fun p =>
                 exists r,
                   p = Some r
                   /\ (getFlag (rrset_node r) FLAG_CALLBACK = false
                       \/ node_ptr_eqb (rrset_node r) Samples.origin = true))
              result'.
Proof.
  destruct (additional_stays_above_zone_cuts None AdditionalSamples.name_fields
              AdditionalSamples.ns_context (Samples.rds RRTypes.TXT) [RRTypes.A] [] _
              FIND_DEFAULT ltac:(discriminate) eq_refl)
    as (added & Heq & Hall).
  eexists. split; [reflexivity|]. split; [reflexivity|].
  cbn [app] in Heq. rewrite Heq. exact Hall.
Defined.

(** [baz.foo.wild.example.] does not exist; asked for without FIND_DNSSEC
    the context has the value of the local that was never written. *)
Lemma additional_after_nxdomain_witness :
  exists ctx,
    find_context (Some Samples.a) Samples.finder
                 ["baz"; "foo"; "wild"; "example"; ""] RRTypes.TXT
                 FIND_DEFAULT = Return ctx
    /\ found_node_ ctx = Some Samples.a.
Proof.
  destruct (additional_after_nxdomain (Some Samples.a) AdditionalSamples.name_fields
              Samples.finder ["baz"; "foo"; "wild"; "example"; ""]
              RRTypes.TXT FIND_DEFAULT _ [] [] eq_refl eq_refl eq_refl)
    as (Hnode & _).
  eexists. split; [reflexivity | exact Hnode].
Defined.

(** The origin of the sample zone is [example.]. *)
Lemma getOrigin_is_the_name_of_the_origin_node_witness :
  getOrigin Samples.finder = ["example"; ""].
Proof.
  destruct (getOrigin_is_the_name_of_the_origin_node Samples.finder eq_refl)
    as [_ Hlabels].
  rewrite Hlabels. reflexivity.
Defined.
